(** * Restaurant booking system: the booking core of [backend.py]

    A shallow embedding of the CRUD layer of [backend.py] together with the
    part of PostgreSQL that its SQL statements rely on, and the properties of
    the specification stated over it.

    Modelling choices, all taken from the source:

    - The three relations are those of [create_tables].  [id SERIAL PRIMARY
      KEY] makes a relation a finite map from the identity to the remaining
      columns; each relation has its sequence, which [nextval] advances even
      when the statement that called it fails.
    - Nullable columns hold an [option]; [NOT NULL], [UNIQUE] and
      [FOREIGN KEY] (without [ON DELETE], hence [NO ACTION]) are enforced by
      the statements that can violate them.
    - Every backend function opens its own connection and runs one statement
      in one transaction: a statement either commits its effect or raises
      and leaves the relations as they were ([get_cursor] rolls back).
      Connectivity failures are not modelled.
    - A [date] is the day number that [date.toordinal()] gives, a [time] of
      the store a number of microseconds since midnight, a [datetime] a
      number of microseconds: [datetime.combine] and [timedelta(hours=h)]
      are linear in these, and Python raises [OverflowError] when a sum
      leaves the years 1 to 9999.
    - A Python [datetime.time] is a time of day with or without a UTC
      offset.  A [tzinfo] is taken to be a fixed offset, as
      [datetime.timezone] is, and so is the time zone of the session of the
      store.  psycopg2 writes an object with an offset as [timetz] or
      [timestamptz]; the column [TIME] keeps the time of day, and a
      [timestamp] compared with a [timestamptz] is read in the time zone of
      the session.
    - [CURRENT_TIMESTAMP] and [datetime.now()] are an argument [now] of the
      operations that read the clock.
    - A [string] stands for a Python [str] with one [ascii] per code point
      (code points below 256, without NUL, which psycopg2 does not write).
    - The update functions write the names of their keyword arguments into
      the [SET] list as they are.  A name is an identifier, as a keyword name
      is; the store folds it to lower case and refuses it when it is no
      column of the relation, and refuses a [SET] list that assigns a column
      twice.
    - An integer outside the range of [INTEGER] is refused by every
      statement that writes it to a column.  The identities that the
      sequences hand out are taken to stay within that range.
    - Strings are taken to fit their [VARCHAR(n)] columns: the lengths are
      not modelled.  An update value whose Python type is not the one of its
      column is refused by the store (PostgreSQL's casts of literals, such
      as ['5'] for an [INTEGER], are left out). *)

From Stdlib Require Import ZArith Ascii String.
From stdpp Require Import gmap strings list fin_maps sorting.

Local Open Scope Z_scope.

(** ** Dates, times and strings *)

Definition date := Z.
Definition time := Z.
Definition datetime := Z.

(** A [datetime.time] of Python: its time of day and, when it has a
    [tzinfo], its offset from UTC in microseconds. *)
Record pytime := mk_pytime {
  time_of_day : time;
  utcoffset : option Z
}.

(** A time without [tzinfo].  Where an operation expects a [pytime] and is
    given a [time], this is the time it is given. *)
Definition naive (t : time) : pytime := mk_pytime t None.

Coercion naive : time >-> pytime.

(** A [datetime.datetime] of Python: what its fields show, as a number of
    microseconds, and the offset of its [tzinfo]. *)
Record pydatetime := mk_pydatetime {
  wall_clock : datetime;
  tzinfo : option Z
}.

Definition microseconds_per_hour : Z := 3600000000.
Definition microseconds_per_day : Z := 24 * microseconds_per_hour.

(** [datetime.combine(booking_date, booking_time)], and the SQL expression
    [(booking_date || ' ' || booking_time::text)::timestamp]. *)
Definition combine (d : date) (t : time) : datetime :=
  d * microseconds_per_day + t.

(** [timedelta(hours=h)], and [INTERVAL 'h hours']. *)
Definition hours (h : Z) : Z := h * microseconds_per_hour.

(** [datetime.min] and [datetime.max]: 0001-01-01 00:00:00 and
    9999-12-31 23:59:59.999999, the days 1 and 3652059. *)
Definition datetime_min : datetime := combine 1 0.
Definition datetime_max : datetime := combine 3652059 (microseconds_per_day - 1).

Definition in_datetime_range (x : datetime) : Prop :=
  datetime_min ≤ x ≤ datetime_max.

(** [datetime.combine(d, t)] of Python: the fields of both, with the
    [tzinfo] of [t]. *)
Definition datetime_combine (d : date) (t : pytime) : pydatetime :=
  mk_pydatetime (combine d (time_of_day t)) (utcoffset t).

(** [x + timedelta(hours=h)]: arithmetic on the fields, the [tzinfo] kept;
    [None] stands for the [OverflowError] that Python raises when the
    result (or the [timedelta] itself, which then is larger still) is out
    of range. *)
Definition plus_hours (x : pydatetime) (h : Z) : option pydatetime :=
  let y := wall_clock x + hours h in
  if bool_decide (in_datetime_range y) then Some (mk_pydatetime y (tzinfo x))
  else None.

(** The [timestamp] that a comparison of the store sets against a parameter
    [x]: the wall clock of a naive [x]; for an [x] with an offset, written as
    [timestamptz], the instant of [x] as the clock of the session shows
    it. *)
Definition as_timestamp (zone : Z) (x : pydatetime) : datetime :=
  match tzinfo x with
  | None => wall_clock x
  | Some offset => wall_clock x - offset + zone
  end.

(** The time of day that the admission query works with: the one given, or
    for a time with an offset the one that the clock of the session shows
    at that instant. *)
Definition session_time (zone : Z) (t : pytime) : time :=
  match utcoffset t with
  | None => time_of_day t
  | Some offset => time_of_day t - offset + zone
  end.

(** The values of a column [INTEGER]. *)
Definition int4 (z : Z) : Prop := -2147483648 ≤ z ≤ 2147483647.

(** [str.isspace] on one character: the code points below 256 that
    [str.strip()] removes. *)
Definition py_isspace (c : ascii) : bool :=
  let n := Z.of_nat (nat_of_ascii c) in
  ((9 <=? n) && (n <=? 13)) || ((28 <=? n) && (n <=? 32))
  || (n =? 133) || (n =? 160).

Fixpoint lstrip (s : string) : string :=
  match s with
  | EmptyString => EmptyString
  | String c s' => if py_isspace c then lstrip s' else s
  end.

Fixpoint rstrip (s : string) : string :=
  match s with
  | EmptyString => EmptyString
  | String c s' =>
      match rstrip s' with
      | EmptyString => if py_isspace c then EmptyString else String c EmptyString
      | r => String c r
      end
  end.

(** [s.strip()] *)
Definition strip (s : string) : string := rstrip (lstrip s).

(** PostgreSQL folds an unquoted identifier to lower case. *)
Definition downcase_char (c : ascii) : ascii :=
  let n := nat_of_ascii c in
  if ((65 <=? n) && (n <=? 90))%nat then ascii_of_nat (n + 32) else c.

Fixpoint downcase_identifier (s : string) : string :=
  match s with
  | EmptyString => EmptyString
  | String c s' => String (downcase_char c) (downcase_identifier s')
  end.

(** ** Python values passed as keyword arguments *)

(** A [datetime] among them is one without [tzinfo], as [datetime.now()]
    is. *)
Inductive pyval :=
| PyNone
| PyBool (b : bool)
| PyInt (z : Z)
| PyStr (s : string)
| PyDate (d : date)
| PyTime (t : pytime)
| PyDatetime (ts : datetime).

(** [**kwargs]: a dict, as the list of its items in insertion order (the
    keys of a dict are distinct). *)
Definition kwargs := list (string * pyval).

(** ** The relations of [create_tables] *)

Module users.
Record row := mk {
  username : string;            (* VARCHAR(50) UNIQUE NOT NULL *)
  email : string;               (* VARCHAR(100) UNIQUE NOT NULL *)
  full_name : option string;
  phone : option string;
  role : option string;         (* DEFAULT 'client' *)
  is_active : option bool;      (* DEFAULT TRUE *)
  created_at : option datetime;
  updated_at : option datetime
}.
End users.

Module tables.
Record row := mk {
  table_number : string;        (* VARCHAR(50) UNIQUE NOT NULL *)
  capacity : Z;                 (* INTEGER NOT NULL *)
  location : option string;
  is_available : option bool;   (* DEFAULT TRUE *)
  description : option string;
  created_at : option datetime;
  updated_at : option datetime
}.
End tables.

Module bookings.
Record row := mk {
  user_id : Z;                  (* INTEGER NOT NULL REFERENCES users(id) *)
  table_id : Z;                 (* INTEGER NOT NULL REFERENCES tables(id) *)
  booking_date : date;          (* DATE NOT NULL *)
  booking_time : time;          (* TIME NOT NULL *)
  guests_count : Z;             (* INTEGER NOT NULL *)
  status : option string;       (* VARCHAR(20) DEFAULT 'pending' *)
  notes : option string;        (* TEXT DEFAULT '' *)
  created_at : option datetime;
  updated_at : option datetime
}.
End bookings.

(** The store: three relations keyed by [id], the last value of each
    [SERIAL] sequence, and the offset from UTC of the time zone of its
    sessions, in microseconds. *)
Record DB := mkDB {
  rel_users : gmap Z users.row;
  rel_tables : gmap Z tables.row;
  rel_bookings : gmap Z bookings.row;
  users_id_seq : Z;
  tables_id_seq : Z;
  bookings_id_seq : Z;
  time_zone : Z
}.

Definition with_users (db : DB) (m : gmap Z users.row) : DB :=
  mkDB m (rel_tables db) (rel_bookings db)
       (users_id_seq db) (tables_id_seq db) (bookings_id_seq db)
       (time_zone db).

Definition with_tables (db : DB) (m : gmap Z tables.row) : DB :=
  mkDB (rel_users db) m (rel_bookings db)
       (users_id_seq db) (tables_id_seq db) (bookings_id_seq db)
       (time_zone db).

Definition with_bookings (db : DB) (m : gmap Z bookings.row) : DB :=
  mkDB (rel_users db) (rel_tables db) m
       (users_id_seq db) (tables_id_seq db) (bookings_id_seq db)
       (time_zone db).

Definition with_bookings_id_seq (db : DB) (n : Z) : DB :=
  mkDB (rel_users db) (rel_tables db) (rel_bookings db)
       (users_id_seq db) (tables_id_seq db) n (time_zone db).

(** Two stores hold the same rows (their sequences may differ). *)
Definition same_rows (db db' : DB) : Prop :=
  rel_users db' = rel_users db
  ∧ rel_tables db' = rel_tables db
  ∧ rel_bookings db' = rel_bookings db.

(** ** The Python model classes of [models/] *)

Module Table.
Record t := mk {
  id : Z;
  table_number : string;
  capacity : Z;
  location : option string;
  is_available : option bool;
  description : option string;
  created_at : option datetime;
  updated_at : option datetime
}.
End Table.

Module Booking.
Record t := mk {
  id : Z;
  user_id : Z;
  table_id : Z;
  booking_date : date;
  booking_time : pytime;
  guests_count : Z;
  status : string;
  notes : string;
  created_at : option datetime;
  updated_at : option datetime
}.
End Booking.

(** ** Exceptions and the state-and-exception monad of the backend *)

Inductive table_label :=
| TableNumber (table_number : string)    (* table.table_number *)
| TableId (table_id : Z).                (* f"ID {table_id}" *)

(** The three [ValueError]s of the backend, by their message. *)
Inductive message :=
| TableNotFound (table_id : Z)
| TableUnavailable (table_number : string)
| TableAlreadyBooked (label : table_label) (booking_date : date)
                     (booking_time : pytime).

(** The errors of the store that the statements of the backend can meet.
    [DataError] is the class of psycopg2: a literal of the wrong type, an
    integer out of range ([NumericValueOutOfRange]), a negative [LIMIT]. *)
Inductive db_error :=
| UniqueViolation
| ForeignKeyViolation
| NotNullViolation
| UndefinedColumn
| DuplicateAssignment
| DataError.

Inductive exn :=
| ValueError (m : message)
| OverflowError
| DatabaseError (e : db_error).

Inductive outcome (A : Type) :=
| Return (a : A)
| Raise (e : exn).
Arguments Return {A} a.
Arguments Raise {A} e.

Definition M (A : Type) : Type := DB → DB * outcome A.

Definition ret {A} (a : A) : M A := λ db, (db, Return a).
Definition raise {A} (e : exn) : M A := λ db, (db, Raise e).
Definition bind {A B} (m : M A) (k : A → M B) : M B :=
  λ db, match m db with
        | (db', Return a) => k a db'
        | (db', Raise e) => (db', Raise e)
        end.

#[global] Instance M_ret : MRet M := @ret.
#[global] Instance M_bind : MBind M := λ A B k m, bind m k.

Definition returned {A} (r : DB * outcome A) : option A :=
  match r.2 with Return a => Some a | Raise _ => None end.

Definition raised {A} (r : DB * outcome A) : option exn :=
  match r.2 with Return _ => None | Raise e => Some e end.

(** ** Reading tables *)

(** [SELECT * FROM tables WHERE id = %s] followed by [fetchone] and the
    construction of the [Table] object; [None] when there is no row. *)
Definition get_table_by_id (table_id : Z) : M (option Table.t) :=
  λ db,
    (db,
     Return
       (match rel_tables db !! table_id with
        | Some r =>
            Some (Table.mk table_id (tables.table_number r) (tables.capacity r)
                    (tables.location r) (tables.is_available r)
                    (tables.description r) (tables.created_at r)
                    (tables.updated_at r))
        | None => None
        end)).

(** ** The admission query *)

(** [status != 'cancelled'] in SQL: a comparison with [NULL] is not true. *)
Definition sql_status_not_cancelled (status : option string) : bool :=
  match status with
  | Some s => negb (String.eqb s "cancelled")
  | None => false
  end.

(** The [WHERE] clause of the query of [check_table_availability]; its four
    parameters are [(table_id, booking_date, end_datetime, start_datetime)]
    in this order. *)
Definition conflict_where (p_table_id : Z) (p_booking_date : date)
    (p_end p_start : datetime) (b : bookings.row) : bool :=
  (bookings.table_id b =? p_table_id)
  && (bookings.booking_date b =? p_booking_date)
  && sql_status_not_cancelled (bookings.status b)
  && ((combine (bookings.booking_date b) (bookings.booking_time b) <? p_end)
      && (combine (bookings.booking_date b) (bookings.booking_time b) + hours 2
          >? p_start)).

(** [SELECT COUNT( * ) ... WHERE ...] *)
Definition count_conflicts (p_table_id : Z) (p_booking_date : date)
    (p_end p_start : datetime) (db : DB) : nat :=
  size (filter (λ kv : Z * bookings.row,
                  conflict_where p_table_id p_booking_date p_end p_start kv.2
                  = true)
               (rel_bookings db)).

(** Python truth of [table.is_available], a [bool] or [None]. *)
Definition truthy (b : option bool) : bool :=
  match b with Some true => true | _ => false end.

(** The table is looked up and its flag tested first; then Python adds
    [timedelta(hours=duration_hours)] to the start, which raises when the
    sum is no [datetime]; then the store counts. *)
Definition check_table_availability (table_id : Z) (booking_date : date)
    (booking_time : pytime) (duration_hours : Z) : M bool :=
  table ← get_table_by_id table_id;
  match table with
  | None => raise (ValueError (TableNotFound table_id))
  | Some table =>
      if negb (truthy (Table.is_available table)) then
        raise (ValueError (TableUnavailable (Table.table_number table)))
      else
        let start_datetime := datetime_combine booking_date booking_time in
        match plus_hours start_datetime duration_hours with
        | None => raise OverflowError
        | Some end_datetime =>
            λ db,
              let count :=
                count_conflicts table_id booking_date
                  (as_timestamp (time_zone db) end_datetime)
                  (as_timestamp (time_zone db) start_datetime) db
              in (db, Return (bool_decide (count = 0%nat)))
        end
  end.

(** ** Creating a booking *)

(** [INSERT INTO bookings (user_id, table_id, booking_date, booking_time,
    guests_count, status, notes) VALUES (...) RETURNING id, created_at,
    updated_at]: the three integers have to be values of [INTEGER], which
    the store finds out before it runs the statement; [id] comes from the
    sequence, both timestamps default to [CURRENT_TIMESTAMP]; the column
    [booking_time] keeps the time of day. *)
Definition insert_booking (now : datetime) (user_id table_id : Z)
    (booking_date : date) (booking_time : pytime) (guests_count : Z)
    (status notes : string) : M (Z * option datetime * option datetime) :=
  λ db,
    let id := bookings_id_seq db + 1 in
    let db1 := with_bookings_id_seq db id in
    let r := bookings.mk user_id table_id booking_date
               (time_of_day booking_time) guests_count (Some status)
               (Some notes) (Some now) (Some now) in
    if negb (bool_decide (int4 user_id ∧ int4 table_id ∧ int4 guests_count))
    then (db, Raise (DatabaseError DataError))
    else if bool_decide (is_Some (rel_bookings db !! id)) then
      (db1, Raise (DatabaseError UniqueViolation))
    else if bool_decide (rel_users db !! user_id = None) then
      (db1, Raise (DatabaseError ForeignKeyViolation))
    else if bool_decide (rel_tables db !! table_id = None) then
      (db1, Raise (DatabaseError ForeignKeyViolation))
    else
      (with_bookings db1 (<[id := r]> (rel_bookings db)),
       Return (id, Some now, Some now)).

Definition create_booking (now : datetime) (user_id table_id : Z)
    (booking_date : date) (booking_time : pytime) (guests_count : Z)
    (status : string) (notes : option string) (duration_hours : Z)
    : M Booking.t :=
  available ←
    check_table_availability table_id booking_date booking_time duration_hours;
  if negb available then
    table ← get_table_by_id table_id;
    let table_number :=
      match table with
      | Some table => TableNumber (Table.table_number table)
      | None => TableId table_id
      end in
    raise (ValueError (TableAlreadyBooked table_number booking_date booking_time))
  else
    let notes := match notes with
                 | None => ""%string
                 | Some s => strip s
                 end in
    result ← insert_booking now user_id table_id booking_date booking_time
               guests_count status notes;
    let '(booking_id, created_at, updated_at) := result in
    mret (Booking.mk booking_id user_id table_id booking_date booking_time
            guests_count status notes created_at updated_at).

(** What [notes] becomes before the [INSERT]. *)
Definition created_notes (notes : option string) : string :=
  match notes with None => "" | Some s => strip s end.

(** The row of [bookings] that a [Booking] object describes; the column
    [booking_time] holds a time of day. *)
Definition row_of_booking (b : Booking.t) : bookings.row :=
  bookings.mk (Booking.user_id b) (Booking.table_id b)
    (Booking.booking_date b) (time_of_day (Booking.booking_time b))
    (Booking.guests_count b) (Some (Booking.status b))
    (Some (Booking.notes b)) (Booking.created_at b) (Booking.updated_at b).

(** ** Deleting rows *)

(** Some booking refers to [id] through the foreign key column [fk]. *)
Definition referenced (fk : bookings.row → Z) (id : Z) (db : DB) : bool :=
  bool_decide (map_Exists (λ _ b, fk b = id) (rel_bookings db)).

(** [DELETE FROM users WHERE id = %s], and [cursor.rowcount > 0]. *)
Definition delete_user (user_id : Z) : M bool :=
  λ db,
    match rel_users db !! user_id with
    | None => (db, Return false)
    | Some _ =>
        if referenced bookings.user_id user_id db then
          (db, Raise (DatabaseError ForeignKeyViolation))
        else (with_users db (delete user_id (rel_users db)), Return true)
    end.

(** [DELETE FROM tables WHERE id = %s], and [cursor.rowcount > 0]. *)
Definition delete_table (table_id : Z) : M bool :=
  λ db,
    match rel_tables db !! table_id with
    | None => (db, Return false)
    | Some _ =>
        if referenced bookings.table_id table_id db then
          (db, Raise (DatabaseError ForeignKeyViolation))
        else (with_tables db (delete table_id (rel_tables db)), Return true)
    end.

(** [DELETE FROM bookings WHERE id = %s], and [cursor.rowcount > 0]. *)
Definition delete_booking (booking_id : Z) : M bool :=
  λ db,
    match rel_bookings db !! booking_id with
    | None => (db, Return false)
    | Some _ =>
        (with_bookings db (delete booking_id (rel_bookings db)), Return true)
    end.

(** ** The [UPDATE] statements built from keyword arguments *)

Inductive sqltype := TInteger | TText | TBoolean | TDate | TTime | TTimestamp.

(** The literal that psycopg2 writes for [v] is accepted for a column of type
    [ty]: it has the type of the column, and an integer is a value of
    [INTEGER]; [NULL] has every type. *)
Definition literal_ok (ty : sqltype) (v : pyval) : bool :=
  match ty, v with
  | _, PyNone => true
  | TInteger, PyInt z => bool_decide (int4 z)
  | TText, PyStr _ => true
  | TBoolean, PyBool _ => true
  | TDate, PyDate _ => true
  | TTime, PyTime _ => true
  | TTimestamp, PyDatetime _ => true
  | _, _ => false
  end.

Definition error_or (A : Type) : Type := db_error + A.

Definition not_null_int (v : pyval) : error_or Z :=
  match v with
  | PyInt z => inr z
  | PyNone => inl NotNullViolation
  | _ => inl DataError
  end.

Definition not_null_text (v : pyval) : error_or string :=
  match v with
  | PyStr s => inr s
  | PyNone => inl NotNullViolation
  | _ => inl DataError
  end.

Definition not_null_date (v : pyval) : error_or date :=
  match v with
  | PyDate d => inr d
  | PyNone => inl NotNullViolation
  | _ => inl DataError
  end.

Definition not_null_time (v : pyval) : error_or time :=
  match v with
  | PyTime t => inr (time_of_day t)
  | PyNone => inl NotNullViolation
  | _ => inl DataError
  end.

Definition nullable_text (v : pyval) : error_or (option string) :=
  match v with
  | PyStr s => inr (Some s)
  | PyNone => inr None
  | _ => inl DataError
  end.

Definition nullable_bool (v : pyval) : error_or (option bool) :=
  match v with
  | PyBool b => inr (Some b)
  | PyNone => inr None
  | _ => inl DataError
  end.

Definition nullable_timestamp (v : pyval) : error_or (option datetime) :=
  match v with
  | PyDatetime ts => inr (Some ts)
  | PyNone => inr None
  | _ => inl DataError
  end.

Definition on_value {A B} (x : error_or A) (f : A → B) : error_or B :=
  match x with inl e => inl e | inr a => inr (f a) end.

(** The [SET] list of one statement, over the columns [C] of a relation
    whose rows are [R]. *)
Section set_clause.
Context {C R : Type} `{EqDecision C}.
Variable column_of : string → option C.
Variable type_of : C → sqltype.
Variable set_column : C → pyval → Z * R → error_or (Z * R).

(** Every [key = %s] names a column and is given a literal of its type. *)
Fixpoint resolve (update_data : kwargs) : error_or (list (C * pyval)) :=
    match update_data with
    | [] => inr []
    | (key, v) :: rest =>
        match column_of key with
        | None => inl UndefinedColumn
        | Some c =>
            if literal_ok (type_of c) v then
              on_value (resolve rest) (cons (c, v))
            else inl DataError
        end
    end.

(** No column is assigned twice. *)
Definition analyse (update_data : kwargs) : error_or (list (C * pyval)) :=
    match resolve update_data with
    | inl e => inl e
    | inr sets =>
        if bool_decide (NoDup (fst <$> sets)) then inr sets
        else inl DuplicateAssignment
    end.

(** The new row: every assignment applied to the old one. *)
Fixpoint assign_all (sets : list (C * pyval)) (ir : Z * R)
      : error_or (Z * R) :=
    match sets with
    | [] => inr ir
    | (c, v) :: rest =>
        match set_column c v ir with
        | inl e => inl e
        | inr ir' => assign_all rest ir'
        end
    end.
End set_clause.

(** Looks an unquoted identifier up among the column names of a relation. *)
Fixpoint column_named {C : Type} (columns : list (string * C)) (key : string)
    : option C :=
  match columns with
  | [] => None
  | (name, c) :: rest =>
      if String.eqb (downcase_identifier key) name then Some c
      else column_named rest key
  end.

(** *** [users] *)

Inductive users_column :=
| U_id | U_username | U_email | U_full_name | U_phone | U_role | U_is_active
| U_created_at | U_updated_at.

#[global] Instance users_column_eq_dec : EqDecision users_column.
Proof. solve_decision. Defined.

Definition users_columns : list (string * users_column) :=
  [("id", U_id); ("username", U_username); ("email", U_email);
   ("full_name", U_full_name); ("phone", U_phone); ("role", U_role);
   ("is_active", U_is_active); ("created_at", U_created_at);
   ("updated_at", U_updated_at)]%string.

Definition users_type (c : users_column) : sqltype :=
  match c with
  | U_id => TInteger
  | U_username | U_email | U_full_name | U_phone | U_role => TText
  | U_is_active => TBoolean
  | U_created_at | U_updated_at => TTimestamp
  end.

Definition users_set (c : users_column) (v : pyval) (ir : Z * users.row)
    : error_or (Z * users.row) :=
  let '(i, users.mk un em fn ph ro ac cr up) := ir in
  match c with
  | U_id => on_value (not_null_int v) (λ x, (x, users.mk un em fn ph ro ac cr up))
  | U_username => on_value (not_null_text v) (λ x, (i, users.mk x em fn ph ro ac cr up))
  | U_email => on_value (not_null_text v) (λ x, (i, users.mk un x fn ph ro ac cr up))
  | U_full_name => on_value (nullable_text v) (λ x, (i, users.mk un em x ph ro ac cr up))
  | U_phone => on_value (nullable_text v) (λ x, (i, users.mk un em fn x ro ac cr up))
  | U_role => on_value (nullable_text v) (λ x, (i, users.mk un em fn ph x ac cr up))
  | U_is_active => on_value (nullable_bool v) (λ x, (i, users.mk un em fn ph ro x cr up))
  | U_created_at => on_value (nullable_timestamp v) (λ x, (i, users.mk un em fn ph ro ac x up))
  | U_updated_at => on_value (nullable_timestamp v) (λ x, (i, users.mk un em fn ph ro ac cr x))
  end.

(** *** [tables] *)

Inductive tables_column :=
| T_id | T_table_number | T_capacity | T_location | T_is_available
| T_description | T_created_at | T_updated_at.

#[global] Instance tables_column_eq_dec : EqDecision tables_column.
Proof. solve_decision. Defined.

Definition tables_columns : list (string * tables_column) :=
  [("id", T_id); ("table_number", T_table_number); ("capacity", T_capacity);
   ("location", T_location); ("is_available", T_is_available);
   ("description", T_description); ("created_at", T_created_at);
   ("updated_at", T_updated_at)]%string.

Definition tables_type (c : tables_column) : sqltype :=
  match c with
  | T_id | T_capacity => TInteger
  | T_table_number | T_location | T_description => TText
  | T_is_available => TBoolean
  | T_created_at | T_updated_at => TTimestamp
  end.

Definition tables_set (c : tables_column) (v : pyval) (ir : Z * tables.row)
    : error_or (Z * tables.row) :=
  let '(i, tables.mk tn ca lo av de cr up) := ir in
  match c with
  | T_id => on_value (not_null_int v) (λ x, (x, tables.mk tn ca lo av de cr up))
  | T_table_number => on_value (not_null_text v) (λ x, (i, tables.mk x ca lo av de cr up))
  | T_capacity => on_value (not_null_int v) (λ x, (i, tables.mk tn x lo av de cr up))
  | T_location => on_value (nullable_text v) (λ x, (i, tables.mk tn ca x av de cr up))
  | T_is_available => on_value (nullable_bool v) (λ x, (i, tables.mk tn ca lo x de cr up))
  | T_description => on_value (nullable_text v) (λ x, (i, tables.mk tn ca lo av x cr up))
  | T_created_at => on_value (nullable_timestamp v) (λ x, (i, tables.mk tn ca lo av de x up))
  | T_updated_at => on_value (nullable_timestamp v) (λ x, (i, tables.mk tn ca lo av de cr x))
  end.

(** *** [bookings] *)

Inductive bookings_column :=
| B_id | B_user_id | B_table_id | B_booking_date | B_booking_time
| B_guests_count | B_status | B_notes | B_created_at | B_updated_at.

#[global] Instance bookings_column_eq_dec : EqDecision bookings_column.
Proof. solve_decision. Defined.

Definition bookings_columns : list (string * bookings_column) :=
  [("id", B_id); ("user_id", B_user_id); ("table_id", B_table_id);
   ("booking_date", B_booking_date); ("booking_time", B_booking_time);
   ("guests_count", B_guests_count); ("status", B_status); ("notes", B_notes);
   ("created_at", B_created_at); ("updated_at", B_updated_at)]%string.

Definition bookings_type (c : bookings_column) : sqltype :=
  match c with
  | B_id | B_user_id | B_table_id | B_guests_count => TInteger
  | B_booking_date => TDate
  | B_booking_time => TTime
  | B_status | B_notes => TText
  | B_created_at | B_updated_at => TTimestamp
  end.

Definition bookings_set (c : bookings_column) (v : pyval)
    (ir : Z * bookings.row) : error_or (Z * bookings.row) :=
  let '(i, bookings.mk us ta da ti gu st no cr up) := ir in
  match c with
  | B_id => on_value (not_null_int v) (λ x, (x, bookings.mk us ta da ti gu st no cr up))
  | B_user_id => on_value (not_null_int v) (λ x, (i, bookings.mk x ta da ti gu st no cr up))
  | B_table_id => on_value (not_null_int v) (λ x, (i, bookings.mk us x da ti gu st no cr up))
  | B_booking_date => on_value (not_null_date v) (λ x, (i, bookings.mk us ta x ti gu st no cr up))
  | B_booking_time => on_value (not_null_time v) (λ x, (i, bookings.mk us ta da x gu st no cr up))
  | B_guests_count => on_value (not_null_int v) (λ x, (i, bookings.mk us ta da ti x st no cr up))
  | B_status => on_value (nullable_text v) (λ x, (i, bookings.mk us ta da ti gu x no cr up))
  | B_notes => on_value (nullable_text v) (λ x, (i, bookings.mk us ta da ti gu st x cr up))
  | B_created_at => on_value (nullable_timestamp v) (λ x, (i, bookings.mk us ta da ti gu st no x up))
  | B_updated_at => on_value (nullable_timestamp v) (λ x, (i, bookings.mk us ta da ti gu st no cr x))
  end.

(** [UPDATE users SET ... WHERE id = %s]; the result is [cursor.rowcount]. *)
Definition update_users (update_data : kwargs) (user_id : Z) : M nat :=
  λ db,
    match analyse (column_named users_columns) users_type update_data with
    | inl e => (db, Raise (DatabaseError e))
    | inr sets =>
        match rel_users db !! user_id with
        | None => (db, Return 0%nat)
        | Some r =>
            match assign_all users_set sets (user_id, r) with
            | inl e => (db, Raise (DatabaseError e))
            | inr (i', r') =>
                let others := delete user_id (rel_users db) in
                if bool_decide (is_Some (others !! i')) then
                  (db, Raise (DatabaseError UniqueViolation))
                else if bool_decide
                          (map_Exists (λ _ o, users.username o = users.username r')
                             others) then
                  (db, Raise (DatabaseError UniqueViolation))
                else if bool_decide
                          (map_Exists (λ _ o, users.email o = users.email r')
                             others) then
                  (db, Raise (DatabaseError UniqueViolation))
                else if bool_decide (i' ≠ user_id)
                        && referenced bookings.user_id user_id db then
                  (db, Raise (DatabaseError ForeignKeyViolation))
                else (with_users db (<[i' := r']> others), Return 1%nat)
            end
        end
    end.

(** [UPDATE tables SET ... WHERE id = %s] *)
Definition update_tables (update_data : kwargs) (table_id : Z) : M nat :=
  λ db,
    match analyse (column_named tables_columns) tables_type update_data with
    | inl e => (db, Raise (DatabaseError e))
    | inr sets =>
        match rel_tables db !! table_id with
        | None => (db, Return 0%nat)
        | Some r =>
            match assign_all tables_set sets (table_id, r) with
            | inl e => (db, Raise (DatabaseError e))
            | inr (i', r') =>
                let others := delete table_id (rel_tables db) in
                if bool_decide (is_Some (others !! i')) then
                  (db, Raise (DatabaseError UniqueViolation))
                else if bool_decide
                          (map_Exists
                             (λ _ o, tables.table_number o = tables.table_number r')
                             others) then
                  (db, Raise (DatabaseError UniqueViolation))
                else if bool_decide (i' ≠ table_id)
                        && referenced bookings.table_id table_id db then
                  (db, Raise (DatabaseError ForeignKeyViolation))
                else (with_tables db (<[i' := r']> others), Return 1%nat)
            end
        end
    end.

(** [UPDATE bookings SET ... WHERE id = %s] *)
Definition update_bookings (update_data : kwargs) (booking_id : Z) : M nat :=
  λ db,
    match analyse (column_named bookings_columns) bookings_type update_data with
    | inl e => (db, Raise (DatabaseError e))
    | inr sets =>
        match rel_bookings db !! booking_id with
        | None => (db, Return 0%nat)
        | Some r =>
            match assign_all bookings_set sets (booking_id, r) with
            | inl e => (db, Raise (DatabaseError e))
            | inr (i', r') =>
                let others := delete booking_id (rel_bookings db) in
                if bool_decide (is_Some (others !! i')) then
                  (db, Raise (DatabaseError UniqueViolation))
                else if bool_decide (bookings.user_id r' ≠ bookings.user_id r)
                        && bool_decide
                             (rel_users db !! bookings.user_id r' = None) then
                  (db, Raise (DatabaseError ForeignKeyViolation))
                else if bool_decide (bookings.table_id r' ≠ bookings.table_id r)
                        && bool_decide
                             (rel_tables db !! bookings.table_id r' = None) then
                  (db, Raise (DatabaseError ForeignKeyViolation))
                else (with_bookings db (<[i' := r']> others), Return 1%nat)
            end
        end
    end.

(** ** The update functions of the backend *)

(** [k not in ['id', 'created_at', 'updated_at']] *)
Definition protected_keys : list string :=
  ["id"; "created_at"; "updated_at"]%string.

(** [{k: v for k, v in kwargs.items() if k not in [...]}] *)
Definition updatable (fields : kwargs) : kwargs :=
  filter (λ kv : string * pyval, kv.1 ∉ protected_keys) fields.

(** [d[key]], for [key in d] *)
Fixpoint dict_get (key : string) (d : kwargs) : option pyval :=
  match d with
  | [] => None
  | (k, v) :: rest => if String.eqb k key then Some v else dict_get key rest
  end.

(** [d[key] = v]: in place when the key is there, at the end otherwise. *)
Fixpoint dict_set (key : string) (v : pyval) (d : kwargs) : kwargs :=
  match d with
  | [] => [(key, v)]
  | (k, w) :: rest =>
      if String.eqb k key then (k, v) :: rest
      else (k, w) :: dict_set key v rest
  end.

(** [not update_data] *)
Definition is_empty (d : kwargs) : bool :=
  match d with [] => true | _ => false end.

Definition update_user (now : datetime) (user_id : Z) (fields : kwargs)
    : M bool :=
  let update_data := updatable fields in
  if is_empty update_data then mret false
  else
    let update_data := dict_set "updated_at" (PyDatetime now) update_data in
    rowcount ← update_users update_data user_id;
    mret (0 <? rowcount)%nat.

Definition update_table (now : datetime) (table_id : Z) (fields : kwargs)
    : M bool :=
  let update_data := updatable fields in
  if is_empty update_data then mret false
  else
    let update_data := dict_set "updated_at" (PyDatetime now) update_data in
    rowcount ← update_tables update_data table_id;
    mret (0 <? rowcount)%nat.

(** The value written for [notes]: [''] for [None], the stripped string for
    a [str], [''] for anything else. *)
Definition normalize_notes (v : pyval) : string :=
  match v with
  | PyNone => ""
  | PyStr s => strip s
  | _ => ""
  end.

Definition update_booking (now : datetime) (booking_id : Z) (fields : kwargs)
    : M bool :=
  let update_data := updatable fields in
  if is_empty update_data then mret false
  else
    let update_data :=
      match dict_get "notes" update_data with
      | Some v => dict_set "notes" (PyStr (normalize_notes v)) update_data
      | None => update_data
      end in
    let update_data := dict_set "updated_at" (PyDatetime now) update_data in
    rowcount ← update_bookings update_data booking_id;
    mret (0 <? rowcount)%nat.

(** ** The notions of the specification *)

(** The overlap test of the specification:
    [existing.start < candidate.end AND existing.end > candidate.start]. *)
Definition overlaps (start1 end1 start2 end2 : datetime) : Prop :=
  start1 < end2 ∧ end1 > start2.

#[global] Instance overlaps_dec a b c d : Decision (overlaps a b c d).
Proof.
  unfold overlaps.
  destruct (Z_lt_dec a d); [destruct (Z_gt_dec b c)|]; [left|right|right]; tauto.
Defined.

Definition booking_start (b : bookings.row) : datetime :=
  combine (bookings.booking_date b) (bookings.booking_time b).

(** The end of a booking that lasts [duration_hours]. *)
Definition booking_end (duration_hours : Z) (b : bookings.row) : datetime :=
  booking_start b + hours duration_hours.

Definition cancelled (b : bookings.row) : Prop :=
  bookings.status b = Some "cancelled"%string.

(** The conflicts of a candidate slot, in the words of the specification: a
    booking of the same table on exactly the same date, whose status is
    there and is not ['cancelled'], and whose two-hour interval overlaps
    the interval of the candidate. *)
Definition conflicts_with (table_id : Z) (booking_date : date)
    (booking_time : time) (duration_hours : Z) (b : bookings.row) : Prop :=
  bookings.table_id b = table_id
  ∧ bookings.booking_date b = booking_date
  ∧ (bookings.status b ≠ None ∧ ¬ cancelled b)
  ∧ overlaps (booking_start b) (booking_start b + hours 2)
             (combine booking_date booking_time)
             (combine booking_date booking_time + hours duration_hours).

#[global] Instance conflicts_with_dec t d tm h b :
  Decision (conflicts_with t d tm h b).
Proof. unfold conflicts_with, cancelled. apply _. Defined.

Definition conflict_count (table_id : Z) (booking_date : date)
    (booking_time : time) (duration_hours : Z) (db : DB) : nat :=
  size (filter (λ kv : Z * bookings.row,
                  conflicts_with table_id booking_date booking_time
                    duration_hours kv.2)
               (rel_bookings db)).

(** ** The booking operations as steps of the store *)

Inductive booking_op :=
| CreateBooking (now : datetime) (user_id table_id : Z) (booking_date : date)
    (booking_time : pytime) (guests_count : Z) (status : string)
    (notes : option string) (duration_hours : Z)
| UpdateBooking (now : datetime) (booking_id : Z) (fields : kwargs)
| DeleteBooking (booking_id : Z).

(** The store after an operation, whether it returned or raised. *)
Definition run (op : booking_op) (db : DB) : DB :=
  match op with
  | CreateBooking now u t d tm g st no h =>
      (create_booking now u t d tm g st no h db).1
  | UpdateBooking now i fields => (update_booking now i fields db).1
  | DeleteBooking i => (delete_booking i db).1
  end.

(** ** A small restaurant for the examples *)

Definition ann : users.row :=
  users.mk "ann" "ann@example.org" None None (Some "client"%string)
    (Some true) (Some 0) (Some 0).

Definition table_T1 : tables.row :=
  tables.mk "T1" 4 None (Some true) None (Some 0) (Some 0).

Definition table_T2 : tables.row :=
  tables.mk "T2" 2 None (Some false) None (Some 0) (Some 0).

(** One user, an available table [T1], a disabled table [T2], no booking;
    the sessions of the store are in UTC. *)
Definition restaurant : DB :=
  mkDB {[ 1 := ann ]} {[ 1 := table_T1; 2 := table_T2 ]} ∅ 1 2 0 0.

(** 2025-06-01, as a day number. *)
Definition june_1 : date := 739403.

(** [HH:00] *)
Definition oclock (h : Z) : time := hours h.

(** The [Booking] that a successful [create_booking] returns. *)
Definition created_booking (now : datetime) (user_id table_id : Z)
    (booking_date : date) (booking_time : pytime) (guests_count : Z)
    (status : string) (notes : option string) (db : DB) : Booking.t :=
  Booking.mk (bookings_id_seq db + 1) user_id table_id booking_date
    booking_time guests_count status (created_notes notes) (Some now)
    (Some now).

Inductive create_booking_case (now : datetime) (user_id table_id : Z)
    (booking_date : date) (booking_time : pytime) (guests_count : Z)
    (status : string) (notes : option string) (duration_hours : Z) (db : DB)
    : DB * outcome bool → DB * outcome Booking.t → Prop :=
| create_check_raises e :
    e = TableNotFound table_id ∨ (∃ number, e = TableUnavailable number) →
    create_booking_case now user_id table_id booking_date booking_time
      guests_count status notes duration_hours db
      (db, Raise (ValueError e)) (db, Raise (ValueError e))
| create_conflict t :
    rel_tables db !! table_id = Some t →
    create_booking_case now user_id table_id booking_date booking_time
      guests_count status notes duration_hours db
      (db, Return false)
      (db, Raise (ValueError
                    (TableAlreadyBooked (TableNumber (tables.table_number t))
                       booking_date booking_time)))
| create_overflow :
    create_booking_case now user_id table_id booking_date booking_time
      guests_count status notes duration_hours db
      (db, Raise OverflowError) (db, Raise OverflowError)
| create_out_of_range :
    ¬ (int4 user_id ∧ int4 table_id ∧ int4 guests_count) →
    create_booking_case now user_id table_id booking_date booking_time
      guests_count status notes duration_hours db
      (db, Return true) (db, Raise (DatabaseError DataError))
| create_store_refuses e :
    create_booking_case now user_id table_id booking_date booking_time
      guests_count status notes duration_hours db
      (db, Return true)
      (with_bookings_id_seq db (bookings_id_seq db + 1),
       Raise (DatabaseError e))
| create_succeeds :
    rel_bookings db !! (bookings_id_seq db + 1) = None →
    is_Some (rel_users db !! user_id) →
    int4 user_id ∧ int4 table_id ∧ int4 guests_count →
    create_booking_case now user_id table_id booking_date booking_time
      guests_count status notes duration_hours db
      (db, Return true)
      (let b := created_booking now user_id table_id booking_date booking_time
                  guests_count status notes db in
       (with_bookings (with_bookings_id_seq db (Booking.id b))
          (<[Booking.id b := row_of_booking b]> (rel_bookings db)),
        Return b)).


(** The restaurant with table 1 booked from 18:00 on 2025-06-01. *)
Definition booked_18 : DB :=
  (create_booking 0 1 1 june_1 (oclock 18) 2 "pending" None 2 restaurant).1.

(** The [update_data] that [update_booking] hands to the statement. *)
Definition booking_update_data (now : datetime) (fields : kwargs) : kwargs :=
  let update_data := updatable fields in
  dict_set "updated_at" (PyDatetime now)
    match dict_get "notes" update_data with
    | Some v => dict_set "notes" (PyStr (normalize_notes v)) update_data
    | None => update_data
    end.



(** Every stored status is there. *)
Definition statuses_set (db : DB) : Prop :=
  ∀ i b, rel_bookings db !! i = Some b → bookings.status b ≠ None.

(** ** The durations of the bookings, and P1 *)

(** The relation [bookings] has no column for a duration, so a stored
    booking does not tell how long it lasts.  P1 is about the interval of a
    booking from its start to its duration later: it is stated over a store
    together with the [duration_hours] that each of its bookings was
    created with, by the identity of the booking. *)
Record history := mk_history {
  store : DB;
  requested : gmap Z Z
}.

(** The identity that the row of [booking_id] has after [update_booking]: a
    field that reaches the column [id] moves the row. *)
Definition updated_identity (now : datetime) (booking_id : Z)
    (fields : kwargs) (db : DB) : Z :=
  match analyse (column_named bookings_columns) bookings_type
          (booking_update_data now fields),
        rel_bookings db !! booking_id with
  | inr sets, Some r =>
      match assign_all bookings_set sets (booking_id, r) with
      | inr (i', _) => i'
      | inl _ => booking_id
      end
  | _, _ => booking_id
  end.

(** The duration of a booking goes with its row. *)
Definition moved (i i' : Z) (durations : gmap Z Z) : gmap Z Z :=
  match durations !! i with
  | Some d => <[i' := d]> (delete i durations)
  | None => durations
  end.

(** An operation, on the store and on the durations: [create_booking]
    enters the [duration_hours] of the booking it returns, [update_booking]
    leaves the duration with the row, [delete_booking] drops it. *)
Definition record (op : booking_op) (h : history) : history :=
  match op with
  | CreateBooking now u t d tm g st no duration_hours =>
      let r := create_booking now u t d tm g st no duration_hours (store h) in
      mk_history r.1
        match r.2 with
        | Return b => <[Booking.id b := duration_hours]> (requested h)
        | Raise _ => requested h
        end
  | UpdateBooking now i fields =>
      let r := update_booking now i fields (store h) in
      mk_history r.1
        match r.2 with
        | Return true =>
            moved i (updated_identity now i fields (store h)) (requested h)
        | _ => requested h
        end
  | DeleteBooking i =>
      mk_history (delete_booking i (store h)).1 (delete i (requested h))
  end.

(** P1: two different bookings of one table on one date, neither of them
    cancelled, do not overlap, the interval of a booking being the one from
    its start to its requested duration later. *)
Definition no_overlap (h : history) : Prop :=
  ∀ (i1 i2 : Z) (b1 b2 : bookings.row) (d1 d2 : Z),
    rel_bookings (store h) !! i1 = Some b1 →
    rel_bookings (store h) !! i2 = Some b2 →
    requested h !! i1 = Some d1 →
    requested h !! i2 = Some d2 →
    i1 ≠ i2 →
    bookings.table_id b1 = bookings.table_id b2 →
    bookings.booking_date b1 = bookings.booking_date b2 →
    ¬ cancelled b1 → ¬ cancelled b2 →
    ¬ overlaps (booking_start b1) (booking_end d1 b1)
               (booking_start b2) (booking_end d2 b2).

(** The stores reached from one without bookings by the three operations. *)
Inductive reachable : history → Prop :=
| reachable_init db : rel_bookings db = ∅ → reachable (mk_history db ∅)
| reachable_step op h : reachable h → reachable (record op h).





(** Table 1 booked from 18:00 for two hours, from 17:00 for one hour and
    from 20:00 for two hours, the booking from 18:00 then cancelled, and
    the one from 17:00 moved to the identity 7 by the key [ID]. *)
Definition evening : history :=
  record (UpdateBooking 10 2 [("ID"%string, PyInt 7)])
    (record (UpdateBooking 9 1 [("status"%string, PyStr "cancelled")])
       (record (CreateBooking 2 1 1 june_1 (oclock 20) 2 "pending" None 2)
          (record (CreateBooking 1 1 1 june_1 (oclock 17) 2 "pending" None 1)
             (record
                (CreateBooking 0 1 1 june_1 (oclock 18) 2 "pending" None 2)
                (mk_history restaurant ∅))))).


(** Table 1 booked from 18:00, the booking cancelled, the table booked from
    18:00 once more, and the first booking then set to pending again. *)
Definition revived : history :=
  record (UpdateBooking 9 1 [("status"%string, PyStr "pending")])
    (record (CreateBooking 2 1 1 june_1 (oclock 18) 2 "pending" None 2)
       (record (UpdateBooking 1 1 [("status"%string, PyStr "cancelled")])
          (record (CreateBooking 0 1 1 june_1 (oclock 18) 2 "pending" None 2)
             (mk_history restaurant ∅)))).

(** Table 1 booked from 18:00 for four hours, then from 20:00 for two. *)
Definition long_then_short : history :=
  record (CreateBooking 1 1 1 june_1 (oclock 20) 2 "pending" None 2)
    (record (CreateBooking 0 1 1 june_1 (oclock 18) 2 "pending" None 4)
       (mk_history restaurant ∅)).

(** 18:00 at five hours east of Greenwich. *)
Definition eastern_18 : pytime := mk_pytime (oclock 18) (Some (hours 5)).

(** Table 1 booked from 18:00, then once more with the time 18:00+05:00. *)
Definition booked_twice_at_18 : history :=
  record (CreateBooking 1 1 1 june_1 eastern_18 2 "pending" None 2)
    (record (CreateBooking 0 1 1 june_1 (oclock 18) 2 "pending" None 2)
       (mk_history restaurant ∅)).

(** No field reaches the columns [c_id] and [c_created_at] under another
    spelling than the protected ones. *)
Definition no_case_variant {C : Type} (column_of : string → option C)
    (c_id c_created_at : C) (fields : kwargs) : Prop :=
  Forall (λ kv : string * pyval,
            kv.1 ∈ protected_keys
            ∨ (column_of kv.1 ≠ Some c_id
               ∧ column_of kv.1 ≠ Some c_created_at)) fields.

(** ** Users and tables: creation and lookup *)

Definition with_users_id_seq (db : DB) (n : Z) : DB :=
  mkDB (rel_users db) (rel_tables db) (rel_bookings db)
       n (tables_id_seq db) (bookings_id_seq db) (time_zone db).

Definition with_tables_id_seq (db : DB) (n : Z) : DB :=
  mkDB (rel_users db) (rel_tables db) (rel_bookings db)
       (users_id_seq db) n (bookings_id_seq db) (time_zone db).

Module User.
Record t := mk {
  id : Z;
  username : string;
  email : string;
  full_name : option string;
  phone : option string;
  role : option string;
  is_active : option bool;
  created_at : option datetime;
  updated_at : option datetime
}.
End User.

(** A [Booking] built from a row of the store: [status] and [notes] are
    what the row holds, a [str] or [None]. *)
Module StoredBooking.
Record t := mk {
  id : Z;
  user_id : Z;
  table_id : Z;
  booking_date : date;
  booking_time : time;
  guests_count : Z;
  status : option string;
  notes : option string;
  created_at : option datetime;
  updated_at : option datetime
}.
End StoredBooking.

(** [User(user_id=data['id'], username=data['username'], ...)] *)
Definition user_of_row (kv : Z * users.row) : User.t :=
  User.mk kv.1 (users.username kv.2) (users.email kv.2)
    (users.full_name kv.2) (users.phone kv.2) (users.role kv.2)
    (users.is_active kv.2) (users.created_at kv.2) (users.updated_at kv.2).

(** [Table(table_id=data['id'], table_number=data['table_number'], ...)] *)
Definition table_of_row (kv : Z * tables.row) : Table.t :=
  Table.mk kv.1 (tables.table_number kv.2) (tables.capacity kv.2)
    (tables.location kv.2) (tables.is_available kv.2)
    (tables.description kv.2) (tables.created_at kv.2)
    (tables.updated_at kv.2).

(** [Booking(booking_id=data['id'], user_id=data['user_id'], ...)] *)
Definition booking_of_row (kv : Z * bookings.row) : StoredBooking.t :=
  StoredBooking.mk kv.1 (bookings.user_id kv.2) (bookings.table_id kv.2)
    (bookings.booking_date kv.2) (bookings.booking_time kv.2)
    (bookings.guests_count kv.2) (bookings.status kv.2)
    (bookings.notes kv.2) (bookings.created_at kv.2)
    (bookings.updated_at kv.2).

(** The object that [create_booking] returns, as a reader of the store
    sees it. *)
Definition stored (b : Booking.t) : StoredBooking.t :=
  booking_of_row (Booking.id b, row_of_booking b).

(** The rows that a [WHERE] clause selects, in the order in which the store
    yields them.  SQL leaves that order open; the model takes the order of
    the identities. *)
Definition select_where {R : Type} (P : R → Prop) `{∀ r, Decision (P r)}
    (m : gmap Z R) : list (Z * R) :=
  filter (λ kv : Z * R, P kv.2) (map_to_list m).

(** [cursor.fetchone()] *)
Definition fetchone {A : Type} (rows : list A) : option A := head rows.

(** [INSERT INTO users (username, email, full_name, phone, role, is_active)
    VALUES (...) RETURNING id, created_at, updated_at] *)
Definition insert_user (now : datetime) (username email : string)
    (full_name phone : option string) (role : string) (is_active : bool)
    : M (Z * option datetime * option datetime) :=
  λ db,
    let id := users_id_seq db + 1 in
    let db1 := with_users_id_seq db id in
    let r := users.mk username email full_name phone (Some role)
               (Some is_active) (Some now) (Some now) in
    if bool_decide (is_Some (rel_users db !! id)) then
      (db1, Raise (DatabaseError UniqueViolation))
    else if bool_decide
              (map_Exists (λ _ o, users.username o = username) (rel_users db))
    then (db1, Raise (DatabaseError UniqueViolation))
    else if bool_decide
              (map_Exists (λ _ o, users.email o = email) (rel_users db))
    then (db1, Raise (DatabaseError UniqueViolation))
    else
      (with_users db1 (<[id := r]> (rel_users db)),
       Return (id, Some now, Some now)).

Definition create_user (now : datetime) (username email : string)
    (full_name phone : option string) (role : string) (is_active : bool)
    : M User.t :=
  result ← insert_user now username email full_name phone role is_active;
  let '(user_id, created_at, updated_at) := result in
  mret (User.mk user_id username email full_name phone (Some role)
          (Some is_active) created_at updated_at).

(** [SELECT * FROM users WHERE id = %s] *)
Definition get_user_by_id (user_id : Z) : M (option User.t) :=
  λ db,
    (db,
     Return ((λ r, user_of_row (user_id, r)) <$> rel_users db !! user_id)).

(** [SELECT * FROM users WHERE email = %s] *)
Definition get_user_by_email (email : string) : M (option User.t) :=
  λ db,
    (db,
     Return (user_of_row
               <$> fetchone (select_where (λ r, users.email r = email)
                               (rel_users db)))).

(** [SELECT * FROM users WHERE username = %s] *)
Definition get_user_by_username (username : string) : M (option User.t) :=
  λ db,
    (db,
     Return (user_of_row
               <$> fetchone (select_where (λ r, users.username r = username)
                               (rel_users db)))).

(** [INSERT INTO tables (table_number, capacity, location, is_available,
    description) VALUES (...) RETURNING id, created_at, updated_at];
    [capacity] has to be a value of [INTEGER]. *)
Definition insert_table (now : datetime) (table_number : string)
    (capacity : Z) (location : option string) (is_available : bool)
    (description : option string)
    : M (Z * option datetime * option datetime) :=
  λ db,
    let id := tables_id_seq db + 1 in
    let db1 := with_tables_id_seq db id in
    let r := tables.mk table_number capacity location (Some is_available)
               description (Some now) (Some now) in
    if negb (bool_decide (int4 capacity)) then
      (db, Raise (DatabaseError DataError))
    else if bool_decide (is_Some (rel_tables db !! id)) then
      (db1, Raise (DatabaseError UniqueViolation))
    else if bool_decide
              (map_Exists (λ _ o, tables.table_number o = table_number)
                 (rel_tables db))
    then (db1, Raise (DatabaseError UniqueViolation))
    else
      (with_tables db1 (<[id := r]> (rel_tables db)),
       Return (id, Some now, Some now)).

Definition create_table (now : datetime) (table_number : string)
    (capacity : Z) (location : option string) (is_available : bool)
    (description : option string) : M Table.t :=
  result ← insert_table now table_number capacity location is_available
             description;
  let '(table_id, created_at, updated_at) := result in
  mret (Table.mk table_id table_number capacity location (Some is_available)
          description created_at updated_at).

(** [SELECT * FROM tables WHERE table_number = %s] *)
Definition get_table_by_number (table_number : string) : M (option Table.t) :=
  λ db,
    (db,
     Return (table_of_row
               <$> fetchone
                     (select_where (λ r, tables.table_number r = table_number)
                        (rel_tables db)))).

(** ** Reading bookings *)

(** [SELECT * FROM bookings WHERE id = %s] *)
Definition get_booking_by_id (booking_id : Z) : M (option StoredBooking.t) :=
  λ db,
    (db,
     Return ((λ r, booking_of_row (booking_id, r))
               <$> rel_bookings db !! booking_id)).

(** [ORDER BY booking_date DESC, booking_time DESC]: [x] may come before
    [y]. *)
Definition latest_first (x y : Z * bookings.row) : Prop :=
  bookings.booking_date y.2 < bookings.booking_date x.2
  ∨ (bookings.booking_date y.2 = bookings.booking_date x.2
     ∧ bookings.booking_time y.2 ≤ bookings.booking_time x.2).

#[global] Instance latest_first_dec x y : Decision (latest_first x y).
Proof. unfold latest_first. apply _. Defined.

(** The rows of a [SELECT ... ORDER BY booking_date DESC, booking_time
    DESC]; among rows with the same date and time SQL leaves the order
    open, and the model takes the one of its sort. *)
Definition order_by_latest (rows : list (Z * bookings.row))
    : list (Z * bookings.row) :=
  merge_sort latest_first rows.

(** [SELECT * FROM bookings WHERE user_id = %s ORDER BY ...] *)
Definition get_bookings_by_user (user_id : Z) : M (list StoredBooking.t) :=
  λ db,
    (db,
     Return (booking_of_row
               <$> order_by_latest
                     (select_where (λ r, bookings.user_id r = user_id)
                        (rel_bookings db)))).

(** [SELECT * FROM bookings WHERE table_id = %s ORDER BY ...] *)
Definition get_bookings_by_table (table_id : Z) : M (list StoredBooking.t) :=
  λ db,
    (db,
     Return (booking_of_row
               <$> order_by_latest
                     (select_where (λ r, bookings.table_id r = table_id)
                        (rel_bookings db)))).

(** Python truth of an [Optional[str]]: [None] and [''] are false. *)
Definition given_str (s : option string) : option string :=
  match s with
  | Some EmptyString => None
  | _ => s
  end.

(** Python truth of an [Optional[int]]: [None] and [0] are false. *)
Definition given_int (n : option Z) : option Z :=
  match n with
  | Some 0 => None
  | _ => n
  end.

(** The [WHERE 1=1 AND status = %s AND booking_date = %s] of
    [get_all_bookings], each condition there when its argument is true. *)
Definition all_bookings_where (status : option string)
    (booking_date : option date) (r : bookings.row) : Prop :=
  match given_str status with
  | Some s => bookings.status r = Some s
  | None => True
  end
  ∧ match booking_date with
    | Some d => bookings.booking_date r = d
    | None => True
    end.

#[global] Instance all_bookings_where_dec status booking_date r :
  Decision (all_bookings_where status booking_date r).
Proof.
  unfold all_bookings_where.
  destruct (given_str status), booking_date; apply _.
Defined.

(** [LIMIT %s OFFSET %s], each there when its argument is true; the store
    refuses a negative count. *)
Definition limit_offset {A : Type} (limit offset : option Z) (rows : list A)
    : error_or (list A) :=
  match given_int limit, given_int offset with
  | Some n, Some k =>
      if (n <? 0) || (k <? 0) then inl DataError
      else inr (take (Z.to_nat n) (drop (Z.to_nat k) rows))
  | Some n, None =>
      if n <? 0 then inl DataError else inr (take (Z.to_nat n) rows)
  | None, Some k =>
      if k <? 0 then inl DataError else inr (drop (Z.to_nat k) rows)
  | None, None => inr rows
  end.

Definition get_all_bookings (status : option string)
    (booking_date : option date) (limit offset : option Z)
    : M (list StoredBooking.t) :=
  λ db,
    match limit_offset limit offset
            (order_by_latest
               (select_where (all_bookings_where status booking_date)
                  (rel_bookings db))) with
    | inl e => (db, Raise (DatabaseError e))
    | inr data_list => (db, Return (booking_of_row <$> data_list))
    end.

(** ** Every operation that writes *)

Inductive backend_op :=
| CreateUser (now : datetime) (username email : string)
    (full_name phone : option string) (role : string) (is_active : bool)
| UpdateUser (now : datetime) (user_id : Z) (fields : kwargs)
| DeleteUser (user_id : Z)
| CreateTable (now : datetime) (table_number : string) (capacity : Z)
    (location : option string) (is_available : bool)
    (description : option string)
| UpdateTable (now : datetime) (table_id : Z) (fields : kwargs)
| DeleteTable (table_id : Z)
| OnBookings (op : booking_op).

(** The store after an operation, whether it returned or raised. *)
Definition run_backend (op : backend_op) (db : DB) : DB :=
  match op with
  | CreateUser now un em fn ph ro ac =>
      (create_user now un em fn ph ro ac db).1
  | UpdateUser now i fields => (update_user now i fields db).1
  | DeleteUser i => (delete_user i db).1
  | CreateTable now tn ca lo av de => (create_table now tn ca lo av de db).1
  | UpdateTable now i fields => (update_table now i fields db).1
  | DeleteTable i => (delete_table i db).1
  | OnBookings op => run op db
  end.

(** Every booking refers to a user and to a table of the store. *)
Definition references_valid (db : DB) : Prop :=
  ∀ i b, rel_bookings db !! i = Some b →
         is_Some (rel_users db !! bookings.user_id b)
         ∧ is_Some (rel_tables db !! bookings.table_id b).

(** No two users share a username or an email, no two tables a number. *)
Definition names_unique (db : DB) : Prop :=
  (∀ i j u v, rel_users db !! i = Some u → rel_users db !! j = Some v →
              users.username u = users.username v → i = j)
  ∧ (∀ i j u v, rel_users db !! i = Some u → rel_users db !! j = Some v →
                users.email u = users.email v → i = j)
  ∧ (∀ i j t t', rel_tables db !! i = Some t → rel_tables db !! j = Some t' →
                 tables.table_number t = tables.table_number t' → i = j).

(** [x] is not earlier than [y], by date and then by time. *)
Definition not_earlier (x y : StoredBooking.t) : Prop :=
  StoredBooking.booking_date y < StoredBooking.booking_date x
  ∨ (StoredBooking.booking_date y = StoredBooking.booking_date x
     ∧ StoredBooking.booking_time y ≤ StoredBooking.booking_time x).

(** The row of booking [i] after it is cancelled at [now]. *)
Definition cancelled_row (now : datetime) (r : bookings.row) : bookings.row :=
  bookings.mk (bookings.user_id r) (bookings.table_id r)
    (bookings.booking_date r) (bookings.booking_time r)
    (bookings.guests_count r) (Some "cancelled"%string) (bookings.notes r)
    (bookings.created_at r) (Some now).

(** ** Listing users *)

(** [ORDER BY created_at DESC]: [x] may come before [y]; in descending
    order PostgreSQL puts [NULL] first. *)
Definition newest_first (x y : Z * users.row) : Prop :=
  match users.created_at x.2, users.created_at y.2 with
  | None, _ => True
  | Some _, None => False
  | Some a, Some b => b ≤ a
  end.

#[global] Instance newest_first_dec x y : Decision (newest_first x y).
Proof.
  unfold newest_first.
  destruct (users.created_at x.2), (users.created_at y.2); apply _.
Defined.

(** The [WHERE 1=1 AND is_active = %s AND role = %s] of [get_all_users],
    each condition there when its argument is true. *)
Definition all_users_where (active_only : bool) (role : option string)
    (r : users.row) : Prop :=
  (if active_only then users.is_active r = Some true else True)
  ∧ match given_str role with
    | Some ro => users.role r = Some ro
    | None => True
    end.

#[global] Instance all_users_where_dec active_only role r :
  Decision (all_users_where active_only role r).
Proof.
  unfold all_users_where.
  destruct active_only, (given_str role); apply _.
Defined.

Definition get_all_users (active_only : bool) (role : option string)
    (limit offset : option Z) : M (list User.t) :=
  λ db,
    match limit_offset limit offset
            (merge_sort newest_first
               (select_where (all_users_where active_only role)
                  (rel_users db))) with
    | inl e => (db, Raise (DatabaseError e))
    | inr data_list => (db, Return (user_of_row <$> data_list))
    end.

(** * Properties *)

(** ** The admission query *)

Ltac run_monad :=
  unfold mbind, M_bind, bind, mret, M_ret, ret, raise, get_table_by_id in *;
  simpl in *.

(** A parameter of the query, as the store reads it. *)
Lemma as_timestamp_combine zone booking_date booking_time :
  as_timestamp zone (datetime_combine booking_date booking_time)
  = combine booking_date (session_time zone booking_time).
Proof.
  unfold as_timestamp, datetime_combine, session_time, combine. simpl.
  destruct (utcoffset booking_time); lia.
Qed.

Lemma plus_hours_Some x h y :
  plus_hours x h = Some y →
  in_datetime_range (wall_clock x + hours h)
  ∧ ∀ zone, as_timestamp zone y = as_timestamp zone x + hours h.
Proof.
  unfold plus_hours. case_bool_decide; [|done]. intros [= <-].
  split; [done|]. intros zone. unfold as_timestamp. simpl.
  destruct (tzinfo x); lia.
Qed.

Lemma plus_hours_None x h :
  plus_hours x h = None ↔ ¬ in_datetime_range (wall_clock x + hours h).
Proof. unfold plus_hours. by case_bool_decide. Qed.

(** The four ways [check_table_availability] ends. *)
Lemma check_table_availability_eq table_id booking_date booking_time
    duration_hours db :
  check_table_availability table_id booking_date booking_time duration_hours db
  = (db,
     match rel_tables db !! table_id with
     | None => Raise (ValueError (TableNotFound table_id))
     | Some t =>
         if truthy (tables.is_available t) then
           if bool_decide
                (in_datetime_range
                   (combine booking_date (time_of_day booking_time)
                    + hours duration_hours))
           then
             Return (bool_decide
                       (count_conflicts table_id booking_date
                          (combine booking_date
                             (session_time (time_zone db) booking_time)
                           + hours duration_hours)
                          (combine booking_date
                             (session_time (time_zone db) booking_time))
                          db = 0%nat))
           else Raise OverflowError
         else Raise (ValueError (TableUnavailable (tables.table_number t)))
     end).
Proof.
  unfold check_table_availability. run_monad.
  destruct (rel_tables db !! table_id) as [t|]; simpl; [|done].
  destruct (truthy (tables.is_available t)); simpl; [|done].
  destruct (plus_hours _ _) as [y|] eqn:Hy.
  - apply plus_hours_Some in Hy as [Hr Hy]. simpl in Hr.
    rewrite (bool_decide_eq_true_2 _ Hr).
    by rewrite Hy, as_timestamp_combine.
  - apply plus_hours_None in Hy. simpl in Hy.
    by rewrite (bool_decide_eq_false_2 _ Hy).
Qed.

(** The [WHERE] clause of the query says what the specification calls a
    conflict. *)
Lemma conflict_where_spec table_id booking_date booking_time duration_hours b :
  conflict_where table_id booking_date
    (combine booking_date booking_time + hours duration_hours)
    (combine booking_date booking_time) b = true
  ↔ conflicts_with table_id booking_date booking_time duration_hours b.
Proof.
  unfold conflict_where, conflicts_with, overlaps, cancelled, booking_start,
    sql_status_not_cancelled.
  rewrite !andb_true_iff, !Z.eqb_eq, Z.ltb_lt, Z.gtb_gt.
  destruct (bookings.status b) as [s|].
  - rewrite negb_true_iff. destruct (String.eqb_spec s "cancelled").
    + subst. split; [intros [[[_ _] ?] _]; done| intros (_ & _ & [_ H] & _)].
      by destruct H.
    + split; [intros [[[? ?] _] [? ?]]|intros (? & ? & _ & ? & ?)];
        repeat split; try done. intros [= ->]. done.
  - split; [intros [[[_ _] ?] _]; done| intros (_ & _ & [H _] & _); done].
Qed.

Lemma count_conflicts_spec table_id booking_date booking_time duration_hours db :
  count_conflicts table_id booking_date
    (combine booking_date booking_time + hours duration_hours)
    (combine booking_date booking_time) db
  = conflict_count table_id booking_date booking_time duration_hours db.
Proof.
  unfold count_conflicts, conflict_count. f_equal.
  apply map_filter_ext. intros i b _. simpl. apply conflict_where_spec.
Qed.

(** The count is zero exactly when no stored booking is a conflict. *)
Lemma conflict_count_zero table_id booking_date booking_time duration_hours db :
  conflict_count table_id booking_date booking_time duration_hours db = 0%nat
  ↔ ∀ i b, rel_bookings db !! i = Some b →
           ¬ conflicts_with table_id booking_date booking_time duration_hours b.
Proof.
  unfold conflict_count. rewrite map_size_empty_iff, map_empty_filter.
  unfold map_Forall. simpl. done.
Qed.

(** Two half-open intervals that are not empty overlap, by the test of the
    specification, exactly when they share an instant. *)
Lemma overlaps_common_instant s1 e1 s2 e2 :
  s1 < e1 → s2 < e2 →
  overlaps s1 e1 s2 e2 ↔ ∃ t, (s1 ≤ t ∧ t < e1) ∧ (s2 ≤ t ∧ t < e2).
Proof.
  unfold overlaps. intros H1 H2. split.
  - intros [? ?]. exists (Z.max s1 s2). lia.
  - intros (t & ? & ?). lia.
Qed.

(** For an available table the check ends in [OverflowError] exactly when
    the end of the candidate is no [datetime]; the store is not asked. *)
Lemma check_table_availability_overflow db table_id t booking_date
    booking_time duration_hours :
  rel_tables db !! table_id = Some t →
  tables.is_available t = Some true →
  check_table_availability table_id booking_date booking_time duration_hours db
  = (db, Raise OverflowError)
  ↔ ¬ in_datetime_range
        (combine booking_date (time_of_day booking_time)
         + hours duration_hours).
Proof.
  intros Ht Hav. rewrite check_table_availability_eq, Ht, Hav. simpl.
  case_bool_decide; split; done.
Qed.

(** The check for a time of any kind: the conflicts counted are those of
    the time of day that the clock of the session shows. *)
Lemma check_table_availability_session_time db table_id t booking_date
    booking_time duration_hours :
  rel_tables db !! table_id = Some t →
  tables.is_available t = Some true →
  in_datetime_range
    (combine booking_date (time_of_day booking_time) + hours duration_hours) →
  check_table_availability table_id booking_date booking_time duration_hours db
  = (db, Return (bool_decide
                   (conflict_count table_id booking_date
                      (session_time (time_zone db) booking_time)
                      duration_hours db = 0%nat))).
Proof.
  intros Ht Hav Hr. rewrite check_table_availability_eq, Ht, Hav. simpl.
  by rewrite (bool_decide_eq_true_2 _ Hr), count_conflicts_spec.
Qed.

(** C2: for an available table and a candidate whose interval, from
    combine(date, time) to duration_hours later, ends within the range of
    datetime, check_table_availability returns true exactly when the number
    of conflicting bookings is zero, a conflict being a booking of the same
    table on exactly the same date, not cancelled, whose interval from its
    start to two hours later overlaps the interval of the candidate; the
    test is strict, so a cancelled booking and a booking that touches the
    candidate at an endpoint are no conflicts.  (Where the end of the
    candidate is no datetime there is no interval, and the call raises
    OverflowError: check_table_availability_overflow.) *)
Theorem check_table_availability_counts_conflicts
    (db : DB) (table_id : Z) (t : tables.row) (booking_date : date)
    (booking_time : time) (duration_hours : Z) :
  rel_tables db !! table_id = Some t →
  tables.is_available t = Some true →
  in_datetime_range (combine booking_date booking_time + hours duration_hours) →
  check_table_availability table_id booking_date booking_time duration_hours db
  = (db, Return (bool_decide
                   (conflict_count table_id booking_date booking_time
                      duration_hours db = 0%nat)))
  ∧ (∀ b, cancelled b →
          ¬ conflicts_with table_id booking_date booking_time duration_hours b)
  ∧ (∀ b, combine booking_date booking_time = booking_start b + hours 2 →
          ¬ conflicts_with table_id booking_date booking_time duration_hours b)
  ∧ (∀ b, booking_start b
          = combine booking_date booking_time + hours duration_hours →
          ¬ conflicts_with table_id booking_date booking_time duration_hours b).
Proof.
  intros Ht Hav Hr. repeat split.
  - by rewrite (check_table_availability_session_time db table_id t).
  - intros b Hc (_ & _ & [_ H] & _). done.
  - intros b Heq (_ & _ & _ & Ho). unfold overlaps in Ho. lia.
  - intros b Heq (_ & _ & _ & Ho). unfold overlaps in Ho. lia.
Qed.

(** With table 1 booked from 18:00: the slot at 19:00 has one conflict, the
    slot at 20:00 none. *)
Lemma check_table_availability_counts_conflicts_witness :
  rel_tables booked_18 !! 1 = Some table_T1
  ∧ tables.is_available table_T1 = Some true
  ∧ check_table_availability 1 june_1 (oclock 19) 2 booked_18
    = (booked_18, Return false)
  ∧ check_table_availability 1 june_1 (oclock 20) 1 booked_18
    = (booked_18, Return true).
Proof.
  assert (rel_tables booked_18 !! 1 = Some table_T1) as Ht
    by (vm_compute; reflexivity).
  assert (tables.is_available table_T1 = Some true) as Hav by reflexivity.
  split; [exact Ht|]. split; [exact Hav|]. split.
  - rewrite (proj1 (check_table_availability_counts_conflicts booked_18 1
                      table_T1 june_1 (oclock 19) 2 Ht Hav
                      ltac:(vm_compute; split; discriminate))).
    vm_compute. reflexivity.
  - rewrite (proj1 (check_table_availability_counts_conflicts booked_18 1
                      table_T1 june_1 (oclock 20) 1 Ht Hav
                      ltac:(vm_compute; split; discriminate))).
    vm_compute. reflexivity.
Defined.

(** C5: check_table_availability fails with "table not found" when no table
    has the identity, and with "table unavailable" when the table is there
    with its flag false, whatever the bookings are (the query is not
    reached); for a table that is there and available, and a candidate
    whose end, combine(date, time) plus duration_hours, is within the range
    of datetime, it returns a boolean.  (Where that sum is no datetime,
    Python raises its OverflowError: check_table_availability_overflow.) *)
Theorem check_table_availability_errors
    (db : DB) (table_id : Z) (booking_date : date) (booking_time : pytime)
    (duration_hours : Z) :
  (rel_tables db !! table_id = None →
   check_table_availability table_id booking_date booking_time
     duration_hours db
   = (db, Raise (ValueError (TableNotFound table_id))))
  ∧ (∀ t, rel_tables db !! table_id = Some t →
          tables.is_available t = Some false →
          ∀ stored : gmap Z bookings.row,
            check_table_availability table_id booking_date booking_time
              duration_hours (with_bookings db stored)
            = (with_bookings db stored,
               Raise (ValueError (TableUnavailable (tables.table_number t)))))
  ∧ (∀ t, rel_tables db !! table_id = Some t →
          tables.is_available t = Some true →
          in_datetime_range
            (combine booking_date (time_of_day booking_time)
             + hours duration_hours) →
          ∃ b : bool,
            check_table_availability table_id booking_date booking_time
              duration_hours db
            = (db, Return b)).
Proof.
  repeat split.
  - intros H. by rewrite check_table_availability_eq, H.
  - intros t Ht Hav stored. rewrite check_table_availability_eq. simpl.
    by rewrite Ht, Hav.
  - intros t Ht Hav Hr. eexists.
    by rewrite (check_table_availability_session_time db table_id t).
Qed.

(** In the restaurant: table 3 is not there, table 2 is disabled, table 1 is
    checked. *)
Lemma check_table_availability_errors_witness :
  check_table_availability 3 june_1 (oclock 18) 2 restaurant
  = (restaurant, Raise (ValueError (TableNotFound 3)))
  ∧ check_table_availability 2 june_1 (oclock 18) 2 restaurant
    = (restaurant, Raise (ValueError (TableUnavailable "T2")))
  ∧ ∃ b, check_table_availability 1 june_1 (oclock 18) 2 restaurant
         = (restaurant, Return b).
Proof.
  split; [|split].
  - apply (proj1 (check_table_availability_errors restaurant 3 june_1
                    (oclock 18) 2)).
    vm_compute. reflexivity.
  - apply (proj1 (proj2 (check_table_availability_errors restaurant 2 june_1
                           (oclock 18) 2)) table_T2 eq_refl eq_refl ∅).
  - apply (proj2 (proj2 (check_table_availability_errors restaurant 1 june_1
                           (oclock 18) 2)) table_T1 eq_refl eq_refl).
    vm_compute. split; discriminate.
Defined.

(** A candidate of a hundred million hours has no end: the check of the
    free table 1 raises. *)
Example check_table_availability_overflow_example :
  check_table_availability 1 june_1 (oclock 18) 100000000 restaurant
  = (restaurant, Raise OverflowError).
Proof. vm_compute. reflexivity. Qed.

(** So has one of two hours at 23:00 on 9999-12-31. *)
Example check_table_availability_last_day :
  check_table_availability 1 3652059 (oclock 23) 2 restaurant
  = (restaurant, Raise OverflowError)
  ∧ check_table_availability 1 3652059 (oclock 21) 2 restaurant
    = (restaurant, Return true).
Proof. split; vm_compute; reflexivity. Qed.

(** X24: A table whose flag is [NULL] is refused like a disabled one. *)
Lemma check_table_availability_null_flag db table_id t booking_date
    booking_time duration_hours :
  rel_tables db !! table_id = Some t →
  tables.is_available t = None →
  check_table_availability table_id booking_date booking_time duration_hours db
  = (db, Raise (ValueError (TableUnavailable (tables.table_number t)))).
Proof. intros Ht Hav. by rewrite check_table_availability_eq, Ht, Hav. Qed.

(** ** Creating a booking *)

Lemma insert_booking_cases now user_id table_id booking_date booking_time
    guests_count status notes db :
  let id := bookings_id_seq db + 1 in
  let r := insert_booking now user_id table_id booking_date booking_time
             guests_count status notes db in
  (¬ (int4 user_id ∧ int4 table_id ∧ int4 guests_count)
   ∧ r = (db, Raise (DatabaseError DataError)))
  ∨ (∃ e, r = (with_bookings_id_seq db id, Raise (DatabaseError e)))
  ∨ (rel_bookings db !! id = None
     ∧ is_Some (rel_users db !! user_id)
     ∧ is_Some (rel_tables db !! table_id)
     ∧ (int4 user_id ∧ int4 table_id ∧ int4 guests_count)
     ∧ r = (with_bookings (with_bookings_id_seq db id)
              (<[id := bookings.mk user_id table_id booking_date
                         (time_of_day booking_time) guests_count
                         (Some status) (Some notes) (Some now)
                         (Some now)]> (rel_bookings db)),
            Return (id, Some now, Some now))).
Proof.
  intros id r. subst r. unfold insert_booking. fold id.
  case_bool_decide as Hr; simpl; [|by left].
  right. repeat case_bool_decide; eauto.
  right. repeat split; try apply Hr.
  - by apply eq_None_not_Some.
  - by apply not_eq_None_Some.
  - by apply not_eq_None_Some.
Qed.

(** [create_booking], by the outcome of the check and of the [INSERT]. *)
Lemma create_booking_eq now user_id table_id booking_date booking_time
    guests_count status notes duration_hours db :
  create_booking now user_id table_id booking_date booking_time guests_count
    status notes duration_hours db
  = match check_table_availability table_id booking_date booking_time
            duration_hours db with
    | (_, Raise e) => (db, Raise e)
    | (_, Return false) =>
        (db,
         Raise (ValueError
                  (TableAlreadyBooked
                     match rel_tables db !! table_id with
                     | Some t => TableNumber (tables.table_number t)
                     | None => TableId table_id
                     end booking_date booking_time)))
    | (_, Return true) =>
        match insert_booking now user_id table_id booking_date booking_time
                guests_count status (created_notes notes) db with
        | (db', Return (id, created_at, updated_at)) =>
            (db',
             Return (Booking.mk id user_id table_id booking_date booking_time
                       guests_count status (created_notes notes)
                       created_at updated_at))
        | (db', Raise e) => (db', Raise e)
        end
    end.
Proof.
  unfold create_booking.
  unfold mbind at 1. unfold M_bind, bind.
  rewrite check_table_availability_eq.
  destruct (rel_tables db !! table_id) as [t|] eqn:Ht; [|done].
  destruct (truthy (tables.is_available t)); [|done].
  case_bool_decide; [|done].
  case_bool_decide; simpl.
  - unfold mbind, M_bind, bind, created_notes.
    destruct (insert_booking _ _ _ _ _ _ _ _ db) as [db' [[[id cr] up]|e]]; done.
  - run_monad. by rewrite Ht.
Qed.

Lemma create_booking_cases now user_id table_id booking_date booking_time
    guests_count status notes duration_hours db :
  create_booking_case now user_id table_id booking_date booking_time
    guests_count status notes duration_hours db
    (check_table_availability table_id booking_date booking_time
       duration_hours db)
    (create_booking now user_id table_id booking_date booking_time
       guests_count status notes duration_hours db).
Proof.
  rewrite create_booking_eq, check_table_availability_eq.
  destruct (rel_tables db !! table_id) as [t|] eqn:Ht;
    [|constructor; by left].
  destruct (truthy (tables.is_available t)); [|constructor; right; eauto].
  case_bool_decide; [|by constructor].
  case_bool_decide; [|by constructor].
  destruct (insert_booking_cases now user_id table_id booking_date
              booking_time guests_count status (created_notes notes) db)
    as [[Hr ->]|[[e ->]|(Hid & Hu & _ & Hr & ->)]];
    [by constructor|constructor|].
  by apply create_succeeds.
Qed.

(** C4: create_booking runs check_table_availability first; it fails with
    the conflict error, which names the table and the requested date and
    time, exactly when the check returns false; it passes the errors of the
    check on unchanged; whenever it fails no row is persisted and the three
    relations are as before; when it succeeds the returned booking is the
    one new row. *)
Theorem create_booking_all_or_nothing
    (now : datetime) (user_id table_id : Z) (booking_date : date)
    (booking_time : time) (guests_count : Z) (status : string)
    (notes : option string) (duration_hours : Z) (db : DB) :
  let checked :=
    check_table_availability table_id booking_date booking_time
      duration_hours db in
  let result :=
    create_booking now user_id table_id booking_date booking_time
      guests_count status notes duration_hours db in
  (checked.2 = Return false
   ↔ ∃ label, result.2 = Raise (ValueError (TableAlreadyBooked label
                                              booking_date booking_time)))
  ∧ (checked.2 = Return false →
     ∃ t, rel_tables db !! table_id = Some t
          ∧ result.2 = Raise (ValueError
                                (TableAlreadyBooked
                                   (TableNumber (tables.table_number t))
                                   booking_date booking_time)))
  ∧ (∀ e, checked.2 = Raise e → result = (db, Raise e))
  ∧ (∀ e, result.2 = Raise e → same_rows db result.1)
  ∧ (∀ b, result.2 = Return b →
          rel_users result.1 = rel_users db
          ∧ rel_tables result.1 = rel_tables db
          ∧ rel_bookings db !! Booking.id b = None
          ∧ rel_bookings result.1
            = <[Booking.id b := row_of_booking b]> (rel_bookings db)).
Proof.
  intros checked result. subst checked result.
  destruct (create_booking_cases now user_id table_id booking_date
              booking_time guests_count status notes duration_hours db)
    as [e He|t Ht| |Hr|e|Hid Hu Hr]; simpl.
  - repeat split; try done.
    + intros [label H]. destruct He as [->|[n ->]]; done.
    + by intros ? [= <-].
  - repeat split; try done; eauto.
  - repeat split; try done.
    + by intros [? ?].
    + by intros ? [= <-].
  - repeat split; try done. by intros [? ?].
  - repeat split; try done. by intros [? ?].
  - split; [split; [done|by intros [? ?]]|].
    split; [done|]. split; [done|]. split; [done|].
    intros b [= <-]. done.
Qed.

(** With table 1 booked from 18:00, booking it from 19:00 is refused with
    the error that names table T1 and the slot. *)
Lemma create_booking_all_or_nothing_witness :
  (check_table_availability 1 june_1 (oclock 19) 2 booked_18).2 = Return false
  ∧ ∃ t, rel_tables booked_18 !! 1 = Some t
         ∧ (create_booking 5 1 1 june_1 (oclock 19) 2 "pending" None 2
              booked_18).2
           = Raise (ValueError
                      (TableAlreadyBooked (TableNumber (tables.table_number t))
                         june_1 (oclock 19))).
Proof.
  assert ((check_table_availability 1 june_1 (oclock 19) 2 booked_18).2
          = Return false) as H by (vm_compute; reflexivity).
  split; [exact H|].
  exact (proj1 (proj2 (create_booking_all_or_nothing 5 1 1 june_1 (oclock 19)
                         2 "pending" None 2 booked_18)) H).
Defined.

(** C9: when create_booking succeeds, the users and the tables are as
    before, and the bookings are those of before with one more row, the
    returned one, under an identity that held no row. *)
Theorem create_booking_frame
    (now : datetime) (user_id table_id : Z) (booking_date : date)
    (booking_time : time) (guests_count : Z) (status : string)
    (notes : option string) (duration_hours : Z) (db db' : DB)
    (b : Booking.t) :
  create_booking now user_id table_id booking_date booking_time guests_count
    status notes duration_hours db = (db', Return b) →
  rel_users db' = rel_users db
  ∧ rel_tables db' = rel_tables db
  ∧ rel_bookings db !! Booking.id b = None
  ∧ rel_bookings db' !! Booking.id b = Some (row_of_booking b)
  ∧ (∀ i, i ≠ Booking.id b → rel_bookings db' !! i = rel_bookings db !! i)
  ∧ size (rel_bookings db') = S (size (rel_bookings db)).
Proof.
  intros H.
  destruct (create_booking_cases now user_id table_id booking_date
              booking_time guests_count status notes duration_hours db)
    as [e He|t Ht| |Hr|e|Hid Hu Hr]; try done.
  injection H as <- <-. simpl. repeat split; try done.
  - apply lookup_insert_eq.
  - intros i Hi. by apply lookup_insert_ne.
  - by apply map_size_insert_None.
Qed.

(** The first booking of the restaurant. *)
Lemma create_booking_frame_witness :
  create_booking 0 1 1 june_1 (oclock 18) 2 "pending" None 2 restaurant
  = (booked_18,
     Return (Booking.mk 1 1 1 june_1 (oclock 18) 2 "pending" "" (Some 0)
               (Some 0)))
  ∧ rel_users booked_18 = rel_users restaurant
  ∧ size (rel_bookings booked_18) = 1%nat.
Proof.
  assert (create_booking 0 1 1 june_1 (oclock 18) 2 "pending" None 2 restaurant
          = (booked_18,
             Return (Booking.mk 1 1 1 june_1 (oclock 18) 2 "pending" ""
                       (Some 0) (Some 0)))) as H
    by (vm_compute; reflexivity).
  split; [exact H|].
  destruct (create_booking_frame _ _ _ _ _ _ _ _ _ _ _ _ H)
    as (Hu & _ & _ & _ & _ & Hs).
  split; [exact Hu|exact Hs].
Defined.

(** ** The duration of a booking *)

(** [duration_hours] reaches the admission query and nothing else. *)
Lemma create_booking_duration now user_id table_id booking_date booking_time
    guests_count status notes h1 h2 db r1 r2 :
  returned (create_booking now user_id table_id booking_date booking_time
              guests_count status notes h1 db) = Some r1 →
  returned (create_booking now user_id table_id booking_date booking_time
              guests_count status notes h2 db) = Some r2 →
  create_booking now user_id table_id booking_date booking_time guests_count
    status notes h1 db
  = create_booking now user_id table_id booking_date booking_time guests_count
      status notes h2 db.
Proof.
  unfold returned.
  destruct (create_booking_cases now user_id table_id booking_date
              booking_time guests_count status notes h1 db); try done.
  destruct (create_booking_cases now user_id table_id booking_date
              booking_time guests_count status notes h2 db); done.
Qed.

(** C3, as the code has it: a booking has no duration.  The row and the
    Booking object consist of the identity, user, table, date, time, guest
    count, status, notes and the two timestamps; create_booking hands
    duration_hours to the availability check only, so two successful calls
    that differ in nothing but duration_hours leave the same store and
    return the same Booking, the one described by the other arguments. *)
Theorem create_booking_stores_no_duration
    (now : datetime) (user_id table_id : Z) (booking_date : date)
    (booking_time : time) (guests_count : Z) (status : string)
    (notes : option string) (h1 h2 : Z) (db db1 db2 : DB) (b1 b2 : Booking.t) :
  create_booking now user_id table_id booking_date booking_time guests_count
    status notes h1 db = (db1, Return b1) →
  create_booking now user_id table_id booking_date booking_time guests_count
    status notes h2 db = (db2, Return b2) →
  db1 = db2
  ∧ b1 = b2
  ∧ b1 = created_booking now user_id table_id booking_date booking_time
           guests_count status notes db
  ∧ rel_bookings db1 !! Booking.id b1 = Some (row_of_booking b1).
Proof.
  intros H1 H2.
  pose proof (create_booking_duration now user_id table_id booking_date
                booking_time guests_count status notes h1 h2 db b1 b2) as E.
  rewrite H1, H2 in E. specialize (E eq_refl eq_refl).
  injection E as <- <-. split; [done|]. split; [done|].
  destruct (create_booking_cases now user_id table_id booking_date
              booking_time guests_count status notes h1 db); try done.
  injection H1 as <- <-. split; [done|]. simpl. apply lookup_insert_eq.
Qed.

(** One hour or three: the same store and the same Booking. *)
Lemma create_booking_stores_no_duration_witness :
  create_booking 0 1 1 june_1 (oclock 18) 2 "pending" None 1 restaurant
  = (booked_18, Return (created_booking 0 1 1 june_1 (oclock 18) 2 "pending"
                          None restaurant))
  ∧ create_booking 0 1 1 june_1 (oclock 18) 2 "pending" None 3 restaurant
    = (booked_18, Return (created_booking 0 1 1 june_1 (oclock 18) 2 "pending"
                            None restaurant))
  ∧ rel_bookings booked_18 !! 1
    = Some (row_of_booking
              (created_booking 0 1 1 june_1 (oclock 18) 2 "pending" None
                 restaurant)).
Proof.
  assert (create_booking 0 1 1 june_1 (oclock 18) 2 "pending" None 1 restaurant
          = (booked_18,
             Return (created_booking 0 1 1 june_1 (oclock 18) 2 "pending"
                       None restaurant))) as H1
    by (vm_compute; reflexivity).
  assert (create_booking 0 1 1 june_1 (oclock 18) 2 "pending" None 3 restaurant
          = (booked_18,
             Return (created_booking 0 1 1 june_1 (oclock 18) 2 "pending"
                       None restaurant))) as H2
    by (vm_compute; reflexivity).
  split; [exact H1|]. split; [exact H2|].
  exact (proj2 (proj2 (proj2
    (create_booking_stores_no_duration _ _ _ _ _ _ _ _ _ _ _ _ _ _ _ H1 H2)))).
Defined.

(** C3 as stated fails: no function recovers the requested duration from
    the store and the returned Booking, since bookings of one and of three
    hours leave the same store and the same Booking. *)
Lemma stored_duration_not_recoverable :
  ¬ ∃ recover : DB → Booking.t → Z,
      ∀ now user_id table_id booking_date booking_time guests_count status
        notes duration_hours db db' b,
        create_booking now user_id table_id booking_date booking_time
          guests_count status notes duration_hours db = (db', Return b) →
        recover db' b = duration_hours.
Proof.
  intros [recover H].
  assert (create_booking 0 1 1 june_1 (oclock 18) 2 "pending" None 1 restaurant
          = (booked_18,
             Return (created_booking 0 1 1 june_1 (oclock 18) 2 "pending"
                       None restaurant))) as H1
    by (vm_compute; reflexivity).
  assert (create_booking 0 1 1 june_1 (oclock 18) 2 "pending" None 3 restaurant
          = (booked_18,
             Return (created_booking 0 1 1 june_1 (oclock 18) 2 "pending"
                       None restaurant))) as H2
    by (vm_compute; reflexivity).
  apply H in H1. apply H in H2. rewrite H1 in H2. discriminate H2.
Qed.

(** ** The guest count *)

(** [guests_count] reaches the [INSERT] and nothing else, and the store
    tests its range and nothing else. *)
Lemma create_booking_raised_any_guests now user_id table_id booking_date
    booking_time g g' status notes duration_hours db :
  int4 g → int4 g' →
  raised (create_booking now user_id table_id booking_date booking_time g
            status notes duration_hours db)
  = raised (create_booking now user_id table_id booking_date booking_time g'
              status notes duration_hours db).
Proof.
  intros Hg Hg'. rewrite !create_booking_eq.
  destruct (check_table_availability _ _ _ _ db) as [? [[|]|e]]; try done.
  unfold insert_booking, raised.
  destruct (decide (int4 user_id ∧ int4 table_id)) as [[Hu Ht]|Hn].
  - rewrite (bool_decide_eq_true_2 (int4 user_id ∧ int4 table_id ∧ int4 g)),
      (bool_decide_eq_true_2 (int4 user_id ∧ int4 table_id ∧ int4 g'))
      by done.
    simpl. repeat case_bool_decide; done.
  - rewrite (bool_decide_eq_false_2 (int4 user_id ∧ int4 table_id ∧ int4 g)),
      (bool_decide_eq_false_2 (int4 user_id ∧ int4 table_id ∧ int4 g'));
      [done| |]; intros (? & ? & ?); tauto.
Qed.

(** C6, as the code has it: create_booking does not validate guests_count.
    A call with a non-positive guests_count, a value of INTEGER, raises what
    the same call with a positive guests_count raises, and returns when that
    one returns; the returned Booking and the persisted row then carry the
    non-positive guests_count that was given. *)
Theorem create_booking_keeps_guests_count
    (now : datetime) (user_id table_id : Z) (booking_date : date)
    (booking_time : pytime) (guests_count : Z) (status : string)
    (notes : option string) (duration_hours : Z) (db : DB) :
  guests_count ≤ 0 →
  int4 guests_count →
  let result :=
    create_booking now user_id table_id booking_date booking_time
      guests_count status notes duration_hours db in
  (∀ positive, 0 < positive → int4 positive →
     raised result
     = raised (create_booking now user_id table_id booking_date booking_time
                 positive status notes duration_hours db))
  ∧ (∀ b, result.2 = Return b →
          Booking.guests_count b = guests_count
          ∧ bookings.guests_count <$> rel_bookings result.1 !! Booking.id b
            = Some guests_count).
Proof.
  intros _ Hg result. subst result. split.
  - intros g _ Hr. by apply create_booking_raised_any_guests.
  - intros b.
    destruct (create_booking_cases now user_id table_id booking_date
                booking_time guests_count status notes duration_hours db);
      try done.
    simpl. intros [= <-]. split; [done|]. simpl. by rewrite lookup_insert_eq.
Qed.

(** Minus three guests or four: the same outcome, and minus three are
    stored. *)
Lemma create_booking_keeps_guests_count_witness :
  raised (create_booking 0 1 1 june_1 (oclock 18) (-3) "pending" None 2
            restaurant)
  = raised (create_booking 0 1 1 june_1 (oclock 18) 4 "pending" None 2
              restaurant)
  ∧ (∀ b, (create_booking 0 1 1 june_1 (oclock 18) (-3) "pending" None 2
             restaurant).2 = Return b →
          Booking.guests_count b = -3).
Proof.
  pose proof (create_booking_keeps_guests_count 0 1 1 june_1 (oclock 18)
                (-3) "pending" None 2 restaurant
                ltac:(lia) ltac:(vm_compute; split; discriminate)) as [H1 H2].
  split.
  - apply (H1 4); [lia|vm_compute; split; discriminate].
  - intros b Hb. exact (proj1 (H2 b Hb)).
Defined.

(** A guests_count that is no value of INTEGER is refused by the store,
    and so is a user_id: the foreign key is not looked at. *)
Example create_booking_out_of_range :
  create_booking 0 1 1 june_1 (oclock 18) 2147483648 "pending" None 2
    restaurant
  = (restaurant, Raise (DatabaseError DataError))
  ∧ create_booking 0 2147483648 1 june_1 (oclock 18) 2 "pending" None 2
      restaurant
    = (restaurant, Raise (DatabaseError DataError))
  ∧ (create_booking 0 1 1 june_1 (oclock 18) 2147483647 "pending" None 2
       restaurant).2
    = Return (Booking.mk 1 1 1 june_1 (oclock 18) 2147483647 "pending" ""
                (Some 0) (Some 0)).
Proof. repeat split; vm_compute; reflexivity. Qed.

(** C6 as stated fails: a booking for zero guests is accepted and
    persisted. *)
Lemma create_booking_accepts_zero_guests :
  ¬ (∀ now user_id table_id booking_date booking_time guests_count status
       notes duration_hours db,
       guests_count ≤ 0 →
       ∃ e, raised (create_booking now user_id table_id booking_date
                      booking_time guests_count status notes duration_hours db)
            = Some e
            ∧ rel_bookings
                (create_booking now user_id table_id booking_date
                   booking_time guests_count status notes duration_hours db).1
              = rel_bookings db).
Proof.
  intros H.
  destruct (H 0 1 1 june_1 (oclock 18) 0 "pending"%string None 2 restaurant)
    as (e & He & _); [lia|].
  vm_compute in He. discriminate He.
Qed.

(** ** Deleting users and tables *)

Lemma referenced_true fk id db :
  referenced fk id db = true
  ↔ ∃ i b, rel_bookings db !! i = Some b ∧ fk b = id.
Proof.
  unfold referenced. rewrite bool_decide_eq_true, map_Exists_lookup. done.
Qed.

Lemma referenced_false fk id db :
  referenced fk id db = false
  ↔ ∀ i b, rel_bookings db !! i = Some b → fk b ≠ id.
Proof.
  rewrite <- not_true_iff_false, referenced_true. split.
  - intros H i b Hb Hfk. apply H. eauto.
  - intros H (i & b & Hb & Hfk). by apply (H i b).
Qed.

(** C7, as the code has it: bookings refer to users and tables through
    foreign keys without a delete rule, so delete_user and delete_table
    remove the row and return true only when no booking refers to it; when a
    booking does, the store refuses the statement, the call raises, and the
    store is unchanged; when there is no such row they return false. *)
Theorem delete_respects_foreign_keys (db : DB) (id : Z) :
  (rel_users db !! id = None → delete_user id db = (db, Return false))
  ∧ (is_Some (rel_users db !! id) →
     (∀ i b, rel_bookings db !! i = Some b → bookings.user_id b ≠ id) →
     delete_user id db
     = (with_users db (delete id (rel_users db)), Return true))
  ∧ (is_Some (rel_users db !! id) →
     (∃ i b, rel_bookings db !! i = Some b ∧ bookings.user_id b = id) →
     delete_user id db = (db, Raise (DatabaseError ForeignKeyViolation)))
  ∧ (rel_tables db !! id = None → delete_table id db = (db, Return false))
  ∧ (is_Some (rel_tables db !! id) →
     (∀ i b, rel_bookings db !! i = Some b → bookings.table_id b ≠ id) →
     delete_table id db
     = (with_tables db (delete id (rel_tables db)), Return true))
  ∧ (is_Some (rel_tables db !! id) →
     (∃ i b, rel_bookings db !! i = Some b ∧ bookings.table_id b = id) →
     delete_table id db = (db, Raise (DatabaseError ForeignKeyViolation))).
Proof.
  unfold delete_user, delete_table. repeat split.
  - by intros ->.
  - intros [u ->] H. apply referenced_false in H. by rewrite H.
  - intros [u ->] H. apply referenced_true in H. by rewrite H.
  - by intros ->.
  - intros [t ->] H. apply referenced_false in H. by rewrite H.
  - intros [t ->] H. apply referenced_true in H. by rewrite H.
Qed.

(** The user of a booking cannot be deleted; without bookings, the user
    can. *)
Lemma delete_respects_foreign_keys_witness :
  is_Some (rel_users booked_18 !! 1)
  ∧ (∃ i b, rel_bookings booked_18 !! i = Some b ∧ bookings.user_id b = 1)
  ∧ delete_user 1 booked_18
    = (booked_18, Raise (DatabaseError ForeignKeyViolation))
  ∧ delete_user 1 restaurant
    = (with_users restaurant (delete 1 (rel_users restaurant)), Return true).
Proof.
  assert (is_Some (rel_users booked_18 !! 1)) as Hu by (vm_compute; eauto).
  assert (∃ i b, rel_bookings booked_18 !! i = Some b
                 ∧ bookings.user_id b = 1) as Hb.
  { exists 1, (row_of_booking
                 (created_booking 0 1 1 june_1 (oclock 18) 2 "pending" None
                    restaurant)).
    split; vm_compute; reflexivity. }
  split; [exact Hu|]. split; [exact Hb|]. split.
  - exact (proj1 (proj2 (proj2 (delete_respects_foreign_keys booked_18 1)))
             Hu Hb).
  - apply (proj1 (proj2 (delete_respects_foreign_keys restaurant 1))).
    + vm_compute; eauto.
    + intros i b Hi. vm_compute in Hi. discriminate Hi.
Defined.

(** C7 as stated fails: a user and a table that a booking refers to are not
    deleted; the call raises and every row stays. *)
Lemma delete_of_referenced_row_refused :
  is_Some (rel_users booked_18 !! 1)
  ∧ is_Some (rel_tables booked_18 !! 1)
  ∧ (bookings.user_id <$> rel_bookings booked_18 !! 1) = Some 1
  ∧ (bookings.table_id <$> rel_bookings booked_18 !! 1) = Some 1
  ∧ delete_user 1 booked_18
    = (booked_18, Raise (DatabaseError ForeignKeyViolation))
  ∧ delete_table 1 booked_18
    = (booked_18, Raise (DatabaseError ForeignKeyViolation)).
Proof.
  repeat split; try (vm_compute; eauto; reflexivity).
Qed.

(** ** Updating a booking *)

(** [update_booking] either leaves the rows alone and does not return true,
    or replaces the row of [booking_id] by the result of its assignments. *)
Lemma update_booking_cases now booking_id fields db :
  (same_rows db (update_booking now booking_id fields db).1
   ∧ (update_booking now booking_id fields db).2 ≠ Return true)
  ∨ ∃ r sets i' r',
      rel_bookings db !! booking_id = Some r
      ∧ analyse (column_named bookings_columns) bookings_type
          (booking_update_data now fields) = inr sets
      ∧ assign_all bookings_set sets (booking_id, r) = inr (i', r')
      ∧ delete booking_id (rel_bookings db) !! i' = None
      ∧ update_booking now booking_id fields db
        = (with_bookings db (<[i' := r']> (delete booking_id (rel_bookings db))),
           Return true).
Proof.
  unfold update_booking.
  destruct (is_empty (updatable fields)); [by left|].
  fold (booking_update_data now fields).
  unfold mbind, M_bind, bind, update_bookings.
  destruct (analyse _ _ _) as [e|sets]; [by left|].
  destruct (rel_bookings db !! booking_id) as [r|] eqn:Hr; [|by left].
  destruct (assign_all _ _ _) as [e|[i' r']] eqn:Ha; [by left|].
  case_bool_decide as Hi; [by left|].
  destruct (_ && _); [by left|]. destruct (_ && _); [by left|].
  right. exists r, sets, i', r'. repeat split; try done.
  by apply eq_None_not_Some.
Qed.

Lemma update_user_cases now user_id fields db :
  (same_rows db (update_user now user_id fields db).1
   ∧ (update_user now user_id fields db).2 ≠ Return true)
  ∨ ∃ r sets i' r',
      rel_users db !! user_id = Some r
      ∧ analyse (column_named users_columns) users_type
          (dict_set "updated_at" (PyDatetime now) (updatable fields))
        = inr sets
      ∧ assign_all users_set sets (user_id, r) = inr (i', r')
      ∧ update_user now user_id fields db
        = (with_users db (<[i' := r']> (delete user_id (rel_users db))),
           Return true).
Proof.
  unfold update_user.
  destruct (is_empty (updatable fields)); [by left|].
  unfold mbind, M_bind, bind, update_users.
  destruct (analyse _ _ _) as [e|sets]; [by left|].
  destruct (rel_users db !! user_id) as [r|] eqn:Hr; [|by left].
  destruct (assign_all _ _ _) as [e|[i' r']] eqn:Ha; [by left|].
  repeat (case_bool_decide; [by left|]).
  destruct (_ && _); [by left|].
  right. by exists r, sets, i', r'.
Qed.

Lemma update_table_cases now table_id fields db :
  (same_rows db (update_table now table_id fields db).1
   ∧ (update_table now table_id fields db).2 ≠ Return true)
  ∨ ∃ r sets i' r',
      rel_tables db !! table_id = Some r
      ∧ analyse (column_named tables_columns) tables_type
          (dict_set "updated_at" (PyDatetime now) (updatable fields))
        = inr sets
      ∧ assign_all tables_set sets (table_id, r) = inr (i', r')
      ∧ update_table now table_id fields db
        = (with_tables db (<[i' := r']> (delete table_id (rel_tables db))),
           Return true).
Proof.
  unfold update_table.
  destruct (is_empty (updatable fields)); [by left|].
  unfold mbind, M_bind, bind, update_tables.
  destruct (analyse _ _ _) as [e|sets]; [by left|].
  destruct (rel_tables db !! table_id) as [r|] eqn:Hr; [|by left].
  destruct (assign_all _ _ _) as [e|[i' r']] eqn:Ha; [by left|].
  repeat (case_bool_decide; [by left|]).
  destruct (_ && _); [by left|].
  right. by exists r, sets, i', r'.
Qed.





Lemma analyse_resolve {C} `{EqDecision C} (column_of : string → option C)
    type_of d sets :
  analyse column_of type_of d = inr sets → resolve column_of type_of d = inr sets.
Proof.
  unfold analyse. destruct (resolve _ _ d); [done|].
  case_bool_decide; [|done]. by intros [= ->].
Qed.





(** ** The no-overlap invariant *)

(** The store of [record] is the one of the operation. *)
Lemma record_store op h : store (record op h) = run op (store h).
Proof. by destruct op. Qed.






Lemma statuses_set_ext db db' :
  rel_bookings db' = rel_bookings db → statuses_set db → statuses_set db'.
Proof. unfold statuses_set. by intros ->. Qed.





(** The bookings of that evening, and the hours they were requested for. *)
Example evening_bookings :
  bookings.booking_time <$> rel_bookings (store evening)
  = {[ 1 := oclock 18; 7 := oclock 17; 3 := oclock 20 ]}
  ∧ bookings.status <$> rel_bookings (store evening)
    = {[ 1 := Some "cancelled"%string; 7 := Some "pending"%string;
         3 := Some "pending"%string ]}
  ∧ requested evening = {[ 1 := 2; 7 := 1; 3 := 2 ]}.
Proof. repeat split; by vm_compute. Qed.


(** Nor does update_booking ask whether the slot of a cancelled booking has
    been given away before it revives the booking. *)
Lemma revived_booking_breaks_no_overlap :
  reachable revived ∧ ¬ no_overlap revived.
Proof.
  split.
  - unfold revived. do 4 apply reachable_step. by apply reachable_init.
  - intros H.
    apply (H 1 2
             (bookings.mk 1 1 june_1 (oclock 18) 2 (Some "pending"%string)
                (Some ""%string) (Some 0) (Some 9))
             (bookings.mk 1 1 june_1 (oclock 18) 2 (Some "pending"%string)
                (Some ""%string) (Some 2) (Some 2)) 2 2); by vm_compute.
Qed.

(** Why the invariant asks for at most two hours: the admission query gives
    every stored booking two hours, whatever it was requested for.  A
    booking of four hours from 18:00 does not keep the table until 22:00:
    a booking from 20:00 is accepted. *)
Lemma long_booking_breaks_no_overlap :
  reachable long_then_short ∧ ¬ no_overlap long_then_short.
Proof.
  split.
  - unfold long_then_short. do 2 apply reachable_step.
    by apply reachable_init.
  - intros H.
    apply (H 1 2
             (bookings.mk 1 1 june_1 (oclock 18) 2 (Some "pending"%string)
                (Some ""%string) (Some 0) (Some 0))
             (bookings.mk 1 1 june_1 (oclock 20) 2 (Some "pending"%string)
                (Some ""%string) (Some 1) (Some 1)) 4 2); by vm_compute.
Qed.

(** Why the invariant asks for a time without UTC offset: the admission
    query compares the instant of a time with an offset, while the row
    keeps its time of day.  In a store whose sessions are in UTC, 18:00 at
    five hours east is checked as 13:00 and stored as 18:00, beside the
    booking that holds 18:00. *)
Lemma offset_time_breaks_no_overlap :
  reachable booked_twice_at_18 ∧ ¬ no_overlap booked_twice_at_18.
Proof.
  split.
  - unfold booked_twice_at_18. do 2 apply reachable_step.
    by apply reachable_init.
  - intros H.
    apply (H 1 2
             (bookings.mk 1 1 june_1 (oclock 18) 2 (Some "pending"%string)
                (Some ""%string) (Some 0) (Some 0))
             (bookings.mk 1 1 june_1 (oclock 18) 2 (Some "pending"%string)
                (Some ""%string) (Some 1) (Some 1)) 2 2); by vm_compute.
Qed.

(** ** What a [SET] list does to one column *)

Section assignments.
Context {C R A : Type} `{EqDecision C}.
Variable set_column : C → pyval → Z * R → error_or (Z * R).
Variable get : Z * R → A.
Variable c0 : C.

(** A column that is not assigned keeps its value. *)
Lemma assign_all_frame sets ir ir' :
    (∀ c v x x', c ≠ c0 → set_column c v x = inr x' → get x' = get x) →
    c0 ∉ (fst <$> sets) →
    assign_all set_column sets ir = inr ir' →
    get ir' = get ir.
Proof.
    intros Hframe. revert ir.
    induction sets as [|[c v] sets IH]; cbn [assign_all]; intros ir Hnot Ha.
    - by injection Ha as <-.
    - rewrite fmap_cons, not_elem_of_cons in Hnot. destruct Hnot as [Hc Hnot].
      destruct (set_column c v ir) as [e|ir1] eqn:H1; [done|].
      rewrite (IH ir1 Hnot Ha). eapply Hframe; [|done]. by intros ->.
Qed.

(** A column that is assigned once holds the assigned value. *)
Lemma assign_all_assigned sets v a ir ir' :
    (∀ c v x x', c ≠ c0 → set_column c v x = inr x' → get x' = get x) →
    (∀ x x', set_column c0 v x = inr x' → get x' = a) →
    NoDup (fst <$> sets) →
    (c0, v) ∈ sets →
    assign_all set_column sets ir = inr ir' →
    get ir' = a.
Proof.
    intros Hframe Hset. revert ir.
    induction sets as [|[c w] sets IH]; cbn [assign_all]; intros ir Hnd Hin Ha.
    - by apply elem_of_nil in Hin.
    - rewrite fmap_cons in Hnd. apply NoDup_cons in Hnd as [Hc Hnd].
      destruct (set_column c w ir) as [e|ir1] eqn:H1; [done|].
      apply elem_of_cons in Hin as [[= <- <-]|Hin].
      + rewrite (assign_all_frame sets ir1 ir' Hframe Hc Ha). by eapply Hset.
      + by eapply IH.
Qed.
End assignments.

Lemma dict_get_Some key v d : dict_get key d = Some v → (key, v) ∈ d.
Proof.
  induction d as [|[k w] d IH]; simpl; [done|].
  destruct (String.eqb_spec k key) as [->|].
  - intros [= ->]. by left.
  - intros H. right. by apply IH.
Qed.

(** After [d[key] = v] the dict holds [v] under [key]. *)
Lemma dict_set_elem key v d : (key, v) ∈ dict_set key v d.
Proof.
  induction d as [|[k w] d IH]; simpl; [by left|].
  destruct (String.eqb_spec k key) as [->|]; [by left|by right].
Qed.

(** [d[key] = v] keeps the entries of the other keys. *)
Lemma dict_set_other key v d k w :
  k ≠ key → (k, w) ∈ d → (k, w) ∈ dict_set key v d.
Proof.
  intros Hk. induction d as [|[k' w'] d IH]; simpl.
  { intros Hin. by apply elem_of_nil in Hin. }
  intros [[= <- <-]|Hin]%elem_of_cons.
  - destruct (String.eqb_spec k key); [done|by left].
  - destruct (String.eqb_spec k' key); right; [done|by apply IH].
Qed.

Lemma resolve_elem {C} (column_of : string → option C) type_of d sets key v c :
  resolve column_of type_of d = inr sets →
  (key, v) ∈ d → column_of key = Some c → (c, v) ∈ sets.
Proof.
  revert sets. induction d as [|[k w] d IH]; cbn [resolve]; intros sets Hr Hin Hc.
  - by apply elem_of_nil in Hin.
  - destruct (column_of k) as [c'|] eqn:Hk; [|done].
    destruct (literal_ok (type_of c') w); [|done].
    destruct (resolve column_of type_of d) as [e|sets']; [done|].
    simpl in Hr. injection Hr as <-.
    apply elem_of_cons in Hin as [[= <- <-]|Hin].
    + rewrite Hk in Hc. injection Hc as <-. by left.
    + right. by eapply IH.
Qed.

Lemma resolve_columns {C} (column_of : string → option C) type_of d sets c :
  resolve column_of type_of d = inr sets →
  c ∈ (fst <$> sets) → ∃ kv, kv ∈ d ∧ column_of kv.1 = Some c.
Proof.
  revert sets. induction d as [|[k w] d IH]; cbn [resolve]; intros sets Hr Hin.
  - injection Hr as <-. by apply elem_of_nil in Hin.
  - destruct (column_of k) as [c'|] eqn:Hk; [|done].
    destruct (literal_ok (type_of c') w); [|done].
    destruct (resolve column_of type_of d) as [e|sets'] eqn:Hd; [done|].
    simpl in Hr. injection Hr as <-.
    rewrite fmap_cons in Hin. apply elem_of_cons in Hin as [->|Hin].
    + exists (k, w). split; [by left|done].
    + destruct (IH sets' eq_refl Hin) as (kv & Hkv & Hc).
      exists kv. split; [by right|done].
Qed.

Lemma analyse_NoDup {C} `{EqDecision C} (column_of : string → option C)
    type_of d sets :
  analyse column_of type_of d = inr sets → NoDup (fst <$> sets).
Proof.
  unfold analyse. destruct (resolve _ _ d); [done|].
  case_bool_decide; [|done]. by intros [= <-].
Qed.

(** ** Notes *)

(** X23: [create_booking] persists [''] for [None] and the stripped string
    otherwise, and returns what it persists. *)
Lemma create_booking_normalizes_notes now user_id table_id booking_date
    booking_time guests_count status notes duration_hours db db' b :
  create_booking now user_id table_id booking_date booking_time guests_count
    status notes duration_hours db = (db', Return b) →
  Booking.notes b = match notes with None => ""%string | Some s => strip s end
  ∧ bookings.notes <$> rel_bookings db' !! Booking.id b
    = Some (Some (Booking.notes b)).
Proof.
  intros H.
  destruct (create_booking_cases now user_id table_id booking_date
              booking_time guests_count status notes duration_hours db);
    try done.
  injection H as <- <-. simpl. by rewrite lookup_insert_eq.
Qed.

Lemma bookings_set_notes_frame c v x x' :
  c ≠ B_notes → bookings_set c v x = inr x' →
  bookings.notes x'.2 = bookings.notes x.2.
Proof.
  destruct x as [i []]. destruct c; try done; destruct v; simpl;
    intros _ H; by simplify_eq.
Qed.

Lemma bookings_set_notes v s x x' :
  v = PyStr s → bookings_set B_notes v x = inr x' →
  bookings.notes x'.2 = Some s.
Proof. destruct x as [i []]. intros -> H. simpl in H. by simplify_eq. Qed.

(** X22: When the key [notes], so spelled, is among the fields, a successful
    [update_booking] leaves the normalized value in the row. *)
Lemma update_booking_normalizes_notes now booking_id fields v db db' :
  dict_get "notes" (updatable fields) = Some v →
  update_booking now booking_id fields db = (db', Return true) →
  ∃ i' r',
    rel_bookings db' = <[i' := r']> (delete booking_id (rel_bookings db))
    ∧ bookings.notes r' = Some (normalize_notes v).
Proof.
  intros Hget Hup.
  destruct (update_booking_cases now booking_id fields db)
    as [[_ Hne]|(r & sets & i' & r' & Hr & Han & Has & Hfree & Heq)].
  { by rewrite Hup in Hne. }
  rewrite Heq in Hup. injection Hup as <-.
  exists i', r'. split; [done|].
  assert ((B_notes, PyStr (normalize_notes v)) ∈ sets) as Hin.
  { apply (resolve_elem (column_named bookings_columns) bookings_type
             (booking_update_data now fields) sets "notes"
             (PyStr (normalize_notes v)) B_notes);
      [by apply analyse_resolve| |reflexivity].
    unfold booking_update_data. rewrite Hget.
    apply dict_set_other; [done|]. apply dict_set_elem. }
  change (bookings.notes (i', r').2 = Some (normalize_notes v)).
  eapply (assign_all_assigned bookings_set (λ x, bookings.notes x.2) B_notes);
    [apply bookings_set_notes_frame| |by eapply analyse_NoDup|done|done].
  intros x x'. by apply bookings_set_notes.
Qed.

(** C8 fails on the code for a key that differs from notes in case: the
    membership test of update_booking is exact while the store folds the
    column name, so NOTES=None is not normalized and the row is left with
    no notes at all. *)
Theorem update_booking_case_variant_notes :
  update_booking 9 1 [("NOTES"%string, PyNone)] booked_18
  = (with_bookings booked_18
       {[ 1 := bookings.mk 1 1 june_1 (oclock 18) 2 (Some "pending"%string)
                 None (Some 0) (Some 9) ]},
     Return true)
  ∧ bookings.notes <$> rel_bookings booked_18 !! 1 = Some (Some ""%string)
  ∧ bookings.notes
      <$> rel_bookings
            (update_booking 9 1 [("NOTES"%string, PyNone)] booked_18).1 !! 1
    = Some None.
Proof. repeat split; vm_compute; reflexivity. Qed.

(** ** Protected keys *)

(** X21: With no field, or only fields spelled [id], [created_at], [updated_at],
    the three update functions return [False] and touch nothing. *)
Lemma update_without_fields now id fields db :
  Forall (λ kv : string * pyval, kv.1 ∈ protected_keys) fields →
  update_user now id fields db = (db, Return false)
  ∧ update_table now id fields db = (db, Return false)
  ∧ update_booking now id fields db = (db, Return false).
Proof.
  intros H.
  assert (updatable fields = []) as E.
  { destruct (updatable fields) as [|kv l] eqn:E; [done|].
    assert (kv ∈ updatable fields) as Hin by (rewrite E; by left).
    apply list_elem_of_filter in Hin as [Hnot Hin].
    rewrite Forall_forall in H. by destruct (Hnot (H kv Hin)). }
  unfold update_user, update_table, update_booking. by rewrite E.
Qed.

(** The keys that are dropped are those three, spelled exactly so. *)
Lemma updatable_keys fields kv :
  kv ∈ updatable fields ↔ kv ∈ fields ∧ kv.1 ∉ protected_keys.
Proof. unfold updatable. rewrite list_elem_of_filter. tauto. Qed.

(** C10 fails on the code for a key that differs from id in case: the
    filter of update_user is exact while the store folds the column name,
    so ID=5 passes and the user of identity 1 becomes the user of
    identity 5. *)
Theorem update_user_case_variant_id :
  updatable [("ID"%string, PyInt 5)] = [("ID"%string, PyInt 5)]
  ∧ update_user 9 1 [("ID"%string, PyInt 5)] restaurant
    = (with_users restaurant
         {[ 5 := users.mk "ann" "ann@example.org" None None
                   (Some "client"%string) (Some true) (Some 0) (Some 9) ]},
       Return true)
  ∧ rel_users restaurant !! 1 = Some ann
  ∧ rel_users (update_user 9 1 [("ID"%string, PyInt 5)] restaurant).1 !! 1
    = None.
Proof. repeat split; vm_compute; reflexivity. Qed.

(** In the same way [Created_At] reaches the column [created_at]. *)
Lemma update_user_case_variant_created_at :
  users.created_at
    <$> rel_users
          (update_user 9 1 [("Created_At"%string, PyDatetime 77)]
             restaurant).1 !! 1
  = Some (Some 77)
  ∧ users.created_at <$> rel_users restaurant !! 1 = Some (Some 0).
Proof. split; vm_compute; reflexivity. Qed.

Lemma dict_set_elem_inv key v d kv :
  kv ∈ dict_set key v d → kv.1 = key ∨ kv ∈ d.
Proof.
  induction d as [|[k w] d IH]; simpl.
  - intros ->%list_elem_of_singleton. by left.
  - destruct (String.eqb_spec k key) as [->|].
    + intros [->|Hin]%elem_of_cons; [by left|right; by right].
    + intros [->|Hin]%elem_of_cons; [right; by left|].
      destruct (IH Hin); [by left|right; by right].
Qed.

(** The statement of an update function assigns neither [c_id] nor
    [c_created_at] when no field is a case variant of their names. *)
Lemma no_case_variant_columns {C} (column_of : string → option C) type_of
    c_id c_created_at now fields data sets :
  no_case_variant column_of c_id c_created_at fields →
  (∀ kv, kv ∈ data →
         kv ∈ updatable fields
         ∨ (column_of kv.1 ≠ Some c_id ∧ column_of kv.1 ≠ Some c_created_at)) →
  resolve column_of type_of (dict_set "updated_at" (PyDatetime now) data)
  = inr sets →
  (column_of "updated_at"%string) ≠ Some c_id →
  (column_of "updated_at"%string) ≠ Some c_created_at →
  (c_id ∉ (fst <$> sets)) ∧ (c_created_at ∉ (fst <$> sets)).
Proof.
  intros Hf Hdata Hr Hu1 Hu2.
  assert (∀ c, c ∈ (fst <$> sets) → c ≠ c_id ∧ c ≠ c_created_at) as H.
  { intros c Hc.
    destruct (resolve_columns _ _ _ _ _ Hr Hc) as (kv & Hkv & Hcol).
    apply dict_set_elem_inv in Hkv as [Hk|Hkv].
    { rewrite Hk in Hcol. split; intros ->; done. }
    destruct (Hdata kv Hkv) as [Hup|[H1 H2]].
    - apply updatable_keys in Hup as [Hin Hnot].
      unfold no_case_variant in Hf. rewrite Forall_forall in Hf.
      destruct (Hf kv Hin) as [?|[H1 H2]]; [done|].
      split; intros ->; done.
    - split; intros ->; done. }
  split; intros Hc; apply H in Hc; tauto.
Qed.

Lemma users_set_id_frame c v x x' :
  c ≠ U_id → users_set c v x = inr x' → x'.1 = x.1.
Proof.
  destruct x as [i []]. destruct c; try done; destruct v; simpl;
    intros _ H; by simplify_eq.
Qed.

Lemma users_set_created_at_frame c v x x' :
  c ≠ U_created_at → users_set c v x = inr x' →
  users.created_at x'.2 = users.created_at x.2.
Proof.
  destruct x as [i []]. destruct c; try done; destruct v; simpl;
    intros _ H; by simplify_eq.
Qed.

Lemma tables_set_id_frame c v x x' :
  c ≠ T_id → tables_set c v x = inr x' → x'.1 = x.1.
Proof.
  destruct x as [i []]. destruct c; try done; destruct v; simpl;
    intros _ H; by simplify_eq.
Qed.

Lemma tables_set_created_at_frame c v x x' :
  c ≠ T_created_at → tables_set c v x = inr x' →
  tables.created_at x'.2 = tables.created_at x.2.
Proof.
  destruct x as [i []]. destruct c; try done; destruct v; simpl;
    intros _ H; by simplify_eq.
Qed.

Lemma bookings_set_id_frame c v x x' :
  c ≠ B_id → bookings_set c v x = inr x' → x'.1 = x.1.
Proof.
  destruct x as [i []]. destruct c; try done; destruct v; simpl;
    intros _ H; by simplify_eq.
Qed.

Lemma bookings_set_created_at_frame c v x x' :
  c ≠ B_created_at → bookings_set c v x = inr x' →
  bookings.created_at x'.2 = bookings.created_at x.2.
Proof.
  destruct x as [i []]. destruct c; try done; destruct v; simpl;
    intros _ H; by simplify_eq.
Qed.

(** Without a case variant among the fields, [update_user] leaves the user
    under its identity, with its [created_at]. *)
Lemma update_user_keeps_identity now user_id fields db r :
  rel_users db !! user_id = Some r →
  no_case_variant (column_named users_columns) U_id U_created_at fields →
  ∃ r', rel_users (update_user now user_id fields db).1 !! user_id = Some r'
        ∧ users.created_at r' = users.created_at r.
Proof.
  intros Hr Hf.
  destruct (update_user_cases now user_id fields db)
    as [[(Hsame & _ & _) _]|(r0 & sets & i' & r' & Hr0 & Han & Has & ->)].
  { exists r. by rewrite Hsame. }
  rewrite Hr in Hr0. injection Hr0 as <-.
  destruct (no_case_variant_columns (column_named users_columns) users_type
              U_id U_created_at now fields (updatable fields) sets)
    as [Hid Hcr]; try done; [by left|by apply analyse_resolve|].
  pose proof (assign_all_frame users_set fst U_id sets _ _
                users_set_id_frame Hid Has) as Hi.
  pose proof (assign_all_frame users_set (λ x, users.created_at x.2)
                U_created_at sets _ _ users_set_created_at_frame Hcr Has)
    as Hc.
  simpl in Hi, Hc. subst i'. exists r'. simpl.
  by rewrite lookup_insert_eq.
Qed.

Lemma update_table_keeps_identity now table_id fields db r :
  rel_tables db !! table_id = Some r →
  no_case_variant (column_named tables_columns) T_id T_created_at fields →
  ∃ r', rel_tables (update_table now table_id fields db).1 !! table_id = Some r'
        ∧ tables.created_at r' = tables.created_at r.
Proof.
  intros Hr Hf.
  destruct (update_table_cases now table_id fields db)
    as [[(_ & Hsame & _) _]|(r0 & sets & i' & r' & Hr0 & Han & Has & ->)].
  { exists r. by rewrite Hsame. }
  rewrite Hr in Hr0. injection Hr0 as <-.
  destruct (no_case_variant_columns (column_named tables_columns) tables_type
              T_id T_created_at now fields (updatable fields) sets)
    as [Hid Hcr]; try done; [by left|by apply analyse_resolve|].
  pose proof (assign_all_frame tables_set fst T_id sets _ _
                tables_set_id_frame Hid Has) as Hi.
  pose proof (assign_all_frame tables_set (λ x, tables.created_at x.2)
                T_created_at sets _ _ tables_set_created_at_frame Hcr Has)
    as Hc.
  simpl in Hi, Hc. subst i'. exists r'. simpl.
  by rewrite lookup_insert_eq.
Qed.

Lemma update_booking_keeps_identity now booking_id fields db r :
  rel_bookings db !! booking_id = Some r →
  no_case_variant (column_named bookings_columns) B_id B_created_at fields →
  ∃ r', rel_bookings (update_booking now booking_id fields db).1 !! booking_id
        = Some r'
        ∧ bookings.created_at r' = bookings.created_at r.
Proof.
  intros Hr Hf.
  destruct (update_booking_cases now booking_id fields db)
    as [[(_ & _ & Hsame) _]
       |(r0 & sets & i' & r' & Hr0 & Han & Has & _ & ->)].
  { exists r. by rewrite Hsame. }
  rewrite Hr in Hr0. injection Hr0 as <-.
  destruct (no_case_variant_columns (column_named bookings_columns)
              bookings_type B_id B_created_at now fields
              match dict_get "notes" (updatable fields) with
              | Some v =>
                  dict_set "notes" (PyStr (normalize_notes v))
                    (updatable fields)
              | None => updatable fields
              end sets)
    as [Hid Hcr]; try done; [|by apply analyse_resolve|].
  { intros kv Hkv. destruct (dict_get "notes" (updatable fields)); [|by left].
    apply dict_set_elem_inv in Hkv as [->|]; [by right|by left]. }
  pose proof (assign_all_frame bookings_set fst B_id sets _ _
                bookings_set_id_frame Hid Has) as Hi.
  pose proof (assign_all_frame bookings_set (λ x, bookings.created_at x.2)
                B_created_at sets _ _ bookings_set_created_at_frame Hcr Has)
    as Hc.
  simpl in Hi, Hc. subst i'. exists r'. simpl.
  by rewrite lookup_insert_eq.
Qed.

Lemma users_set_updated_at_frame c v x x' :
  c ≠ U_updated_at → users_set c v x = inr x' →
  users.updated_at x'.2 = users.updated_at x.2.
Proof.
  destruct x as [i []]. destruct c; try done; destruct v; simpl;
    intros _ H; by simplify_eq.
Qed.

Lemma tables_set_updated_at_frame c v x x' :
  c ≠ T_updated_at → tables_set c v x = inr x' →
  tables.updated_at x'.2 = tables.updated_at x.2.
Proof.
  destruct x as [i []]. destruct c; try done; destruct v; simpl;
    intros _ H; by simplify_eq.
Qed.

Lemma bookings_set_updated_at_frame c v x x' :
  c ≠ B_updated_at → bookings_set c v x = inr x' →
  bookings.updated_at x'.2 = bookings.updated_at x.2.
Proof.
  destruct x as [i []]. destruct c; try done; destruct v; simpl;
    intros _ H; by simplify_eq.
Qed.

(** An update that returns [True] has set [updated_at] to the time of the
    call. *)
Lemma update_user_sets_updated_at now user_id fields db db' :
  update_user now user_id fields db = (db', Return true) →
  ∃ i' r', rel_users db' = <[i' := r']> (delete user_id (rel_users db))
           ∧ users.updated_at r' = Some now.
Proof.
  intros Hup.
  destruct (update_user_cases now user_id fields db)
    as [[_ Hne]|(r & sets & i' & r' & Hr & Han & Has & Heq)].
  { by rewrite Hup in Hne. }
  rewrite Heq in Hup. injection Hup as <-. exists i', r'. split; [done|].
  change (users.updated_at (i', r').2 = Some now).
  eapply (assign_all_assigned users_set (λ x, users.updated_at x.2)
            U_updated_at sets (PyDatetime now));
    [apply users_set_updated_at_frame| |by eapply analyse_NoDup| |done].
  - intros [i []] x' H. simpl in H. by simplify_eq.
  - apply (resolve_elem (column_named users_columns) users_type
             (dict_set "updated_at" (PyDatetime now) (updatable fields)) sets
             "updated_at" (PyDatetime now) U_updated_at);
      [by apply analyse_resolve|apply dict_set_elem|reflexivity].
Qed.

Lemma update_table_sets_updated_at now table_id fields db db' :
  update_table now table_id fields db = (db', Return true) →
  ∃ i' r', rel_tables db' = <[i' := r']> (delete table_id (rel_tables db))
           ∧ tables.updated_at r' = Some now.
Proof.
  intros Hup.
  destruct (update_table_cases now table_id fields db)
    as [[_ Hne]|(r & sets & i' & r' & Hr & Han & Has & Heq)].
  { by rewrite Hup in Hne. }
  rewrite Heq in Hup. injection Hup as <-. exists i', r'. split; [done|].
  change (tables.updated_at (i', r').2 = Some now).
  eapply (assign_all_assigned tables_set (λ x, tables.updated_at x.2)
            T_updated_at sets (PyDatetime now));
    [apply tables_set_updated_at_frame| |by eapply analyse_NoDup| |done].
  - intros [i []] x' H. simpl in H. by simplify_eq.
  - apply (resolve_elem (column_named tables_columns) tables_type
             (dict_set "updated_at" (PyDatetime now) (updatable fields)) sets
             "updated_at" (PyDatetime now) T_updated_at);
      [by apply analyse_resolve|apply dict_set_elem|reflexivity].
Qed.

Lemma update_booking_sets_updated_at now booking_id fields db db' :
  update_booking now booking_id fields db = (db', Return true) →
  ∃ i' r', rel_bookings db' = <[i' := r']> (delete booking_id (rel_bookings db))
           ∧ bookings.updated_at r' = Some now.
Proof.
  intros Hup.
  destruct (update_booking_cases now booking_id fields db)
    as [[_ Hne]|(r & sets & i' & r' & Hr & Han & Has & _ & Heq)].
  { by rewrite Hup in Hne. }
  rewrite Heq in Hup. injection Hup as <-. exists i', r'. split; [done|].
  change (bookings.updated_at (i', r').2 = Some now).
  eapply (assign_all_assigned bookings_set (λ x, bookings.updated_at x.2)
            B_updated_at sets (PyDatetime now));
    [apply bookings_set_updated_at_frame| |by eapply analyse_NoDup| |done].
  - intros [i []] x' H. simpl in H. by simplify_eq.
  - apply (resolve_elem (column_named bookings_columns) bookings_type
             (booking_update_data now fields) sets
             "updated_at" (PyDatetime now) B_updated_at);
      [by apply analyse_resolve|apply dict_set_elem|reflexivity].
Qed.

(** ** The scenarios of the specification *)

(** Scenario 3: a booking that starts where another ends is accepted. *)
Example scenario_touching_boundary :
  returned (create_booking 1 1 1 june_1 (oclock 20) 2 "pending" None 1
              booked_18)
  = Some (Booking.mk 2 1 1 june_1 (oclock 20) 2 "pending" "" (Some 1) (Some 1)).
Proof. vm_compute. reflexivity. Qed.

(** Scenarios 2 and 4: the slot at 19:00 is refused while the booking at
    18:00 stands, and accepted once that booking is cancelled. *)
Example scenario_cancel_then_retry :
  raised (create_booking 1 1 1 june_1 (oclock 19) 2 "pending" None 2 booked_18)
  = Some (ValueError (TableAlreadyBooked (TableNumber "T1") june_1 (oclock 19)))
  ∧ returned
      ((_ ← update_booking 1 1 [("status"%string, PyStr "cancelled")];
        create_booking 2 1 1 june_1 (oclock 19) 2 "pending" None 2) booked_18)
    = Some (Booking.mk 2 1 1 june_1 (oclock 19) 2 "pending" "" (Some 2)
              (Some 2)).
Proof. split; vm_compute; reflexivity. Qed.

(** P6: the same slot requested twice gives one booking and one refusal. *)
Example scenario_idempotent_rejection :
  let twice :=
    (_ ← create_booking 0 1 1 june_1 (oclock 18) 2 "pending" None 2;
     create_booking 1 1 1 june_1 (oclock 18) 2 "pending" None 2) restaurant in
  raised twice
  = Some (ValueError (TableAlreadyBooked (TableNumber "T1") june_1 (oclock 18)))
  ∧ size (rel_bookings twice.1) = 1%nat.
Proof. split; vm_compute; reflexivity. Qed.

(** * Further properties of the backend *)

(** ** Looking rows up *)

Lemma elem_of_select_where {R} (P : R → Prop) `{∀ r, Decision (P r)}
    (m : gmap Z R) i r :
  (i, r) ∈ select_where P m ↔ m !! i = Some r ∧ P r.
Proof.
  unfold select_where. rewrite list_elem_of_filter, elem_of_map_to_list.
  simpl. tauto.
Qed.

(** The one row that satisfies the condition is the one fetched. *)
Lemma fetchone_unique {R} (P : R → Prop) `{∀ r, Decision (P r)}
    (m : gmap Z R) i r :
  m !! i = Some r → P r →
  (∀ j r', m !! j = Some r' → P r' → j = i) →
  fetchone (select_where P m) = Some (i, r).
Proof.
  intros Hi HP Huniq.
  assert ((i, r) ∈ select_where P m) as Hin by (by apply elem_of_select_where).
  destruct (select_where P m) as [|[j r'] l] eqn:E.
  { by apply elem_of_nil in Hin. }
  assert ((j, r') ∈ select_where P m) as Hj by (rewrite E; by left).
  apply elem_of_select_where in Hj as [Hj HP'].
  assert (j = i) as -> by (by eapply Huniq).
  simpl. rewrite Hi in Hj. by injection Hj as ->.
Qed.

(** Nothing is fetched when no row satisfies the condition. *)
Lemma fetchone_none {R} (P : R → Prop) `{∀ r, Decision (P r)} (m : gmap Z R) :
  (∀ j r', m !! j = Some r' → ¬ P r') →
  fetchone (select_where P m) = None.
Proof.
  intros Hnone. destruct (select_where P m) as [|[j r'] l] eqn:E; [done|].
  assert ((j, r') ∈ select_where P m) as Hj by (rewrite E; by left).
  apply elem_of_select_where in Hj as [Hj HP']. by destruct (Hnone j r').
Qed.

(** What is fetched is a row of the relation that satisfies the
    condition. *)
Lemma fetchone_some {R} (P : R → Prop) `{∀ r, Decision (P r)}
    (m : gmap Z R) i r :
  fetchone (select_where P m) = Some (i, r) → m !! i = Some r ∧ P r.
Proof.
  intros Hf. apply (proj1 (elem_of_select_where P m i r)).
  destruct (select_where P m) as [|x l]; [done|].
  injection Hf as ->. by left.
Qed.

(** ** Creating users and tables *)

Lemma create_user_cases now username email full_name phone role is_active db :
  let id := users_id_seq db + 1 in
  let result :=
    create_user now username email full_name phone role is_active db in
  (result = (with_users_id_seq db id, Raise (DatabaseError UniqueViolation))
   ∧ (is_Some (rel_users db !! id)
      ∨ ∃ i u, rel_users db !! i = Some u
               ∧ (users.username u = username ∨ users.email u = email)))
  ∨ (rel_users db !! id = None
     ∧ (∀ i u, rel_users db !! i = Some u →
               users.username u ≠ username ∧ users.email u ≠ email)
     ∧ result
       = (with_users (with_users_id_seq db id)
            (<[id := users.mk username email full_name phone (Some role)
                       (Some is_active) (Some now) (Some now)]>
               (rel_users db)),
          Return (User.mk id username email full_name phone (Some role)
                    (Some is_active) (Some now) (Some now)))).
Proof.
  intros id result. subst result.
  unfold create_user, mbind, M_bind, bind, insert_user. fold id.
  case_bool_decide as Hpk; [left; split; [done|by left]|].
  case_bool_decide as Hun.
  { left. split; [done|]. right.
    apply map_Exists_lookup in Hun as (i & u & Hi & Hu). eauto 6. }
  case_bool_decide as Hem.
  { left. split; [done|]. right.
    apply map_Exists_lookup in Hem as (i & u & Hi & Hu). eauto 6. }
  right. split; [by apply eq_None_not_Some|]. split; [|done].
  intros i u Hi. split; intros Hu.
  - apply Hun, map_Exists_lookup. eauto.
  - apply Hem, map_Exists_lookup. eauto.
Qed.

Lemma create_table_cases now table_number capacity location is_available
    description db :
  let id := tables_id_seq db + 1 in
  let result :=
    create_table now table_number capacity location is_available description
      db in
  (¬ int4 capacity ∧ result = (db, Raise (DatabaseError DataError)))
  ∨ (result = (with_tables_id_seq db id, Raise (DatabaseError UniqueViolation))
     ∧ (is_Some (rel_tables db !! id)
        ∨ ∃ i t, rel_tables db !! i = Some t
                 ∧ tables.table_number t = table_number))
  ∨ (rel_tables db !! id = None
     ∧ (∀ i t, rel_tables db !! i = Some t →
               tables.table_number t ≠ table_number)
     ∧ int4 capacity
     ∧ result
       = (with_tables (with_tables_id_seq db id)
            (<[id := tables.mk table_number capacity location
                       (Some is_available) description (Some now)
                       (Some now)]>
               (rel_tables db)),
          Return (Table.mk id table_number capacity location
                    (Some is_available) description (Some now) (Some now)))).
Proof.
  intros id result. subst result.
  unfold create_table, mbind, M_bind, bind, insert_table. fold id.
  case_bool_decide as Hca; simpl; [|by left].
  right.
  case_bool_decide as Hpk; [left; split; [done|by left]|].
  case_bool_decide as Htn.
  { left. split; [done|]. right.
    apply map_Exists_lookup in Htn as (i & t & Hi & Ht). eauto. }
  right. split; [by apply eq_None_not_Some|]. split; [|done].
  intros i t Hi Ht. apply Htn, map_Exists_lookup. eauto.
Qed.

(** X1: create_user refuses a username or an email that a user already has:
    it raises the unique violation of the store and no row changes; when it
    returns, the user is new, under an identity that held no row, and can be
    read back by identity, by email and by username. *)
Theorem create_user_unique_and_readable
    (now : datetime) (username email : string)
    (full_name phone : option string) (role : string) (is_active : bool)
    (db : DB) :
  let result :=
    create_user now username email full_name phone role is_active db in
  ((∃ i u, rel_users db !! i = Some u
           ∧ (users.username u = username ∨ users.email u = email)) →
   result.2 = Raise (DatabaseError UniqueViolation) ∧ same_rows db result.1)
  ∧ (∀ u, result.2 = Return u →
          rel_users db !! User.id u = None
          ∧ rel_tables result.1 = rel_tables db
          ∧ rel_bookings result.1 = rel_bookings db
          ∧ (∀ i, i ≠ User.id u → rel_users result.1 !! i = rel_users db !! i)
          ∧ get_user_by_id (User.id u) result.1 = (result.1, Return (Some u))
          ∧ get_user_by_email email result.1 = (result.1, Return (Some u))
          ∧ get_user_by_username username result.1
            = (result.1, Return (Some u))).
Proof.
  intros result. subst result.
  destruct (create_user_cases now username email full_name phone role
              is_active db) as [[-> Hwhy]|(Hfree & Hnew & ->)]; simpl.
  - split; [done|]. intros u Hu. done.
  - split.
    { intros (i & u & Hi & Hu). destruct (Hnew i u Hi). by destruct Hu. }
    intros u [= <-]. simpl. split; [done|]. split; [done|]. split; [done|].
    split; [intros i Hi; by apply lookup_insert_ne|].
    unfold get_user_by_id, get_user_by_email, get_user_by_username. simpl.
    rewrite lookup_insert_eq. split; [done|].
    split; f_equal; f_equal.
    all: match goal with
         | |- context [<[?i := ?r]> _] =>
             rewrite (fetchone_unique _ (<[i := r]> (rel_users db)) i r);
               [done|apply lookup_insert_eq|done|]
         end.
    all: intros j r' Hj He;
      apply lookup_insert_Some in Hj as [[? _]|[_ Hj]]; [done|];
      by destruct (Hnew j r' Hj).
Qed.

(** ** What a successful update has checked *)

Lemma update_user_success now user_id fields db db' :
  update_user now user_id fields db = (db', Return true) →
  ∃ r i' r',
    rel_users db !! user_id = Some r
    ∧ delete user_id (rel_users db) !! i' = None
    ∧ (∀ j o, delete user_id (rel_users db) !! j = Some o →
              users.username o ≠ users.username r'
              ∧ users.email o ≠ users.email r')
    ∧ (i' = user_id
       ∨ ∀ j b, rel_bookings db !! j = Some b → bookings.user_id b ≠ user_id)
    ∧ db' = with_users db (<[i' := r']> (delete user_id (rel_users db))).
Proof.
  unfold update_user.
  destruct (is_empty (updatable fields)); [done|].
  unfold mbind, M_bind, bind, update_users.
  destruct (analyse _ _ _) as [e|sets]; [done|].
  destruct (rel_users db !! user_id) as [r|] eqn:Hr; [|done].
  destruct (assign_all _ _ _) as [e|[i' r']] eqn:Ha; [done|].
  case_bool_decide as Hpk; [done|].
  case_bool_decide as Hun; [done|].
  case_bool_decide as Hem; [done|].
  destruct (bool_decide (i' ≠ user_id) && _) eqn:Hfk; [done|].
  intros [= <-]. exists r, i', r'. repeat split; try done.
  - by apply eq_None_not_Some.
  - intros Hu. apply Hun, map_Exists_lookup. eauto.
  - intros He. apply Hem, map_Exists_lookup. eauto.
  - apply andb_false_iff in Hfk as [Hfk|Hfk].
    + left. apply bool_decide_eq_false in Hfk. by apply dec_stable.
    + right. by apply referenced_false.
Qed.

Lemma update_table_success now table_id fields db db' :
  update_table now table_id fields db = (db', Return true) →
  ∃ r i' r',
    rel_tables db !! table_id = Some r
    ∧ delete table_id (rel_tables db) !! i' = None
    ∧ (∀ j o, delete table_id (rel_tables db) !! j = Some o →
              tables.table_number o ≠ tables.table_number r')
    ∧ (i' = table_id
       ∨ ∀ j b, rel_bookings db !! j = Some b → bookings.table_id b ≠ table_id)
    ∧ db' = with_tables db (<[i' := r']> (delete table_id (rel_tables db))).
Proof.
  unfold update_table.
  destruct (is_empty (updatable fields)); [done|].
  unfold mbind, M_bind, bind, update_tables.
  destruct (analyse _ _ _) as [e|sets]; [done|].
  destruct (rel_tables db !! table_id) as [r|] eqn:Hr; [|done].
  destruct (assign_all _ _ _) as [e|[i' r']] eqn:Ha; [done|].
  case_bool_decide as Hpk; [done|].
  case_bool_decide as Htn; [done|].
  destruct (bool_decide (i' ≠ table_id) && _) eqn:Hfk; [done|].
  intros [= <-]. exists r, i', r'. repeat split; try done.
  - by apply eq_None_not_Some.
  - intros j o Hj Ho. apply Htn, map_Exists_lookup. eauto.
  - apply andb_false_iff in Hfk as [Hfk|Hfk].
    + left. apply bool_decide_eq_false in Hfk. by apply dec_stable.
    + right. by apply referenced_false.
Qed.

Lemma update_booking_success now booking_id fields db db' :
  update_booking now booking_id fields db = (db', Return true) →
  ∃ r i' r',
    rel_bookings db !! booking_id = Some r
    ∧ delete booking_id (rel_bookings db) !! i' = None
    ∧ (bookings.user_id r' = bookings.user_id r
       ∨ is_Some (rel_users db !! bookings.user_id r'))
    ∧ (bookings.table_id r' = bookings.table_id r
       ∨ is_Some (rel_tables db !! bookings.table_id r'))
    ∧ db' = with_bookings db
              (<[i' := r']> (delete booking_id (rel_bookings db))).
Proof.
  unfold update_booking.
  destruct (is_empty (updatable fields)); [done|].
  unfold mbind, M_bind, bind, update_bookings.
  destruct (analyse _ _ _) as [e|sets]; [done|].
  destruct (rel_bookings db !! booking_id) as [r|] eqn:Hr; [|done].
  destruct (assign_all _ _ _) as [e|[i' r']] eqn:Ha; [done|].
  case_bool_decide as Hpk; [done|].
  destruct (bool_decide (bookings.user_id r' ≠ _) && _) eqn:Hu; [done|].
  destruct (bool_decide (bookings.table_id r' ≠ _) && _) eqn:Ht; [done|].
  intros [= <-]. exists r, i', r'. repeat split; try done.
  - by apply eq_None_not_Some.
  - apply andb_false_iff in Hu as [Hu|Hu]; apply bool_decide_eq_false in Hu.
    + left. by apply dec_stable.
    + right. by apply not_eq_None_Some.
  - apply andb_false_iff in Ht as [Ht|Ht]; apply bool_decide_eq_false in Ht.
    + left. by apply dec_stable.
    + right. by apply not_eq_None_Some.
Qed.

Lemma check_returns_for_a_table table_id booking_date booking_time
    duration_hours db db' b :
  check_table_availability table_id booking_date booking_time duration_hours db
  = (db', Return b) →
  is_Some (rel_tables db !! table_id).
Proof.
  rewrite check_table_availability_eq.
  destruct (rel_tables db !! table_id); [eauto|done].
Qed.

(** ** Referential integrity *)

Lemma references_valid_ext db db' :
  rel_users db' = rel_users db → rel_tables db' = rel_tables db →
  rel_bookings db' = rel_bookings db →
  references_valid db → references_valid db'.
Proof. unfold references_valid. by intros -> -> ->. Qed.

(** Replacing a row under a key, or moving it to a free key that nothing
    refers to, keeps every key that is referred to. *)
Lemma lookup_replaced_is_Some {R} (m : gmap Z R) i i' r' k :
  is_Some (m !! k) → (k = i → i' = i) →
  is_Some (<[i' := r']> (delete i m) !! k).
Proof.
  intros Hk Hi. destruct (decide (i' = k)) as [->|Hne].
  - rewrite lookup_insert_eq. eauto.
  - rewrite lookup_insert_ne by done. rewrite lookup_delete_ne; [done|].
    intros ->. by destruct Hne; rewrite Hi.
Qed.

Lemma booking_step_keeps_references op db :
  references_valid db → references_valid (run op db).
Proof.
  intros Hv.
  destruct op as [now u t d tm g st no h|now i fields|i]; simpl.
  - pose proof (check_returns_for_a_table t d tm h db db true) as Htab.
    destruct (create_booking_cases now u t d tm g st no h db)
      as [e He|tr Htr| |Hr|e|Hid Hu Hr]; simpl; try done.
    intros j b Hb. simpl in *.
    apply lookup_insert_Some in Hb as [[_ <-]|[_ Hb]]; [|by apply (Hv j)].
    simpl. split; [done|by apply Htab].
  - destruct (update_booking now i fields db) as [db' [[|]|e]] eqn:Hup.
    2,3: destruct (update_booking_cases now i fields db)
           as [[(Hu & Ht & Hb) _]|(? & ? & ? & ? & _ & _ & _ & _ & Heq)];
         rewrite Hup in *; simpl in *; [by eapply references_valid_ext|done].
    apply update_booking_success in Hup
      as (r & i' & r' & Hr & Hfree & Hu & Ht & ->).
    intros j b Hb. simpl in *.
    apply lookup_insert_Some in Hb as [[_ <-]|[_ Hb]].
    + destruct (Hv i r Hr) as [Hur Htr].
      split; [destruct Hu as [->|]|destruct Ht as [->|]]; done.
    + apply lookup_delete_Some in Hb as [_ Hb]. by apply (Hv j).
  - unfold delete_booking. destruct (rel_bookings db !! i); simpl; [|done].
    intros j b Hb. simpl in *.
    apply lookup_delete_Some in Hb as [_ Hb]. by apply (Hv j).
Qed.

(** X2: No operation of the backend leaves a booking without its user or its
    table: whatever is created, updated or deleted, and whether the call
    returns or raises, every booking of the store still refers to a user
    and to a table that are there. *)
Theorem references_stay_valid (op : backend_op) (db : DB) :
  references_valid db → references_valid (run_backend op db).
Proof.
  intros Hv.
  destruct op as [now un em fn ph ro ac|now i fields|i
                 |now tn ca lo av de|now i fields|i|op]; simpl.
  - destruct (create_user_cases now un em fn ph ro ac db)
      as [[-> _]|(Hfree & _ & ->)]; simpl; [done|].
    intros j b Hb. simpl in *. destruct (Hv j b Hb) as [Hu Ht].
    split; [|done]. apply lookup_insert_is_Some'. by right.
  - destruct (update_user now i fields db) as [db' [[|]|e]] eqn:Hup.
    2,3: destruct (update_user_cases now i fields db)
           as [[(Hu & Ht & Hb) _]|(? & ? & ? & ? & _ & _ & _ & Heq)];
         rewrite Hup in *; simpl in *; [by eapply references_valid_ext|done].
    apply update_user_success in Hup
      as (r & i' & r' & Hr & Hfree & _ & Hfk & ->).
    intros j b Hb. simpl in *. destruct (Hv j b Hb) as [Hu Ht].
    split; [|done]. apply lookup_replaced_is_Some; [done|].
    intros Hi. destruct Hfk as [Hfk|Hfk]; [done|]. by destruct (Hfk j b Hb).
  - unfold delete_user. destruct (rel_users db !! i); simpl; [|done].
    destruct (referenced bookings.user_id i db) eqn:Href; simpl; [done|].
    intros j b Hb. simpl in *. destruct (Hv j b Hb) as [Hu Ht].
    split; [|done]. rewrite lookup_delete_ne; [done|].
    intros Heq. by eapply (proj1 (referenced_false _ _ _) Href j b).
  - destruct (create_table_cases now tn ca lo av de db)
      as [[_ ->]|[[-> _]|(Hfree & _ & _ & ->)]]; simpl; [done|done|].
    intros j b Hb. simpl in *. destruct (Hv j b Hb) as [Hu Ht].
    split; [done|]. apply lookup_insert_is_Some'. by right.
  - destruct (update_table now i fields db) as [db' [[|]|e]] eqn:Hup.
    2,3: destruct (update_table_cases now i fields db)
           as [[(Hu & Ht & Hb) _]|(? & ? & ? & ? & _ & _ & _ & Heq)];
         rewrite Hup in *; simpl in *; [by eapply references_valid_ext|done].
    apply update_table_success in Hup
      as (r & i' & r' & Hr & Hfree & _ & Hfk & ->).
    intros j b Hb. simpl in *. destruct (Hv j b Hb) as [Hu Ht].
    split; [done|]. apply lookup_replaced_is_Some; [done|].
    intros Hi. destruct Hfk as [Hfk|Hfk]; [done|]. by destruct (Hfk j b Hb).
  - unfold delete_table. destruct (rel_tables db !! i); simpl; [|done].
    destruct (referenced bookings.table_id i db) eqn:Href; simpl; [done|].
    intros j b Hb. simpl in *. destruct (Hv j b Hb) as [Hu Ht].
    split; [done|]. rewrite lookup_delete_ne; [done|].
    intros Heq. by eapply (proj1 (referenced_false _ _ _) Href j b).
  - by apply booking_step_keeps_references.
Qed.

(** A store without bookings has no reference to break; after the first
    booking the references are valid still. *)
Lemma references_stay_valid_witness :
  references_valid restaurant
  ∧ references_valid
      (run_backend
         (OnBookings
            (CreateBooking 0 1 1 june_1 (oclock 18) 2 "pending" None 2))
         restaurant).
Proof.
  assert (references_valid restaurant) as H.
  { intros i b Hb. vm_compute in Hb. discriminate Hb. }
  split; [exact H|]. exact (references_stay_valid _ restaurant H).
Defined.

(** ** Unique names *)

Lemma names_unique_ext db db' :
  rel_users db' = rel_users db → rel_tables db' = rel_tables db →
  names_unique db → names_unique db'.
Proof. unfold names_unique. by intros -> ->. Qed.

(** A key stays unique when a row is added or replaced by one whose key no
    other row has. *)
Lemma unique_after_insert {R K} (key : R → K) (m : gmap Z R) i r :
  (∀ j o, m !! j = Some o → j ≠ i → key o ≠ key r) →
  (∀ j k u v, m !! j = Some u → m !! k = Some v → key u = key v → j = k) →
  ∀ j k u v, <[i := r]> m !! j = Some u → <[i := r]> m !! k = Some v →
             key u = key v → j = k.
Proof.
  intros Hnew Hm j k u v Hj Hk Heq.
  apply lookup_insert_Some in Hj as [[<- <-]|[Hji Hj]];
    apply lookup_insert_Some in Hk as [[<- <-]|[Hki Hk]]; try done.
  - by destruct (Hnew k v Hk).
  - by destruct (Hnew j u Hj).
  - by eapply Hm.
Qed.

Lemma unique_after_delete {R K} (key : R → K) (m : gmap Z R) i :
  (∀ j k u v, m !! j = Some u → m !! k = Some v → key u = key v → j = k) →
  ∀ j k u v, delete i m !! j = Some u → delete i m !! k = Some v →
             key u = key v → j = k.
Proof.
  intros Hm j k u v Hj Hk.
  apply lookup_delete_Some in Hj as [_ Hj].
  apply lookup_delete_Some in Hk as [_ Hk]. by eapply Hm.
Qed.

(** X3: No operation of the backend makes two users share a username or an
    email, or two tables a number: the store refuses the statement that
    would, and the call raises. *)
Theorem names_stay_unique (op : backend_op) (db : DB) :
  names_unique db → names_unique (run_backend op db).
Proof.
  intros (Hun & Hem & Htn).
  destruct op as [now un em fn ph ro ac|now i fields|i
                 |now tn ca lo av de|now i fields|i|op]; simpl.
  - destruct (create_user_cases now un em fn ph ro ac db)
      as [[-> _]|(Hfree & Hnew & ->)]; simpl; [done|].
    split; [|split; [|done]]; simpl.
    + apply unique_after_insert; [|done].
      intros j o Hj _. by destruct (Hnew j o Hj).
    + apply unique_after_insert; [|done].
      intros j o Hj _. by destruct (Hnew j o Hj).
  - destruct (update_user now i fields db) as [db' [[|]|e]] eqn:Hup.
    2,3: destruct (update_user_cases now i fields db)
           as [[(Hu & Ht & Hb) _]|(? & ? & ? & ? & _ & _ & _ & Heq)];
         rewrite Hup in *; simpl in *; [by eapply names_unique_ext|done].
    apply update_user_success in Hup
      as (r & i' & r' & Hr & Hfree & Hnew & _ & ->).
    split; [|split; [|done]]; simpl.
    + apply unique_after_insert; [|by apply unique_after_delete].
      intros j o Hj _. by destruct (Hnew j o Hj).
    + apply unique_after_insert; [|by apply unique_after_delete].
      intros j o Hj _. by destruct (Hnew j o Hj).
  - unfold delete_user. destruct (rel_users db !! i); simpl; [|done].
    destruct (referenced bookings.user_id i db); simpl; [done|].
    split; [|split; [|done]]; simpl; by apply unique_after_delete.
  - destruct (create_table_cases now tn ca lo av de db)
      as [[_ ->]|[[-> _]|(Hfree & Hnew & _ & ->)]]; simpl; [done|done|].
    split; [done|split; [done|]]; simpl.
    apply unique_after_insert; [|done].
    intros j o Hj _. by apply (Hnew j o).
  - destruct (update_table now i fields db) as [db' [[|]|e]] eqn:Hup.
    2,3: destruct (update_table_cases now i fields db)
           as [[(Hu & Ht & Hb) _]|(? & ? & ? & ? & _ & _ & _ & Heq)];
         rewrite Hup in *; simpl in *; [by eapply names_unique_ext|done].
    apply update_table_success in Hup
      as (r & i' & r' & Hr & Hfree & Hnew & _ & ->).
    split; [done|split; [done|]]; simpl.
    apply unique_after_insert; [|by apply unique_after_delete].
    intros j o Hj _. by apply (Hnew j o).
  - unfold delete_table. destruct (rel_tables db !! i); simpl; [|done].
    destruct (referenced bookings.table_id i db); simpl; [done|].
    split; [done|split; [done|]]; simpl. by apply unique_after_delete.
  - destruct op as [now u t d tm g st no h|now i fields|i]; simpl.
    + destruct (create_booking_cases now u t d tm g st no h db); by simpl.
    + destruct (update_booking_cases now i fields db)
        as [[(Hu & Ht & _) _]|(? & ? & ? & ? & _ & _ & _ & _ & ->)];
        [by eapply names_unique_ext|done].
    + unfold delete_booking. by destruct (rel_bookings db !! i).
Qed.

Lemma restaurant_names_unique : names_unique restaurant.
Proof.
  repeat split; intros i j u v Hi Hj Heq; simpl in Hi, Hj.
  - apply lookup_singleton_Some in Hi as [<- _].
    by apply lookup_singleton_Some in Hj as [<- _].
  - apply lookup_singleton_Some in Hi as [<- _].
    by apply lookup_singleton_Some in Hj as [<- _].
  - apply lookup_insert_Some in Hi as [[<- <-]|[_ Hi]];
      apply lookup_insert_Some in Hj as [[<- <-]|[_ Hj]]; try done.
    + by apply lookup_singleton_Some in Hj as [_ <-].
    + by apply lookup_singleton_Some in Hi as [_ <-].
    + apply lookup_singleton_Some in Hi as [<- _].
      by apply lookup_singleton_Some in Hj as [<- _].
Qed.

(** The names of the restaurant are unique, and stay so when a second user
    asks for the email of the first. *)
Lemma names_stay_unique_witness :
  names_unique restaurant
  ∧ names_unique
      (run_backend (CreateUser 3 "bob" "ann@example.org" None None "client" true)
         restaurant).
Proof.
  pose proof restaurant_names_unique as H.
  split; [exact H|]. exact (names_stay_unique _ restaurant H).
Defined.

(** ** Lists of bookings *)

Lemma latest_first_transitive : Transitive latest_first.
Proof. unfold latest_first. intros x y z ? ?. lia. Qed.

Lemma latest_first_total : Total latest_first.
Proof. unfold latest_first. intros x y. lia. Qed.

(** The rows of an ordered [SELECT]: those of the relation that satisfy the
    condition, each once, the latest first. *)
Lemma order_by_latest_select (P : bookings.row → Prop)
    `{∀ r, Decision (P r)} (m : gmap Z bookings.row) :
  let rows := order_by_latest (select_where P m) in
  (∀ i r, (i, r) ∈ rows ↔ m !! i = Some r ∧ P r)
  ∧ NoDup rows.*1
  ∧ StronglySorted latest_first rows.
Proof.
  intros rows. subst rows. unfold order_by_latest. split; [|split].
  - intros i r. rewrite merge_sort_Permutation. apply elem_of_select_where.
  - rewrite merge_sort_Permutation. unfold select_where.
    eapply NoDup_fmap_fst.
    + intros i x y Hx Hy.
      apply list_elem_of_filter in Hx as [_ Hx].
      apply list_elem_of_filter in Hy as [_ Hy].
      apply elem_of_map_to_list in Hx. apply elem_of_map_to_list in Hy.
      congruence.
    + apply NoDup_filter, NoDup_map_to_list.
  - apply (@StronglySorted_merge_sort _ latest_first _
             latest_first_transitive latest_first_total).
Qed.

(** X6: get_bookings_by_table and get_bookings_by_user never fail and leave
    the store alone; the list they return holds exactly the bookings of the
    table, or of the user, each once by its identity, ordered so that no
    booking comes before a later one. *)
Theorem bookings_of_table_and_user (db : DB) (id : Z) :
  (∃ l, get_bookings_by_table id db = (db, Return l)
        ∧ (∀ i r, booking_of_row (i, r) ∈ l
                  ↔ rel_bookings db !! i = Some r ∧ bookings.table_id r = id)
        ∧ NoDup (StoredBooking.id <$> l)
        ∧ StronglySorted not_earlier l)
  ∧ (∃ l, get_bookings_by_user id db = (db, Return l)
          ∧ (∀ i r, booking_of_row (i, r) ∈ l
                    ↔ rel_bookings db !! i = Some r ∧ bookings.user_id r = id)
          ∧ NoDup (StoredBooking.id <$> l)
          ∧ StronglySorted not_earlier l).
Proof.
  assert (Inj (=) (=) booking_of_row) as Hinj.
  { intros [i []] [j []] [=]. by simplify_eq. }
  split; eexists; (split; [reflexivity|]).
  - destruct (order_by_latest_select (λ r, bookings.table_id r = id)
                (rel_bookings db)) as (Hin & Hnd & Hs).
    split; [|split].
    + intros i r. rewrite (list_elem_of_fmap_inj booking_of_row). apply Hin.
    + by rewrite <- list_fmap_compose.
    + by apply (StronglySorted_fmap booking_of_row latest_first).
  - destruct (order_by_latest_select (λ r, bookings.user_id r = id)
                (rel_bookings db)) as (Hin & Hnd & Hs).
    split; [|split].
    + intros i r. rewrite (list_elem_of_fmap_inj booking_of_row). apply Hin.
    + by rewrite <- list_fmap_compose.
    + by apply (StronglySorted_fmap booking_of_row latest_first).
Qed.

Lemma select_where_length {R} (P : R → Prop) `{∀ r, Decision (P r)}
    (m : gmap Z R) :
  length (select_where P m) = size (filter (λ kv : Z * R, P kv.2) m).
Proof.
  unfold select_where.
  rewrite map_filter_alt, <- length_map_to_list, map_to_list_to_map; [done|].
  eapply NoDup_fmap_fst; [|apply NoDup_filter, NoDup_map_to_list].
  intros i x y Hx Hy.
  apply list_elem_of_filter in Hx as [_ Hx].
  apply list_elem_of_filter in Hy as [_ Hy].
  apply elem_of_map_to_list in Hx. apply elem_of_map_to_list in Hy.
  congruence.
Qed.

(** X7: get_all_bookings treats a limit of 0, an offset of 0 and an empty status
    as not given; a negative limit is refused by the store and nothing
    changes; a positive limit bounds the length of the list; and without
    limit and offset the list has one entry for each booking that the
    filters select. *)
Theorem get_all_bookings_limits
    (db : DB) (status : option string) (booking_date : option date)
    (limit offset : option Z) :
  get_all_bookings status booking_date (Some 0) offset db
  = get_all_bookings status booking_date None offset db
  ∧ get_all_bookings status booking_date limit (Some 0) db
    = get_all_bookings status booking_date limit None db
  ∧ get_all_bookings (Some ""%string) booking_date limit offset db
    = get_all_bookings None booking_date limit offset db
  ∧ (∀ n, n < 0 →
          get_all_bookings status booking_date (Some n) offset db
          = (db, Raise (DatabaseError DataError)))
  ∧ (∀ n l, 0 < n →
            get_all_bookings status booking_date (Some n) offset db
            = (db, Return l) →
            (length l ≤ Z.to_nat n)%nat)
  ∧ (∃ l, get_all_bookings status booking_date None None db = (db, Return l)
          ∧ length l
            = size (filter (λ kv : Z * bookings.row,
                              all_bookings_where status booking_date kv.2)
                      (rel_bookings db))).
Proof.
  unfold get_all_bookings. repeat split.
  - intros n Hn. unfold limit_offset.
    destruct n as [|n|n]; try lia. simpl. by destruct (given_int offset).
  - intros n l Hn. unfold limit_offset.
    destruct n as [|n|n]; try lia. simpl.
    destruct (given_int offset) as [k|]; [destruct (k <? 0)|]; try done.
    all: intros [= <-]; rewrite length_fmap, length_take; lia.
  - eexists. split; [reflexivity|].
    rewrite length_fmap. unfold order_by_latest.
    by rewrite merge_sort_Permutation, select_where_length.
Qed.

(** ** Round trips *)



(** X10: Deleting the booking that create_booking has just returned succeeds
    and gives back the relations as they were before the two calls. *)
Theorem create_then_delete_restores
    (now : datetime) (user_id table_id : Z) (booking_date : date)
    (booking_time : time) (guests_count : Z) (status : string)
    (notes : option string) (duration_hours : Z) (db db' : DB)
    (b : Booking.t) :
  create_booking now user_id table_id booking_date booking_time guests_count
    status notes duration_hours db = (db', Return b) →
  (delete_booking (Booking.id b) db').2 = Return true
  ∧ same_rows db (delete_booking (Booking.id b) db').1.
Proof.
  intros H.
  destruct (create_booking_cases now user_id table_id booking_date
              booking_time guests_count status notes duration_hours db)
    as [e He|t Ht| |Hr|e|Hid Hu Hr]; try done.
  injection H as <- <-. unfold delete_booking. simpl.
  rewrite lookup_insert_eq. simpl. split; [done|].
  repeat split; try done. simpl.
  rewrite delete_insert_eq. by apply delete_id.
Qed.

(** Booking and deleting in the restaurant leaves it without bookings. *)
Lemma create_then_delete_restores_witness :
  create_booking 0 1 1 june_1 (oclock 18) 2 "pending" None 2 restaurant
  = (booked_18,
     Return (created_booking 0 1 1 june_1 (oclock 18) 2 "pending" None
               restaurant))
  ∧ rel_bookings (delete_booking 1 booked_18).1 = rel_bookings restaurant.
Proof.
  assert (create_booking 0 1 1 june_1 (oclock 18) 2 "pending" None 2 restaurant
          = (booked_18,
             Return (created_booking 0 1 1 june_1 (oclock 18) 2 "pending"
                       None restaurant))) as H
    by (vm_compute; reflexivity).
  split; [exact H|].
  exact (proj2 (proj2 (proj2
    (create_then_delete_restores _ _ _ _ _ _ _ _ _ _ _ _ H)))).
Defined.

(** X11: delete_booking returns true exactly when the booking was there; in
    either case no booking has the identity afterwards, every other booking
    and every user and table is as before, and a second call returns
    false. *)
Theorem delete_booking_removes_once (db : DB) (booking_id : Z) :
  let result := delete_booking booking_id db in
  result.2 = Return (bool_decide (is_Some (rel_bookings db !! booking_id)))
  ∧ rel_bookings result.1 = delete booking_id (rel_bookings db)
  ∧ rel_users result.1 = rel_users db
  ∧ rel_tables result.1 = rel_tables db
  ∧ delete_booking booking_id result.1 = (result.1, Return false)
  ∧ (get_booking_by_id booking_id result.1).2 = Return None.
Proof.
  unfold delete_booking, get_booking_by_id.
  destruct (rel_bookings db !! booking_id) as [r|] eqn:Hr; simpl.
  - rewrite lookup_delete_eq. by repeat split.
  - rewrite Hr. repeat split; try done. simpl. by rewrite delete_id.
Qed.

(** ** What an operation leaves alone *)

(** X12: Every writing operation changes rows of one relation only: the user
    operations leave tables and bookings as they are, the table operations
    users and bookings, the booking operations users and tables, whether
    the call returns or raises. *)
Theorem operations_touch_one_relation (op : backend_op) (db : DB) :
  match op with
  | CreateUser _ _ _ _ _ _ _ | UpdateUser _ _ _ | DeleteUser _ =>
      rel_tables (run_backend op db) = rel_tables db
      ∧ rel_bookings (run_backend op db) = rel_bookings db
  | CreateTable _ _ _ _ _ _ | UpdateTable _ _ _ | DeleteTable _ =>
      rel_users (run_backend op db) = rel_users db
      ∧ rel_bookings (run_backend op db) = rel_bookings db
  | OnBookings _ =>
      rel_users (run_backend op db) = rel_users db
      ∧ rel_tables (run_backend op db) = rel_tables db
  end.
Proof.
  destruct op as [now un em fn ph ro ac|now i fields|i
                 |now tn ca lo av de|now i fields|i|op]; simpl.
  - by destruct (create_user_cases now un em fn ph ro ac db)
      as [[-> _]|(_ & _ & ->)].
  - by destruct (update_user_cases now i fields db)
      as [[(_ & -> & ->) _]|(? & ? & ? & ? & _ & _ & _ & ->)].
  - unfold delete_user. destruct (rel_users db !! i); [|done].
    by destruct (referenced bookings.user_id i db).
  - by destruct (create_table_cases now tn ca lo av de db)
      as [[_ ->]|[[-> _]|(_ & _ & _ & ->)]].
  - by destruct (update_table_cases now i fields db)
      as [[(-> & _ & ->) _]|(? & ? & ? & ? & _ & _ & _ & ->)].
  - unfold delete_table. destruct (rel_tables db !! i); [|done].
    by destruct (referenced bookings.table_id i db).
  - destruct op as [now u t d tm g st no h|now i fields|i]; simpl.
    + by destruct (create_booking_cases now u t d tm g st no h db).
    + by destruct (update_booking_cases now i fields db)
        as [[(-> & -> & _) _]|(? & ? & ? & ? & _ & _ & _ & _ & ->)].
    + unfold delete_booking. by destruct (rel_bookings db !! i).
Qed.

(** X13: An update function returns true only for a row that is there: when no
    row has the identity, update_user, update_table and update_booking
    change no row and do not return true, whatever the fields are. *)
Theorem update_needs_the_row (now : datetime) (id : Z) (fields : kwargs)
    (db : DB) :
  (rel_users db !! id = None →
   same_rows db (update_user now id fields db).1
   ∧ (update_user now id fields db).2 ≠ Return true)
  ∧ (rel_tables db !! id = None →
     same_rows db (update_table now id fields db).1
     ∧ (update_table now id fields db).2 ≠ Return true)
  ∧ (rel_bookings db !! id = None →
     same_rows db (update_booking now id fields db).1
     ∧ (update_booking now id fields db).2 ≠ Return true).
Proof.
  split; [|split]; intros Hnone.
  - destruct (update_user_cases now id fields db)
      as [?|(r & ? & ? & ? & Hr & _)]; [done|congruence].
  - destruct (update_table_cases now id fields db)
      as [?|(r & ? & ? & ? & Hr & _)]; [done|congruence].
  - destruct (update_booking_cases now id fields db)
      as [?|(r & ? & ? & ? & Hr & _)]; [done|congruence].
Qed.

(** No user 7, no table 7, no booking 7 in the restaurant. *)
Lemma update_needs_the_row_witness :
  rel_users restaurant !! 7 = None
  ∧ (update_user 9 7 [("phone"%string, PyStr "555")] restaurant).2
    ≠ Return true.
Proof.
  assert (rel_users restaurant !! 7 = None) as H by (vm_compute; reflexivity).
  split; [exact H|].
  exact (proj2 (proj1 (update_needs_the_row 9 7
                         [("phone"%string, PyStr "555")] restaurant) H)).
Defined.

(** ** Cancelling *)

Lemma cancel_booking_eq now booking_id db r :
  rel_bookings db !! booking_id = Some r →
  update_booking now booking_id [("status"%string, PyStr "cancelled")] db
  = (with_bookings db
       (<[booking_id := cancelled_row now r]> (rel_bookings db)),
     Return true).
Proof.
  intros Hr.
  assert (analyse (column_named bookings_columns) bookings_type
            (booking_update_data now [("status"%string, PyStr "cancelled")])
          = inr [(B_status, PyStr "cancelled");
                 (B_updated_at, PyDatetime now)]) as Han
    by (vm_compute; reflexivity).
  unfold update_booking.
  change (is_empty (updatable [("status"%string, PyStr "cancelled")]))
    with false.
  cbv iota. fold (booking_update_data now [("status"%string, PyStr "cancelled")]).
  unfold mbind, M_bind, bind, update_bookings. rewrite Han, Hr.
  destruct r. cbn [assign_all bookings_set on_value nullable_text
                     nullable_timestamp].
  rewrite lookup_delete_eq.
  rewrite (bool_decide_eq_false_2 (is_Some None)) by (by intros [? ?]).
  cbn [bookings.user_id bookings.table_id].
  rewrite !(bool_decide_eq_false_2 (_ ≠ _)) by (intros H; by apply H).
  simpl. by rewrite insert_delete_eq.
Qed.

(** X14: Setting the status of a booking that is there to 'cancelled' through
    update_booking always succeeds; it changes the status and updated_at of
    that row and nothing else, and afterwards a slot has no conflict exactly
    when no other booking is in conflict with it. *)
Theorem cancelling_frees_the_slot
    (now : datetime) (booking_id : Z) (db : DB) (r : bookings.row) :
  rel_bookings db !! booking_id = Some r →
  let result :=
    update_booking now booking_id [("status"%string, PyStr "cancelled")] db in
  result.2 = Return true
  ∧ rel_bookings result.1
    = <[booking_id := cancelled_row now r]> (rel_bookings db)
  ∧ ∀ table_id booking_date booking_time duration_hours,
      conflict_count table_id booking_date booking_time duration_hours
        result.1 = 0%nat
      ↔ ∀ j b, j ≠ booking_id → rel_bookings db !! j = Some b →
               ¬ conflicts_with table_id booking_date booking_time
                   duration_hours b.
Proof.
  intros Hr result. subst result. rewrite (cancel_booking_eq _ _ _ r Hr).
  simpl. split; [done|]. split; [done|].
  intros t d tm h. rewrite conflict_count_zero. simpl. split.
  - intros H j b Hj Hb. apply (H j). by rewrite lookup_insert_ne.
  - intros H j b Hb. apply lookup_insert_Some in Hb as [[_ <-]|[Hj Hb]].
    + intros (_ & _ & [_ Hc] & _). by apply Hc.
    + by apply (H j).
Qed.

(** With the booking of 18:00 cancelled, the slot at 19:00 has no
    conflict. *)
Lemma cancelling_frees_the_slot_witness :
  rel_bookings booked_18 !! 1
  = Some (row_of_booking
            (created_booking 0 1 1 june_1 (oclock 18) 2 "pending" None
               restaurant))
  ∧ conflict_count 1 june_1 (oclock 19) 2
      (update_booking 5 1 [("status"%string, PyStr "cancelled")] booked_18).1
    = 0%nat.
Proof.
  assert (rel_bookings booked_18 !! 1
          = Some (row_of_booking
                    (created_booking 0 1 1 june_1 (oclock 18) 2 "pending" None
                       restaurant))) as H by (vm_compute; reflexivity).
  split; [exact H|].
  apply (proj2 (proj2 (cancelling_frees_the_slot 5 1 booked_18 _ H))).
  intros j b Hj Hb. exfalso. apply Hj.
  change (rel_bookings booked_18)
    with (<[1 := row_of_booking
                    (created_booking 0 1 1 june_1 (oclock 18) 2 "pending" None
                       restaurant)]> (∅ : gmap Z bookings.row)) in Hb.
  apply lookup_insert_Some in Hb as [[? _]|[_ Hb]]; [done|].
  by rewrite lookup_empty in Hb.
Defined.

(** ** Durations and instants *)

(** X16: For a positive duration the admission query counts a booking exactly
    when it is a booking of the same table on the same date, with a status
    other than 'cancelled', whose two hours from its start share an instant
    with the candidate's interval. *)
Theorem conflict_where_shares_an_instant
    (table_id : Z) (booking_date : date) (booking_time : time)
    (duration_hours : Z) (b : bookings.row) :
  0 < duration_hours →
  conflict_where table_id booking_date
    (combine booking_date booking_time + hours duration_hours)
    (combine booking_date booking_time) b = true
  ↔ bookings.table_id b = table_id
    ∧ bookings.booking_date b = booking_date
    ∧ (∃ s, bookings.status b = Some s ∧ s ≠ "cancelled"%string)
    ∧ ∃ instant,
        (booking_start b ≤ instant ∧ instant < booking_start b + hours 2)
        ∧ (combine booking_date booking_time ≤ instant
           ∧ instant
             < combine booking_date booking_time + hours duration_hours).
Proof.
  intros Hd. rewrite conflict_where_spec. unfold conflicts_with, cancelled.
  rewrite overlaps_common_instant
    by (unfold hours, microseconds_per_hour; lia).
  split; intros (Ht & Hdt & Hst & Ho); repeat split; try done.
  - destruct (bookings.status b) as [s|]; [|by destruct Hst].
    exists s. split; [done|]. intros ->. by destruct Hst.
  - by destruct Hst as (s & -> & _).
  - destruct Hst as (s & -> & Hs). by intros [= ->].
Qed.

(** A candidate of two hours at 19:00 and a stored booking at 18:00. *)
Lemma conflict_where_shares_an_instant_witness :
  0 < 2
  ∧ ∃ instant,
      (booking_start
         (bookings.mk 1 1 june_1 (oclock 18) 2 (Some "pending"%string)
            (Some ""%string) (Some 0) (Some 0)) ≤ instant
       ∧ instant
         < booking_start
             (bookings.mk 1 1 june_1 (oclock 18) 2 (Some "pending"%string)
                (Some ""%string) (Some 0) (Some 0)) + hours 2)
      ∧ (combine june_1 (oclock 19) ≤ instant
         ∧ instant < combine june_1 (oclock 19) + hours 2).
Proof.
  split; [lia|].
  apply (proj1 (conflict_where_shares_an_instant 1 june_1 (oclock 19) 2
                  (bookings.mk 1 1 june_1 (oclock 18) 2
                     (Some "pending"%string) (Some ""%string) (Some 0)
                     (Some 0)) ltac:(lia))).
  vm_compute. reflexivity.
Defined.

(** X17: duration_hours is not validated: with a duration of minus two hours or
    less, as long as the end it gives is a datetime still, no stored booking
    is in conflict, so check_table_availability returns true for every
    available table, whatever is booked, and create_booking never reports a
    conflict. *)
Theorem negative_duration_is_never_refused
    (now : datetime) (user_id table_id : Z) (booking_date : date)
    (booking_time : pytime) (guests_count : Z) (status : string)
    (notes : option string) (duration_hours : Z) (db : DB) (t : tables.row) :
  duration_hours ≤ -2 →
  in_datetime_range
    (combine booking_date (time_of_day booking_time) + hours duration_hours) →
  rel_tables db !! table_id = Some t →
  tables.is_available t = Some true →
  check_table_availability table_id booking_date booking_time duration_hours db
  = (db, Return true)
  ∧ ∀ label d tm,
      raised (create_booking now user_id table_id booking_date booking_time
                guests_count status notes duration_hours db)
      ≠ Some (ValueError (TableAlreadyBooked label d tm)).
Proof.
  intros Hd Hr Ht Hav.
  assert (check_table_availability table_id booking_date booking_time
            duration_hours db = (db, Return true)) as Hcheck.
  { rewrite (check_table_availability_session_time db table_id t) by done.
    rewrite bool_decide_eq_true_2; [done|].
    apply conflict_count_zero. intros i b _ (_ & _ & _ & Ho).
    unfold overlaps, hours, microseconds_per_hour in Ho. lia. }
  split; [done|]. intros label d tm.
  rewrite create_booking_eq, Hcheck.
  destruct (insert_booking_cases now user_id table_id booking_date
              booking_time guests_count status (created_notes notes) db)
    as [[_ ->]|[[e ->]|(_ & _ & _ & _ & ->)]]; done.
Qed.

(** Table 1 is booked from 18:00; a booking of minus two hours at 18:00 is
    let through. *)
Lemma negative_duration_is_never_refused_witness :
  -2 ≤ -2
  ∧ rel_tables booked_18 !! 1 = Some table_T1
  ∧ tables.is_available table_T1 = Some true
  ∧ check_table_availability 1 june_1 (oclock 18) (-2) booked_18
    = (booked_18, Return true).
Proof.
  assert (rel_tables booked_18 !! 1 = Some table_T1) as Ht
    by (vm_compute; reflexivity).
  split; [lia|]. split; [exact Ht|]. split; [reflexivity|].
  exact (proj1 (negative_duration_is_never_refused 0 1 1 june_1 (oclock 18) 2
                  "pending" None (-2) booked_18 table_T1 ltac:(lia)
                  ltac:(vm_compute; split; discriminate) Ht eq_refl)).
Defined.

(** ** The user of a booking *)

(** X18: create_booking does not look the user up: for a user that is not
    there, a slot that passes the availability check reaches the store, the
    store refuses the row, the call raises the error of the store and no
    row is added.  The error is the foreign key violation when the values
    fit their columns (the three integers are values of INTEGER, the status
    has at most the 20 characters of its column) and the new identity is
    free. *)
Theorem create_booking_needs_the_user
    (now : datetime) (user_id table_id : Z) (booking_date : date)
    (booking_time : pytime) (guests_count : Z) (status : string)
    (notes : option string) (duration_hours : Z) (db : DB) :
  rel_users db !! user_id = None →
  check_table_availability table_id booking_date booking_time duration_hours db
  = (db, Return true) →
  let result :=
    create_booking now user_id table_id booking_date booking_time
      guests_count status notes duration_hours db in
  (∃ e, result.2 = Raise (DatabaseError e)
        ∧ (int4 user_id ∧ int4 table_id ∧ int4 guests_count →
           (String.length status ≤ 20)%nat →
           rel_bookings db !! (bookings_id_seq db + 1) = None →
           e = ForeignKeyViolation))
  ∧ same_rows db result.1.
Proof.
  intros Hu Hcheck result. subst result.
  rewrite create_booking_eq, Hcheck. unfold insert_booking.
  case_bool_decide as Hr; simpl.
  2:{ split; [|done]. eexists. split; [done|]. by intros ?. }
  case_bool_decide as Hpk; simpl.
  { split; [|done]. eexists. split; [done|]. intros _ _ Hnone.
    rewrite Hnone in Hpk. by destruct Hpk. }
  rewrite bool_decide_eq_true_2 by done. simpl. split; [|done].
  eexists. by split.
Qed.

(** User 9 books table 1 of the restaurant. *)
Lemma create_booking_needs_the_user_witness :
  rel_users restaurant !! 9 = None
  ∧ check_table_availability 1 june_1 (oclock 18) 2 restaurant
    = (restaurant, Return true)
  ∧ (create_booking 0 9 1 june_1 (oclock 18) 2 "pending" None 2 restaurant).2
    = Raise (DatabaseError ForeignKeyViolation).
Proof.
  assert (rel_users restaurant !! 9 = None) as Hu by (vm_compute; reflexivity).
  assert (check_table_availability 1 june_1 (oclock 18) 2 restaurant
          = (restaurant, Return true)) as Hc by (vm_compute; reflexivity).
  split; [exact Hu|]. split; [exact Hc|].
  destruct (proj1 (create_booking_needs_the_user 0 9 1 june_1 (oclock 18) 2
                     "pending" None 2 restaurant Hu Hc)) as (e & -> & He).
  rewrite He; [done| |simpl; lia|done].
  vm_compute. repeat split; discriminate.
Defined.

(** ** Finding users and tables by name *)

(** X4: In a store whose names are unique, get_user_by_email and
    get_user_by_username return the user that has the email or the
    username, and get_table_by_number the table that has the number; for a
    name that no row has they return None. *)
Theorem lookups_by_name (db : DB) :
  names_unique db →
  (∀ i u, rel_users db !! i = Some u →
          get_user_by_email (users.email u) db
          = (db, Return (Some (user_of_row (i, u))))
          ∧ get_user_by_username (users.username u) db
            = (db, Return (Some (user_of_row (i, u)))))
  ∧ (∀ i t, rel_tables db !! i = Some t →
            get_table_by_number (tables.table_number t) db
            = (db, Return (Some (table_of_row (i, t)))))
  ∧ (∀ email, (∀ i u, rel_users db !! i = Some u → users.email u ≠ email) →
              get_user_by_email email db = (db, Return None))
  ∧ (∀ username,
       (∀ i u, rel_users db !! i = Some u → users.username u ≠ username) →
       get_user_by_username username db = (db, Return None))
  ∧ (∀ number,
       (∀ i t, rel_tables db !! i = Some t → tables.table_number t ≠ number) →
       get_table_by_number number db = (db, Return None)).
Proof.
  intros (Hun & Hem & Htn).
  unfold get_user_by_email, get_user_by_username, get_table_by_number.
  split; [|split; [|split; [|split]]].
  - intros i u Hi. split.
    + rewrite (fetchone_unique _ _ i u); try done.
      intros j r' Hj He. by apply (Hem j i r' u).
    + rewrite (fetchone_unique _ _ i u); try done.
      intros j r' Hj He. by apply (Hun j i r' u).
  - intros i t Hi. rewrite (fetchone_unique _ _ i t); try done.
    intros j r' Hj He. by apply (Htn j i r' t).
  - intros email H. rewrite fetchone_none; [done|].
    intros j r' Hj. by apply (H j).
  - intros username H. rewrite fetchone_none; [done|].
    intros j r' Hj. by apply (H j).
  - intros number H. rewrite fetchone_none; [done|].
    intros j r' Hj. by apply (H j).
Qed.

(** Ann is found by her email, and nobody by another. *)
Lemma lookups_by_name_witness :
  names_unique restaurant
  ∧ get_user_by_email "ann@example.org" restaurant
    = (restaurant, Return (Some (user_of_row (1, ann)))).
Proof.
  pose proof restaurant_names_unique as H.
  split; [exact H|].
  apply (proj1 (proj1 (lookups_by_name restaurant H) 1 ann
                  ltac:(vm_compute; reflexivity))).
Defined.

(** ** A new table *)

(** X5: A table that create_table returned is read back by identity and by
    number; and in a store whose bookings all refer to tables that are
    there, a new table created available is free for every slot: for every
    date, time and duration whose end is within the range of datetime. *)
Theorem created_table_is_free
    (now : datetime) (table_number : string) (capacity : Z)
    (location : option string) (is_available : bool)
    (description : option string) (db db' : DB) (t : Table.t) :
  create_table now table_number capacity location is_available description db
  = (db', Return t) →
  get_table_by_id (Table.id t) db' = (db', Return (Some t))
  ∧ get_table_by_number table_number db' = (db', Return (Some t))
  ∧ (references_valid db → is_available = true →
     ∀ booking_date (booking_time : pytime) duration_hours,
       in_datetime_range
         (combine booking_date (time_of_day booking_time)
          + hours duration_hours) →
       check_table_availability (Table.id t) booking_date booking_time
         duration_hours db'
       = (db', Return true)).
Proof.
  intros H.
  destruct (create_table_cases now table_number capacity location
              is_available description db)
    as [[_ Heq]|[[Heq _]|(Hfree & Hnew & _ & Heq)]]; rewrite Heq in H;
    [done|done|].
  injection H as <- <-. simpl. split; [|split].
  - unfold get_table_by_id. simpl. by rewrite lookup_insert_eq.
  - unfold get_table_by_number. simpl.
    match goal with
    | |- context [<[?i := ?r]> _] =>
        rewrite (fetchone_unique _ (<[i := r]> (rel_tables db)) i r);
          [done|apply lookup_insert_eq|done|]
    end.
    intros j r' Hj He.
    apply lookup_insert_Some in Hj as [[? _]|[_ Hj]]; [done|].
    by destruct (Hnew j r' Hj).
  - intros Hv -> d tm h Hr. rewrite check_table_availability_eq. simpl.
    rewrite lookup_insert_eq. simpl.
    rewrite (bool_decide_eq_true_2 _ Hr), count_conflicts_spec.
    rewrite bool_decide_eq_true_2; [done|].
    apply conflict_count_zero. simpl. intros i b Hb (Ht & _).
    destruct (Hv i b Hb) as [_ [x Hx]]. rewrite Ht in Hx. congruence.
Qed.

(** A third table for the restaurant. *)
Lemma created_table_is_free_witness :
  create_table 3 "T3" 6 None true None restaurant
  = ((create_table 3 "T3" 6 None true None restaurant).1,
     Return (Table.mk 3 "T3" 6 None (Some true) None (Some 3) (Some 3)))
  ∧ get_table_by_number "T3"
      (create_table 3 "T3" 6 None true None restaurant).1
    = ((create_table 3 "T3" 6 None true None restaurant).1,
       Return (Some (Table.mk 3 "T3" 6 None (Some true) None (Some 3)
                       (Some 3))))
  ∧ check_table_availability 3 june_1 (oclock 18) 2
      (create_table 3 "T3" 6 None true None restaurant).1
    = ((create_table 3 "T3" 6 None true None restaurant).1, Return true).
Proof.
  assert (create_table 3 "T3" 6 None true None restaurant
          = ((create_table 3 "T3" 6 None true None restaurant).1,
             Return (Table.mk 3 "T3" 6 None (Some true) None (Some 3)
                       (Some 3)))) as H by (vm_compute; reflexivity).
  split; [exact H|].
  destruct (created_table_is_free _ _ _ _ _ _ _ _ _ H) as (_ & Hn & Hfree).
  split; [exact Hn|].
  apply (Hfree ltac:(intros i b Hb; vm_compute in Hb; discriminate Hb)
           eq_refl june_1 (oclock 18) 2).
  vm_compute. split; discriminate.
Defined.

(** ** Updates, once more *)

(** X19: An update that returns true has set updated_at of the row to the time
    of the call, for users, tables and bookings alike. *)
Theorem update_sets_updated_at (now : datetime) (id : Z) (fields : kwargs)
    (db : DB) :
  (∀ db', update_user now id fields db = (db', Return true) →
          ∃ i' r', rel_users db' = <[i' := r']> (delete id (rel_users db))
                   ∧ users.updated_at r' = Some now)
  ∧ (∀ db', update_table now id fields db = (db', Return true) →
            ∃ i' r', rel_tables db' = <[i' := r']> (delete id (rel_tables db))
                     ∧ tables.updated_at r' = Some now)
  ∧ (∀ db', update_booking now id fields db = (db', Return true) →
            ∃ i' r',
              rel_bookings db' = <[i' := r']> (delete id (rel_bookings db))
              ∧ bookings.updated_at r' = Some now).
Proof.
  split; [|split]; intros db' H.
  - by eapply update_user_sets_updated_at.
  - by eapply update_table_sets_updated_at.
  - by eapply update_booking_sets_updated_at.
Qed.

(** Ann gets a phone number at 9. *)
Lemma update_sets_updated_at_witness :
  update_user 9 1 [("phone"%string, PyStr "555")] restaurant
  = ((update_user 9 1 [("phone"%string, PyStr "555")] restaurant).1,
     Return true)
  ∧ ∃ i' r',
      rel_users (update_user 9 1 [("phone"%string, PyStr "555")] restaurant).1
      = <[i' := r']> (delete 1 (rel_users restaurant))
      ∧ users.updated_at r' = Some 9.
Proof.
  assert (update_user 9 1 [("phone"%string, PyStr "555")] restaurant
          = ((update_user 9 1 [("phone"%string, PyStr "555")] restaurant).1,
             Return true)) as H by (vm_compute; reflexivity).
  split; [exact H|].
  exact (proj1 (update_sets_updated_at 9 1 [("phone"%string, PyStr "555")]
                  restaurant) _ H).
Defined.

(** X20: When no field is a case variant of id or created_at, the three update
    functions leave the row under its identity with its created_at,
    whatever else they do. *)
Theorem update_keeps_identity (now : datetime) (id : Z) (fields : kwargs)
    (db : DB) :
  (∀ r, rel_users db !! id = Some r →
        no_case_variant (column_named users_columns) U_id U_created_at fields →
        ∃ r', rel_users (update_user now id fields db).1 !! id = Some r'
              ∧ users.created_at r' = users.created_at r)
  ∧ (∀ r, rel_tables db !! id = Some r →
          no_case_variant (column_named tables_columns) T_id T_created_at
            fields →
          ∃ r', rel_tables (update_table now id fields db).1 !! id = Some r'
                ∧ tables.created_at r' = tables.created_at r)
  ∧ (∀ r, rel_bookings db !! id = Some r →
          no_case_variant (column_named bookings_columns) B_id B_created_at
            fields →
          ∃ r', rel_bookings (update_booking now id fields db).1 !! id
                = Some r'
                ∧ bookings.created_at r' = bookings.created_at r).
Proof.
  split; [|split]; intros r Hr Hf.
  - by apply update_user_keeps_identity.
  - by apply update_table_keeps_identity.
  - by apply update_booking_keeps_identity.
Qed.

(** The keys id and created_at, so spelled, do not reach Ann's row. *)
Lemma update_keeps_identity_witness :
  rel_users restaurant !! 1 = Some ann
  ∧ ∃ r',
      rel_users
        (update_user 9 1 [("id"%string, PyInt 5);
                          ("created_at"%string, PyDatetime 77);
                          ("phone"%string, PyStr "555")] restaurant).1 !! 1
      = Some r'
      ∧ users.created_at r' = users.created_at ann.
Proof.
  assert (rel_users restaurant !! 1 = Some ann) as H
    by (vm_compute; reflexivity).
  split; [exact H|].
  apply (proj1 (update_keeps_identity 9 1 _ restaurant) ann H).
  apply Forall_cons_2; [left; simpl; by left|].
  apply Forall_cons_2; [left; simpl; right; by left|].
  apply Forall_cons_2; [right; by vm_compute|apply Forall_nil_2].
Defined.

(** ** The same slot twice *)

(** X15: A slot that a booking holds is not given away again: when a booking
    whose status is there and is not 'cancelled' has the table, the date and
    the time, and the table is available, create_booking for that table,
    date and time (without UTC offset), with a positive duration whose end
    is within the range of datetime, raises the conflict error and adds no
    row. *)
Theorem same_slot_is_refused
    (now : datetime) (user_id : Z) (guests_count : Z) (status : string)
    (notes : option string) (duration_hours : Z) (db : DB) (i : Z)
    (b : bookings.row) (t : tables.row) (s : string) :
  rel_bookings db !! i = Some b →
  bookings.status b = Some s → s ≠ "cancelled"%string →
  rel_tables db !! bookings.table_id b = Some t →
  tables.is_available t = Some true →
  0 < duration_hours →
  in_datetime_range (booking_start b + hours duration_hours) →
  create_booking now user_id (bookings.table_id b) (bookings.booking_date b)
    (bookings.booking_time b) guests_count status notes duration_hours db
  = (db,
     Raise (ValueError
              (TableAlreadyBooked (TableNumber (tables.table_number t))
                 (bookings.booking_date b) (bookings.booking_time b)))).
Proof.
  intros Hb Hst Hs Ht Hav Hd Hr.
  rewrite create_booking_eq.
  rewrite (check_table_availability_session_time db _ t) by done.
  unfold session_time. simpl.
  rewrite bool_decide_eq_false_2; [by rewrite Ht|].
  rewrite conflict_count_zero. intros Hnone. apply (Hnone i b Hb).
  unfold conflicts_with, cancelled, overlaps, booking_start.
  rewrite Hst. unfold hours, microseconds_per_hour.
  repeat split; try done; try lia. by intros [= ->].
Qed.

(** Table 1 at 18:00, a second time. *)
Lemma same_slot_is_refused_witness :
  rel_bookings booked_18 !! 1
  = Some (row_of_booking
            (created_booking 0 1 1 june_1 (oclock 18) 2 "pending" None
               restaurant))
  ∧ create_booking 4 1 1 june_1 (oclock 18) 3 "confirmed" None 1 booked_18
    = (booked_18,
       Raise (ValueError
                (TableAlreadyBooked (TableNumber "T1") june_1 (oclock 18)))).
Proof.
  assert (rel_bookings booked_18 !! 1
          = Some (row_of_booking
                    (created_booking 0 1 1 june_1 (oclock 18) 2 "pending" None
                       restaurant))) as H by (vm_compute; reflexivity).
  split; [exact H|].
  apply (same_slot_is_refused 4 1 3 "confirmed" None 1 booked_18 1 _ table_T1
           "pending" H); done.
Defined.

(** ** Witnesses of earlier lemmas *)

(** A call with the protected keys only. *)
Lemma update_without_fields_witness :
  Forall (λ kv : string * pyval, kv.1 ∈ protected_keys)
    [("id"%string, PyInt 5); ("updated_at"%string, PyNone)]
  ∧ update_booking 9 1 [("id"%string, PyInt 5); ("updated_at"%string, PyNone)]
      booked_18
    = (booked_18, Return false).
Proof.
  assert (Forall (λ kv : string * pyval, kv.1 ∈ protected_keys)
            [("id"%string, PyInt 5); ("updated_at"%string, PyNone)]) as H.
  { apply Forall_cons_2; [simpl; by left|].
    apply Forall_cons_2; [simpl; right; right; by left|apply Forall_nil_2]. }
  split; [exact H|].
  exact (proj2 (proj2 (update_without_fields 9 1 _ booked_18 H))).
Defined.

(** Notes with blanks around them, written by an update. *)
Lemma update_booking_normalizes_notes_witness :
  dict_get "notes" (updatable [("notes"%string, PyStr "  window seat ")])
  = Some (PyStr "  window seat ")
  ∧ ∃ i' r',
      rel_bookings
        (update_booking 9 1 [("notes"%string, PyStr "  window seat ")]
           booked_18).1
      = <[i' := r']> (delete 1 (rel_bookings booked_18))
      ∧ bookings.notes r' = Some "window seat"%string.
Proof.
  split; [reflexivity|].
  apply (update_booking_normalizes_notes 9 1
           [("notes"%string, PyStr "  window seat ")] (PyStr "  window seat ")
           booked_18); vm_compute; reflexivity.
Defined.

(** Notes with blanks around them, written at creation. *)
Lemma create_booking_normalizes_notes_witness :
  ∃ db' b,
    create_booking 0 1 1 june_1 (oclock 18) 2 "pending"
      (Some " by the window  "%string) 2 restaurant = (db', Return b)
    ∧ Booking.notes b = "by the window"%string.
Proof.
  eexists _, _. split; [vm_compute; reflexivity|].
  exact (proj1 (create_booking_normalizes_notes 0 1 1 june_1 (oclock 18) 2
                  "pending" (Some " by the window  "%string) 2 restaurant _ _
                  ltac:(vm_compute; reflexivity))).
Defined.

(** A table whose flag was set to None by update_table. *)
Lemma check_table_availability_null_flag_witness :
  tables.is_available
    <$> rel_tables
          (update_table 9 1 [("is_available"%string, PyNone)] restaurant).1
        !! 1
  = Some None
  ∧ check_table_availability 1 june_1 (oclock 18) 2
      (update_table 9 1 [("is_available"%string, PyNone)] restaurant).1
    = ((update_table 9 1 [("is_available"%string, PyNone)] restaurant).1,
       Raise (ValueError (TableUnavailable "T1"))).
Proof.
  split; [vm_compute; reflexivity|].
  apply (check_table_availability_null_flag _ 1
           (tables.mk "T1" 4 None None None (Some 0) (Some 9)));
    vm_compute; reflexivity.
Defined.

(** Bob cannot take Ann's email; Carol is new. *)
Lemma create_user_unique_and_readable_witness :
  (create_user 3 "bob" "ann@example.org" None None "client" true restaurant).2
  = Raise (DatabaseError UniqueViolation)
  ∧ get_user_by_username "carol"
      (create_user 3 "carol" "carol@example.org" None None "client" true
         restaurant).1
    = ((create_user 3 "carol" "carol@example.org" None None "client" true
          restaurant).1,
       Return (Some (User.mk 2 "carol" "carol@example.org" None None
                       (Some "client"%string) (Some true) (Some 3) (Some 3)))).
Proof.
  split.
  - apply (proj1 (create_user_unique_and_readable 3 "bob" "ann@example.org"
                    None None "client" true restaurant)).
    exists 1, ann. split; [vm_compute; reflexivity|by right].
  - apply (proj2 (create_user_unique_and_readable 3 "carol"
                    "carol@example.org" None None "client" true restaurant)).
    vm_compute. reflexivity.
Defined.

(** ** Listing users *)

Lemma newest_first_total : Total newest_first.
Proof.
  unfold newest_first. intros x y.
  destruct (users.created_at x.2), (users.created_at y.2); try tauto. lia.
Qed.

Lemma all_users_where_spec active_only role r :
  all_users_where active_only role r
  ↔ (active_only = true → users.is_active r = Some true)
    ∧ (∀ ro, role = Some ro → ro ≠ ""%string → users.role r = Some ro).
Proof.
  unfold all_users_where, given_str.
  destruct active_only, role as [[|c ro]|]; split; intros [H1 H2]; split;
    first [ done
          | by apply H1
          | by apply H2
          | by intros ? [= <-] ?
          | by intros ].
Qed.

(** X8: Without limit and offset get_all_users returns, each once, the users
    that its filters select: with active_only those whose flag is true (a
    flag that is false or missing leaves the user out), with a role that is
    not empty those that have the role; the empty role is no filter.  The
    list is ordered by created_at, newest first, users without it first. *)
Theorem users_listed (db : DB) (active_only : bool) (role : option string) :
  ∃ l, get_all_users active_only role None None db = (db, Return l)
       ∧ (∀ i r, user_of_row (i, r) ∈ l
                 ↔ rel_users db !! i = Some r
                   ∧ (active_only = true → users.is_active r = Some true)
                   ∧ (∀ ro, role = Some ro → ro ≠ ""%string →
                            users.role r = Some ro))
       ∧ NoDup (User.id <$> l)
       ∧ Sorted (λ x y : User.t,
                   match User.created_at x, User.created_at y with
                   | None, _ => True
                   | Some _, None => False
                   | Some a, Some b => b ≤ a
                   end) l.
Proof.
  assert (Inj (=) (=) user_of_row) as Hinj.
  { intros [i []] [j []] [=]. by simplify_eq. }
  eexists. split; [reflexivity|]. split; [|split].
  - intros i r. rewrite (list_elem_of_fmap_inj user_of_row).
    rewrite merge_sort_Permutation, elem_of_select_where.
    apply and_iff_compat_l, all_users_where_spec.
  - rewrite <- list_fmap_compose.
    change (NoDup (merge_sort newest_first
                     (select_where (all_users_where active_only role)
                        (rel_users db))).*1).
    rewrite merge_sort_Permutation. unfold select_where.
    eapply NoDup_fmap_fst; [|apply NoDup_filter, NoDup_map_to_list].
    intros i x y Hx Hy.
    apply list_elem_of_filter in Hx as [_ Hx].
    apply list_elem_of_filter in Hy as [_ Hy].
    apply elem_of_map_to_list in Hx. apply elem_of_map_to_list in Hy.
    congruence.
  - apply (Sorted_fmap user_of_row newest_first); [done|].
    apply (@Sorted_merge_sort _ newest_first _ newest_first_total).
Qed.
